(** * Sandbox providers of open-lovable: the self-hosted container engine

    A shallow embedding of [lib/sandbox/types.ts] (the provider contract),
    of [DockerClient] (the dockerode-backed engine client) and of
    [self-hosted-provider.ts] ([SimpleDockerClient] and
    [SelfHostedProvider]), followed by the properties of the provider
    contract that the code does, or does not, satisfy.

    Conventions of the embedding.
    - A JavaScript string is the list of its UTF-16 code units.
    - A promise that an [await] waits for is the pair of its settlement
      ([Fulfilled v] or [Rejected e]) and of the world after it; calls are
      awaited one after the other, as every caller of the contract does.
    - Everything outside the repository (the clock, [Math.random],
      the console, [fetch], the dockerode library) is reached through the
      classes [Runtime] and [Dockerode]; the engine client that the provider
      talks to is the class [Client.Api], of which [SimpleDockerClient] (the
      one the provider constructs) and test doubles are instances. *)

From Stdlib Require Import List ZArith NArith Bool String Ascii Lia DecimalString.
From Stdlib Require Import Permutation Sorted.
Import ListNotations.
Open Scope list_scope.

Set Implicit Arguments.

(** ** JavaScript strings *)

Definition jsstring := list N.

(** The code units of an ASCII literal of the source. *)
Definition js (s : string) : jsstring := map N_of_ascii (list_ascii_of_string s).

Definition jsstring_eq_dec : forall a b : jsstring, {a = b} + {a <> b} :=
  list_eq_dec N.eq_dec.

Definition jsstring_eqb (a b : jsstring) : bool :=
  if jsstring_eq_dec a b then true else false.

(** Truthiness of a [string | null | undefined] value: absent and the empty
    string are falsy. *)
Definition truthy (v : option jsstring) : bool :=
  match v with
  | Some (_ :: _) => true
  | _ => false
  end.

(** [v || fallback] for a [string | null] value. *)
Definition orElse (v : option jsstring) (fallback : jsstring) : jsstring :=
  match v with
  | Some (c :: s) => c :: s
  | _ => fallback
  end.

(** [String(n)] for an integral number. *)
Definition Number_toString (z : Z) : jsstring :=
  js (NilEmpty.string_of_int (Z.to_int z)).

(** [s.split(sep)] for a separator of one code unit. *)
Fixpoint split (sep : N) (s : jsstring) : list jsstring :=
  match s with
  | [] => [[]]
  | c :: s' =>
      if N.eqb c sep then [] :: split sep s'
      else match split sep s' with
           | piece :: pieces => (c :: piece) :: pieces
           | [] => [[c]]
           end
  end.

(** [parts.join(sep)]. *)
Fixpoint join (sep : jsstring) (parts : list jsstring) : jsstring :=
  match parts with
  | [] => []
  | [p] => p
  | p :: rest => p ++ sep ++ join sep rest
  end.

(** [s.substr(start, len)] for non-negative arguments. *)
Definition substr (start len : nat) (s : jsstring) : jsstring :=
  firstn len (skipn start s).

(** White space and line terminators of ECMAScript: what [trim] strips and
    what [\s] matches. *)
Definition isWhiteSpace (c : N) : bool :=
  existsb (N.eqb c)
    [9; 10; 11; 12; 13; 32; 160; 5760; 8232; 8233; 8239; 8287; 12288; 65279]%N
  || ((8192 <=? c) && (c <=? 8202))%N.

Fixpoint trimStart (s : jsstring) : jsstring :=
  match s with
  | c :: s' => if isWhiteSpace c then trimStart s' else s
  | [] => []
  end.

Definition trimEnd (s : jsstring) : jsstring := rev (trimStart (rev s)).

Definition trim (s : jsstring) : jsstring := trimEnd (trimStart s).

Fixpoint startsWith (prefix s : jsstring) : bool :=
  match prefix, s with
  | [], _ => true
  | p :: prefix', c :: s' => N.eqb p c && startsWith prefix' s'
  | _ :: _, [] => false
  end.

Fixpoint includes (needle s : jsstring) : bool :=
  startsWith needle s ||
  match s with
  | [] => false
  | _ :: s' => includes needle s'
  end.

(** [s.split(/\s+/)]: the pieces between maximal runs of white space.
    [in_run] says that the code unit before [s] was white space. *)
Fixpoint split_ws_from (in_run : bool) (s : jsstring) : list jsstring :=
  match s with
  | [] => [[]]
  | c :: s' =>
      if isWhiteSpace c then
        if in_run then split_ws_from true s' else [] :: split_ws_from true s'
      else match split_ws_from false s' with
           | piece :: pieces => (c :: piece) :: pieces
           | [] => [[c]]
           end
  end.

Definition split_ws (s : jsstring) : list jsstring := split_ws_from false s.

(** [s.replace(/'/g, "'\\''")]: every apostrophe becomes the four code units
    apostrophe, backslash, apostrophe, apostrophe. *)
Definition escapeSingleQuotes (s : jsstring) : jsstring :=
  flat_map (fun c => if N.eqb c 39 then [39; 92; 39; 39]%N else [c]) s.

(** ** Thrown values and settled promises *)

(** What a [catch (error)] can receive: an [Error] object with its message,
    or any other value, kept as its [String(error)] text. *)
Inductive thrown : Type :=
| ErrorObj (message : jsstring)
| NonError (text : jsstring).

(** [error instanceof Error ? error.message : String(error)]. *)
Definition errorText (e : thrown) : jsstring :=
  match e with
  | ErrorObj message => message
  | NonError text => text
  end.

Inductive Settlement (A : Type) : Type :=
| Fulfilled (value : A)
| Rejected (reason : thrown).

Arguments Fulfilled {A} value.
Arguments Rejected {A} reason.

(** ** lib/sandbox/types.ts *)

Inductive ProviderName : Type := e2b | vercel | self_hosted.

Record SandboxInfo : Type := {
  sandboxId : jsstring;
  url : jsstring;
  provider : ProviderName;
  createdAt : Z                       (* [new Date()], as its time value *)
}.

Record CommandResult : Type := {
  stdout : jsstring;
  stderr : jsstring;
  exitCode : Z;
  success : bool
}.

(** [success] is [exitCode === 0]. *)
Definition consistent (r : CommandResult) : Prop :=
  success r = (exitCode r =? 0)%Z.

Inductive AuthMethod : Type := oidc | pat.

Section Config.
(** The numbers of a configuration come from outside (a configuration
    file, [parseInt] of an environment variable) and the code never
    computes with them: their type is left open. *)
Variable number : Type.

Record E2bConfig : Type := {
  apiKey : jsstring;
  e2b_timeoutMs : option number;
  template : option jsstring
}.

Record VercelConfig : Type := {
  teamId : option jsstring;
  projectId : option jsstring;
  token : option jsstring;
  authMethod : option AuthMethod
}.

Record DockerConfig : Type := {
  socketPath : option jsstring;
  host : option jsstring;
  port : option number
}.

Record ResourcesOption : Type := {
  opt_memory : option number;
  opt_cpu : option number;
  opt_timeout : option number
}.

Record NetworkOption : Type := {
  opt_mode : option jsstring;
  opt_allowedPorts : option (list number)
}.

Record SelfHostedOption : Type := {
  opt_docker : option DockerConfig;
  opt_resources : option ResourcesOption;
  opt_network : option NetworkOption;
  opt_volumes : option (list jsstring);
  opt_baseImage : option jsstring
}.

Record SandboxProviderConfig : Type := {
  cfg_e2b : option E2bConfig;
  cfg_vercel : option VercelConfig;
  cfg_selfHosted : option SelfHostedOption
}.

(** [interface SelfHostedConfig] of self-hosted-provider.ts. *)
Record Resources : Type := {
  memory : Z;
  cpu : Z;
  timeout : Z
}.

Record Network : Type := {
  mode : jsstring;
  allowedPorts : list Z
}.

Record SelfHostedConfig : Type := {
  timeoutMinutes : Z;
  timeoutMs : Z;
  devPort : Z;
  devServerStartupDelay : Z;
  workingDirectory : jsstring;
  docker : DockerConfig;
  resources : Resources;
  network : Network;
  baseImage : jsstring;
  volumes : list jsstring
}.

(** [process.env], as far as the constructor reads it. *)
Record ProcessEnv : Type := {
  DOCKER_HOST : option jsstring;
  DOCKER_PORT : option jsstring
}.
End Config.

(** ** The JavaScript runtime *)

Class Runtime (W : Type) : Type := {
  (** [Date.now()], also the time value of [new Date()] *)
  Date_now : W -> Z * W;
  (** [Math.random().toString(36)] *)
  Math_random_toString36 : W -> jsstring * W;
  (** [console.log(...args)] *)
  console_log : list jsstring -> W -> W;
  (** [console.error(label, error)] *)
  console_error : jsstring -> thrown -> W -> W;
  (** [fetch('http://localhost/v1.25/_ping', ...)]: [response.ok], or the
      rejection of the request *)
  fetch_ping : W -> Settlement bool * W
}.

(** ** The engine client the provider drives *)

Module Client.

Record HostConfig : Type := {
  Memory : Z;
  CpuQuota : Z;
  NetworkMode : jsstring;
  AutoRemove : bool;
  PortBindings : list (jsstring * list jsstring)   (* container port, host ports *)
}.

Record CreateOptions : Type := {
  image : jsstring;
  name : jsstring;
  cmd : list jsstring;
  env : list (jsstring * jsstring);
  workingDir : jsstring;
  hostConfig : HostConfig
}.

Record PortBinding : Type := {
  HostIp : option jsstring;
  HostPort : option jsstring
}.

Record ContainerInfo : Type := {
  status : option jsstring;
  ports : list (jsstring * PortBinding)
}.

(** [ports[key]] *)
Fixpoint lookup (key : jsstring) (ports : list (jsstring * PortBinding))
  : option PortBinding :=
  match ports with
  | [] => None
  | (k, b) :: rest => if jsstring_eqb k key then Some b else lookup key rest
  end.

(** The promise of [execCommand] is the one [runCommand] races against a
    timer: besides its settlement it has the time, in milliseconds, that
    it takes to settle. *)
Record Timed (A : Type) : Type := {
  elapsed : Z;
  settlement : Settlement A
}.

(** The methods of the client that [SelfHostedProvider] calls. *)
Class Api (W : Type) : Type := {
  ping : W -> Settlement bool * W;
  createContainer : CreateOptions -> W -> Settlement jsstring * W;
  startContainer : jsstring -> W -> Settlement unit * W;
  execCommand : jsstring -> list jsstring -> W -> Timed CommandResult * W;
  writeFile : jsstring -> jsstring -> jsstring -> W -> Settlement unit * W;
  readFile : jsstring -> jsstring -> W -> Settlement jsstring * W;
  listFiles : jsstring -> option jsstring -> W -> Settlement (list jsstring) * W;
  getContainerInfo : jsstring -> W -> Settlement ContainerInfo * W;
  isContainerRunning : jsstring -> W -> Settlement bool * W;
  stopContainer : jsstring -> W -> Settlement unit * W;
  removeContainer : jsstring -> W -> Settlement unit * W
}.

End Client.

(** ** Asynchronous methods: state passing with exceptions *)

Section Async.
Variable S : Type.

Definition Async (A : Type) : Type := S -> Settlement A * S.

Definition ret {A} (a : A) : Async A := fun s => (Fulfilled a, s).

Definition throw {A} (e : thrown) : Async A := fun s => (Rejected e, s).

Definition bind {A B} (m : Async A) (k : A -> Async B) : Async B :=
  fun s =>
    match m s with
    | (Fulfilled a, s') => k a s'
    | (Rejected e, s') => (Rejected e, s')
    end.

(** [try { body } catch (error) { handler error }] *)
Definition try_catch {A} (body : Async A) (handler : thrown -> Async A) : Async A :=
  fun s =>
    match body s with
    | (Fulfilled a, s') => (Fulfilled a, s')
    | (Rejected e, s') => handler e s'
    end.

(** [try { body } finally { cleanup }], for a cleanup that completes
    normally. *)
Definition try_finally {A} (body : Async A) (cleanup : S -> S) : Async A :=
  fun s => let (r, s') := body s in (r, cleanup s').
End Async.

Arguments ret {S A} a.
Arguments throw {S A} e.
Arguments bind {S A B} m k.
Arguments try_catch {S A} body handler.
Arguments try_finally {S A} body cleanup.

Declare Scope async_scope.
Delimit Scope async_scope with async.
Notation "x <- m ;; k" := (bind m (fun x => k))
  (at level 100, m at next level, right associativity) : async_scope.
Notation "m ;;; k" := (bind m (fun _ => k))
  (at level 100, right associativity) : async_scope.
Open Scope async_scope.

(** Lifting the world's operations into a method of an object of state [T]. *)
Section Lifting.
Variables T W : Type.

Definition await {A} (op : W -> Settlement A * W) : Async (T * W) A :=
  fun s => let (r, w') := op (snd s) in (r, (fst s, w')).

Definition call {A} (op : W -> A * W) : Async (T * W) A :=
  fun s => let (a, w') := op (snd s) in (Fulfilled a, (fst s, w')).

Definition effect (op : W -> W) : Async (T * W) unit :=
  fun s => (Fulfilled tt, (fst s, op (snd s))).

Definition this : Async (T * W) T := fun s => (Fulfilled (fst s), s).

Definition assign (update : T -> T) : Async (T * W) unit :=
  fun s => (Fulfilled tt, (update (fst s), snd s)).
End Lifting.

Arguments await {T W A} op.
Arguments call {T W A} op.
Arguments effect {T W} op.
Arguments this {T W}.
Arguments assign {T W} update.

(** ** class SimpleDockerClient *)

Module SimpleDockerClient.
Section Methods.
Context {W : Type} {RT : Runtime W}.

Definition ping (w : W) : Settlement bool * W :=
  match fetch_ping w with
  | (Fulfilled ok, w') => (Fulfilled ok, w')
  | (Rejected error, w') =>
      (Fulfilled false, console_error (js "Docker ping failed:") error w')
  end.

Definition pullImage (image : jsstring) (w : W) : Settlement unit * W :=
  (Fulfilled tt, console_log [js "Pulling image: " ++ image] w).

Definition createContainer (config : Client.CreateOptions) (w : W)
  : Settlement jsstring * W :=
  let (now, w1) := Date_now w in
  let (random, w2) := Math_random_toString36 w1 in
  let containerId :=
    js "container-" ++ Number_toString now ++ js "-" ++ substr 2 9 random in
  (Fulfilled containerId, console_log [js "Creating container: " ++ containerId] w2).

Definition startContainer (containerId : jsstring) (w : W) : Settlement unit * W :=
  (Fulfilled tt, console_log [js "Starting container: " ++ containerId] w).

(** The method has no [await]: its promise is settled as soon as it is
    returned. *)
Definition execCommand (containerId : jsstring) (command : list jsstring) (w : W)
  : Client.Timed CommandResult * W :=
  let w' := console_log
              [js "Executing command in " ++ containerId ++ js ":";
               join (js " ") command] w in
  let commandStr := join (js " ") command in
  let result :=
    if includes (js "test -f") commandStr then
      {| stdout := js ""; stderr := js ""; exitCode := 1; success := false |}
    else if includes (js "mkdir") commandStr then
      {| stdout := js ""; stderr := js ""; exitCode := 0; success := true |}
    else
      {| stdout := js "Command executed: " ++ commandStr; stderr := js "";
         exitCode := 0; success := true |} in
  ({| Client.elapsed := 0; Client.settlement := Fulfilled result |}, w').

Definition writeFile (containerId path content : jsstring) (w : W)
  : Settlement unit * W :=
  (Fulfilled tt,
   console_log [js "Writing file to " ++ containerId ++ js ": " ++ path ++ js " ("
                ++ Number_toString (Z.of_nat (List.length content)) ++ js " bytes)"] w).

Definition readFile (containerId path : jsstring) (w : W) : Settlement jsstring * W :=
  (Fulfilled (js "{}"),
   console_log [js "Reading file from " ++ containerId ++ js ": " ++ path] w).

Definition listFiles (containerId : jsstring) (directory : option jsstring) (w : W)
  : Settlement (list jsstring) * W :=
  (Fulfilled [js "package.json"; js "src/"; js "index.html"],
   console_log [js "Listing files in " ++ containerId ++ js ": "
                ++ orElse directory (js "/")] w).

Definition getContainerInfo (containerId : jsstring) (w : W)
  : Settlement Client.ContainerInfo * W :=
  (Fulfilled {| Client.status := None;
                Client.ports := [(js "3000/tcp",
                                  {| Client.HostIp := None;
                                     Client.HostPort := Some (js "3001") |})] |},
   console_log [js "Getting container info: " ++ containerId] w).

Definition isContainerRunning (containerId : jsstring) (w : W) : Settlement bool * W :=
  (Fulfilled true,
   console_log [js "Checking if container is running: " ++ containerId] w).

Definition stopContainer (containerId : jsstring) (w : W) : Settlement unit * W :=
  (Fulfilled tt, console_log [js "Stopping container: " ++ containerId] w).

Definition removeContainer (containerId : jsstring) (w : W) : Settlement unit * W :=
  (Fulfilled tt, console_log [js "Removing container: " ++ containerId] w).

Definition api : Client.Api W := {|
  Client.ping := ping;
  Client.createContainer := createContainer;
  Client.startContainer := startContainer;
  Client.execCommand := execCommand;
  Client.writeFile := writeFile;
  Client.readFile := readFile;
  Client.listFiles := listFiles;
  Client.getContainerInfo := getContainerInfo;
  Client.isContainerRunning := isContainerRunning;
  Client.stopContainer := stopContainer;
  Client.removeContainer := removeContainer
|}.
End Methods.
End SimpleDockerClient.

(** ** class SelfHostedProvider extends SandboxProvider *)

(** [Promise.race([p, timer])] where the timer rejects with
    [new Error('Command timeout')] after [ms] milliseconds: the timer wins
    when [p] takes longer than [ms] to settle. Losing the race does not
    cancel [p]: what it does to the world is done all the same. *)
Definition race (p : Client.Timed CommandResult) (ms : Z) : Settlement CommandResult :=
  if (Client.elapsed p <=? ms)%Z then Client.settlement p
  else Rejected (ErrorObj (js "Command timeout")).

(** The code unit of the double quote. *)
Definition dquote : jsstring := [34%N].

Definition quoted (s : string) : jsstring := dquote ++ js s ++ dquote.

Definition newline : jsstring := [10%N].

(** [JSON.stringify(defaultPackageJson, null, 2)] *)
Definition defaultPackageJson : jsstring :=
  js "{" ++ newline ++
  js "  " ++ quoted "name" ++ js ": " ++ quoted "sandbox-project" ++ js "," ++ newline ++
  js "  " ++ quoted "version" ++ js ": " ++ quoted "1.0.0" ++ js "," ++ newline ++
  js "  " ++ quoted "scripts" ++ js ": {" ++ newline ++
  js "    " ++ quoted "dev" ++ js ": " ++ quoted "vite" ++ js "," ++ newline ++
  js "    " ++ quoted "build" ++ js ": " ++ quoted "vite build" ++ js "," ++ newline ++
  js "    " ++ quoted "preview" ++ js ": " ++ quoted "vite preview" ++ newline ++
  js "  }," ++ newline ++
  js "  " ++ quoted "dependencies" ++ js ": {}" ++ newline ++
  js "}".

Module SelfHostedProvider.
Section Methods.
Variable number : Type.
Variable parseInt : jsstring -> number.
Context {W : Type} {RT : Runtime W} {DC : Client.Api W}.

(** The fields of an instance. The client it holds is [DC]. *)
Record t : Type := {
  config : SandboxProviderConfig number;          (* SandboxProvider.config *)
  sandboxInfo : option SandboxInfo;               (* SandboxProvider.sandboxInfo *)
  containerId : option jsstring;
  selfHostedConfig : SelfHostedConfig number
}.

Definition set_containerId (v : option jsstring) (self : t) : t :=
  {| config := config self; sandboxInfo := sandboxInfo self;
     containerId := v; selfHostedConfig := selfHostedConfig self |}.

Definition set_sandboxInfo (v : option SandboxInfo) (self : t) : t :=
  {| config := config self; sandboxInfo := v;
     containerId := containerId self; selfHostedConfig := selfHostedConfig self |}.

Definition M (A : Type) : Type := Async (t * W) A.

Definition constructor (env : ProcessEnv) (config : SandboxProviderConfig number) : t :=
  {| config := config;
     sandboxInfo := None;
     containerId := None;
     selfHostedConfig :=
       {| timeoutMinutes := 30;
          timeoutMs := 30 * 60 * 1000;
          devPort := 3000;
          devServerStartupDelay := 7000;
          workingDirectory := js "/app";
          docker :=
            {| socketPath := Some (js "/var/run/docker.sock");
               host := DOCKER_HOST env;
               port := match DOCKER_PORT env with
                       | Some ((_ :: _) as p) => Some (parseInt p)
                       | _ => None
                       end |};
          resources :=
            {| memory := 512 * 1024 * 1024;
               cpu := 50000;
               timeout := 30000 |};
          network :=
            {| mode := js "bridge";
               allowedPorts := [3000; 4000; 5000; 8000; 8080]%Z |};
          baseImage := js "node:18-alpine";
          volumes := [] |} |}.

(** [new Error('Sandbox not created. Call createSandbox() first.')] *)
Definition notCreated : thrown :=
  ErrorObj (js "Sandbox not created. Call createSandbox() first.").

Definition workdir (self : t) : jsstring := workingDirectory (selfHostedConfig self).

Definition getSandboxUrl : M (option jsstring) :=
  self <- this ;;
  match containerId self with
  | Some ((_ :: _) as id) =>
      try_catch
        (containerInfo <- await (Client.getContainerInfo id) ;;
         match Client.lookup (js "3000/tcp") (Client.ports containerInfo) with
         | Some binding =>
             match Client.HostPort binding with
             | Some ((_ :: _) as hostPort) => ret (Some (js "http://localhost:" ++ hostPort))
             | _ => ret None
             end
         | None => ret None
         end)
        (fun error =>
           effect (console_error (js "Failed to get sandbox URL:") error) ;;;
           ret None)
  | _ => ret None
  end.

Definition initializeNodeEnvironment (id : jsstring) : M unit :=
  try_catch
    (self <- this ;;
     _ <- await (fun w => let (p, w') := Client.execCommand id
                                           [js "mkdir"; js "-p"; workdir self] w in
                          (Client.settlement p, w')) ;;
     packageJsonExists <-
       await (fun w => let (p, w') := Client.execCommand id
                                        [js "test"; js "-f";
                                         workdir self ++ js "/package.json"] w in
                       (Client.settlement p, w')) ;;
     if negb (success packageJsonExists) then
       await (Client.writeFile id (workdir self ++ js "/package.json") defaultPackageJson)
     else ret tt)
    (fun error =>
       effect (console_error (js "Failed to initialize Node.js environment:") error) ;;;
       throw error).

Definition createOptions (self : t) (sandboxId : jsstring) : Client.CreateOptions :=
  {| Client.image := baseImage (selfHostedConfig self);
     Client.name := sandboxId;
     Client.cmd := [js "/bin/sh"];
     Client.env := [(js "NODE_ENV", js "development")];
     Client.workingDir := workdir self;
     Client.hostConfig :=
       {| Client.Memory := memory (resources (selfHostedConfig self));
          Client.CpuQuota := cpu (resources (selfHostedConfig self));
          Client.NetworkMode := mode (network (selfHostedConfig self));
          Client.AutoRemove := true;
          Client.PortBindings := [(js "3000/tcp", [js "0"])] |} |}.

Definition createSandbox : M SandboxInfo :=
  isDockerAvailable <- await Client.ping ;;
  if negb isDockerAvailable then
    throw (ErrorObj (js "Docker is not available or not running"))
  else
    now <- call Date_now ;;
    random <- call Math_random_toString36 ;;
    let sandboxId := js "sandbox-" ++ Number_toString now ++ js "-" ++ substr 2 9 random in
    try_catch
      (self <- this ;;
       id <- await (Client.createContainer (createOptions self sandboxId)) ;;
       await (Client.startContainer id) ;;;
       assign (set_containerId (Some id)) ;;;
       initializeNodeEnvironment id ;;;
       sandboxUrl <- getSandboxUrl ;;
       date <- call Date_now ;;
       let info := {| sandboxId := sandboxId;
                      url := orElse sandboxUrl (js "");
                      provider := self_hosted;
                      createdAt := date |} in
       assign (set_sandboxInfo (Some info)) ;;;
       ret info)
      (fun error =>
         effect (console_error (js "Failed to create self-hosted sandbox:") error) ;;;
         throw (ErrorObj (js "Failed to create self-hosted sandbox: " ++ errorText error))).

(** The result that the [catch] branches of [runCommand] and
    [installPackages] build. *)
Definition failed (error : thrown) : CommandResult :=
  {| stdout := js ""; stderr := errorText error; exitCode := 1; success := false |}.

Definition runCommand (command : jsstring) : M CommandResult :=
  self <- this ;;
  match containerId self with
  | Some ((_ :: _) as id) =>
      try_catch
        (await (fun w => let (p, w') := Client.execCommand id (split 32 command) w in
                         (race p (timeout (resources (selfHostedConfig self))), w')))
        (fun error =>
           effect (console_error (js "Failed to execute command:") error) ;;;
           ret (failed error))
  | _ => throw notCreated
  end.

Definition writeFile (path content : jsstring) : M unit :=
  self <- this ;;
  match containerId self with
  | Some ((_ :: _) as id) =>
      try_catch
        (await (Client.writeFile id (workdir self ++ js "/" ++ path) content))
        (fun error =>
           effect (console_error (js "Failed to write file:") error) ;;;
           throw (ErrorObj (js "Failed to write file: " ++ errorText error)))
  | _ => throw notCreated
  end.

Definition readFile (path : jsstring) : M jsstring :=
  self <- this ;;
  match containerId self with
  | Some ((_ :: _) as id) =>
      try_catch
        (await (Client.readFile id (workdir self ++ js "/" ++ path)))
        (fun error =>
           effect (console_error (js "Failed to read file:") error) ;;;
           throw (ErrorObj (js "Failed to read file: " ++ errorText error)))
  | _ => throw notCreated
  end.

Definition listFiles (directory : option jsstring) : M (list jsstring) :=
  self <- this ;;
  match containerId self with
  | Some ((_ :: _) as id) =>
      try_catch
        (let fullPath :=
           match directory with
           | Some ((_ :: _) as d) => workdir self ++ js "/" ++ d
           | _ => workdir self
           end in
         await (Client.listFiles id (Some fullPath)))
        (fun error =>
           effect (console_error (js "Failed to list files:") error) ;;;
           throw (ErrorObj (js "Failed to list files: " ++ errorText error)))
  | _ => throw notCreated
  end.

Definition installPackages (packages : list jsstring) : M CommandResult :=
  self <- this ;;
  match containerId self with
  | Some (_ :: _) =>
      try_catch
        (let installCommand := js "npm install " ++ join (js " ") packages in
         runCommand installCommand)
        (fun error =>
           effect (console_error (js "Failed to install packages:") error) ;;;
           ret (failed error))
  | _ => throw notCreated
  end.

Definition getSandboxInfo : M (option SandboxInfo) :=
  self <- this ;;
  ret (sandboxInfo self).

Definition terminate : M unit :=
  self <- this ;;
  match containerId self with
  | Some ((_ :: _) as id) =>
      try_finally
        (try_catch
           (await (Client.stopContainer id) ;;;
            await (Client.removeContainer id))
           (fun error =>
              effect (console_error (js "Failed to terminate sandbox:") error)))
        (fun s => (set_sandboxInfo None (set_containerId None (fst s)), snd s))
  | _ => ret tt
  end.

Definition isAlive : M bool :=
  self <- this ;;
  match containerId self with
  | Some ((_ :: _) as id) =>
      try_catch
        (await (Client.isContainerRunning id))
        (fun error =>
           effect (console_error (js "Failed to check sandbox status:") error) ;;;
           ret false)
  | _ => ret false
  end.

(** *** Calls of the contract, one after the other *)

Inductive Call : Type :=
| CreateSandbox
| RunCommand (command : jsstring)
| WriteFile (path content : jsstring)
| ReadFile (path : jsstring)
| ListFiles (directory : option jsstring)
| InstallPackages (packages : list jsstring)
| GetSandboxUrl
| GetSandboxInfo
| Terminate
| IsAlive.

Inductive Answer : Type :=
| AInfo (info : SandboxInfo)
| AResult (result : CommandResult)
| AVoid
| AString (s : jsstring)
| AList (l : list jsstring)
| AUrl (u : option jsstring)
| AOptInfo (i : option SandboxInfo)
| ABool (b : bool).

Definition invoke (c : Call) : M Answer :=
  match c with
  | CreateSandbox => info <- createSandbox ;; ret (AInfo info)
  | RunCommand command => r <- runCommand command ;; ret (AResult r)
  | WriteFile path content => writeFile path content ;;; ret AVoid
  | ReadFile path => s <- readFile path ;; ret (AString s)
  | ListFiles directory => l <- listFiles directory ;; ret (AList l)
  | InstallPackages packages => r <- installPackages packages ;; ret (AResult r)
  | GetSandboxUrl => u <- getSandboxUrl ;; ret (AUrl u)
  | GetSandboxInfo => i <- getSandboxInfo ;; ret (AOptInfo i)
  | Terminate => terminate ;;; ret AVoid
  | IsAlive => b <- isAlive ;; ret (ABool b)
  end.

(** What the caller sees of a sequence of calls, and the instance and
    world it leaves. *)
Fixpoint session (calls : list Call) (s : t * W)
  : list (Settlement Answer) * (t * W) :=
  match calls with
  | [] => ([], s)
  | c :: rest =>
      let (answer, s') := invoke c s in
      let (answers, s'') := session rest s' in
      (answer :: answers, s'')
  end.

(** The instances that a caller can hold: a constructed one, and the one
    left by a call on such an instance, in whatever world the call is
    made. *)
Inductive reachable : t -> Prop :=
| reachable_new : forall env config, reachable (constructor env config)
| reachable_call : forall self c w,
    reachable self -> reachable (fst (snd (invoke c (self, w)))).

(** *** Vocabulary of the properties *)

(** The instance that [terminate] leaves when it has a handle. *)
Definition cleared (self : t) : t :=
  set_sandboxInfo None (set_containerId None self).


(** The client never gives the empty string for the id of a container. *)
Definition ids_nonempty : Prop :=
  forall options w id w',
    Client.createContainer options w = (Fulfilled id, w') -> id <> [].

(** A handle, when there is one, is not the empty string, and there is no
    cached information without a handle. *)
Definition well_formed (self : t) : Prop :=
  containerId self <> Some [] /\
  (containerId self = None -> sandboxInfo self = None).

(** The instance with another stored configuration, and the outcome of a
    method on it. *)
Definition with_config (cfg : SandboxProviderConfig number) (self : t) : t :=
  {| config := cfg; sandboxInfo := sandboxInfo self;
     containerId := containerId self; selfHostedConfig := selfHostedConfig self |}.

Definition in_config {A : Type} (cfg : SandboxProviderConfig number)
  (x : A * (t * W)) : A * (t * W) :=
  (fst x, (with_config cfg (fst (snd x)), snd (snd x))).

End Methods.

(** *** setupViteApp and restartViteServer *)

Definition viteConfig : jsstring :=
  js "" ++ newline ++
  js "import { defineConfig } from 'vite'" ++ newline ++
  js "import react from '@vitejs/plugin-react'" ++ newline ++
  js "" ++ newline ++
  js "export default defineConfig({" ++ newline ++
  js "  plugins: [react()]," ++ newline ++
  js "  server: {" ++ newline ++
  js "    host: '0.0.0.0'," ++ newline ++
  js "    port: 3000" ++ newline ++
  js "  }" ++ newline ++
  js "})".

Definition mainJsx : jsstring :=
  js "" ++ newline ++
  js "import React from 'react'" ++ newline ++
  js "import ReactDOM from 'react-dom/client'" ++ newline ++
  js "import App from './App.jsx'" ++ newline ++
  js "import './index.css'" ++ newline ++
  js "" ++ newline ++
  js "ReactDOM.createRoot(document.getElementById('root')).render(" ++ newline ++
  js "  <React.StrictMode>" ++ newline ++
  js "    <App />" ++ newline ++
  js "  </React.StrictMode>," ++ newline ++
  js ")".

Definition appJsx : jsstring :=
  js "" ++ newline ++
  js "import React from 'react'" ++ newline ++
  js "" ++ newline ++
  js "function App() {" ++ newline ++
  js "  return (" ++ newline ++
  js "    <div className=" ++ dquote ++ js "App" ++ dquote ++ js ">" ++ newline ++
  js "      <h1>Hello from Self-Hosted Sandbox!</h1>" ++ newline ++
  js "      <p>This is running in a Docker container.</p>" ++ newline ++
  js "    </div>" ++ newline ++
  js "  )" ++ newline ++
  js "}" ++ newline ++
  js "" ++ newline ++
  js "export default App".

Definition indexCss : jsstring :=
  js "" ++ newline ++
  js ":root {" ++ newline ++
  js "  font-family: Inter, system-ui, Avenir, Helvetica, Arial, sans-serif;" ++ newline ++
  js "  line-height: 1.5;" ++ newline ++
  js "  font-weight: 400;" ++ newline ++
  js "  color-scheme: light dark;" ++ newline ++
  js "  color: rgba(255, 255, 255, 0.87);" ++ newline ++
  js "  background-color: #242424;" ++ newline ++
  js "}" ++ newline ++
  js "" ++ newline ++
  js "* {" ++ newline ++
  js "  margin: 0;" ++ newline ++
  js "  padding: 0;" ++ newline ++
  js "  box-sizing: border-box;" ++ newline ++
  js "}" ++ newline ++
  js "" ++ newline ++
  js "body {" ++ newline ++
  js "  min-height: 100vh;" ++ newline ++
  js "  display: flex;" ++ newline ++
  js "  place-items: center;" ++ newline ++
  js "}" ++ newline ++
  js "" ++ newline ++
  js ".App {" ++ newline ++
  js "  text-align: center;" ++ newline ++
  js "  padding: 2rem;" ++ newline ++
  js "}" ++ newline ++
  js "" ++ newline ++
  js "h1 {" ++ newline ++
  js "  font-size: 3.2em;" ++ newline ++
  js "  line-height: 1.1;" ++ newline ++
  js "  margin-bottom: 1rem;" ++ newline ++
  js "}" ++ newline ++
  js "" ++ newline ++
  js "p {" ++ newline ++
  js "  font-size: 1.2em;" ++ newline ++
  js "}".

Definition indexHtml : jsstring :=
  js "<!DOCTYPE html>" ++ newline ++
  js "<html lang=" ++ dquote ++ js "en" ++ dquote ++ js ">" ++ newline ++
  js "  <head>" ++ newline ++
  js "    <meta charset=" ++ dquote ++ js "UTF-8" ++ dquote ++ js " />" ++ newline ++
  js "    <link rel=" ++ dquote ++ js "icon" ++ dquote ++ js " type=" ++ dquote ++ js "image/svg+xml" ++ dquote ++ js " href=" ++ dquote ++ js "/vite.svg" ++ dquote ++ js " />" ++ newline ++
  js "    <meta name=" ++ dquote ++ js "viewport" ++ dquote ++ js " content=" ++ dquote ++ js "width=device-width, initial-scale=1.0" ++ dquote ++ js " />" ++ newline ++
  js "    <title>Self-Hosted Sandbox</title>" ++ newline ++
  js "  </head>" ++ newline ++
  js "  <body>" ++ newline ++
  js "    <div id=" ++ dquote ++ js "root" ++ dquote ++ js "></div>" ++ newline ++
  js "    <script type=" ++ dquote ++ js "module" ++ dquote ++ js " src=" ++ dquote ++ js "/src/main.jsx" ++ dquote ++ js "></script>" ++ newline ++
  js "  </body>" ++ newline ++
  js "</html>".

Section DevServer.
Variable number : Type.
Context {W : Type} {RT : Runtime W} {DC : Client.Api W}.

(** The last steps of [setupViteApp] on the text of package.json, which
    have no effect but their result:
    [JSON.parse], the assignment of ['vite --host 0.0.0.0 --port 3000'] to
    [packageObj.scripts.dev] and [JSON.stringify(packageObj, null, 2)],
    any of which can raise. *)
Variable rewriteManifest : jsstring -> Settlement jsstring.

Definition setupViteApp : M number unit :=
  self <- this ;;
  match containerId self with
  | Some ((_ :: _) as id) =>
      try_catch
        (_ <- installPackages [js "vite"; js "@vitejs/plugin-react"; js "react";
                               js "react-dom"] ;;
         writeFile (js "vite.config.js") viteConfig ;;;
         _ <- await (fun w => let (p, w') := Client.execCommand id
                                               [js "mkdir"; js "-p";
                                                workdir self ++ js "/src"] w in
                              (Client.settlement p, w')) ;;
         writeFile (js "src/main.jsx") mainJsx ;;;
         writeFile (js "src/App.jsx") appJsx ;;;
         writeFile (js "src/index.css") indexCss ;;;
         writeFile (js "index.html") indexHtml ;;;
         packageJson <- readFile (js "package.json") ;;
         rewritten <- (fun s => (rewriteManifest packageJson, s)) ;;
         writeFile (js "package.json") rewritten)
        (fun error =>
           effect (console_error (js "Failed to setup Vite app:") error) ;;;
           throw error)
  | _ => throw notCreated
  end.

(** The wait of one second between the two commands changes nothing in
    the world. *)
Definition restartViteServer : M number unit :=
  self <- this ;;
  match containerId self with
  | Some ((_ :: _) as id) =>
      try_catch
        (_ <- await (fun w => let (p, w') := Client.execCommand id
                                               [js "pkill"; js "-f"; js "vite"] w in
                              (Client.settlement p, w')) ;;
         _ <- runCommand (js "npm run dev &") ;;
         ret tt)
        (fun error =>
           effect (console_error (js "Failed to restart Vite server:") error) ;;;
           throw error)
  | _ => throw notCreated
  end.

End DevServer.
End SelfHostedProvider.

(** ** class DockerClient, over the dockerode library *)

Module Dockerode.

(** A chunk of [data.output], with the text that
    [Buffer.from(chunk.stdout).toString()] gives. *)
Record Chunk : Type := {
  chunk_stdout : option jsstring;
  chunk_stderr : option jsstring
}.

Record ExecData : Type := {
  output : option (list Chunk)
}.

Record State : Type := {
  ExitCode : option Z;
  Status : jsstring
}.

(** The container [writeFile] creates. *)
Record HelperOptions : Type := {
  Image : jsstring;
  Cmd : list jsstring;
  AutoRemove : bool;
  VolumesFrom : list jsstring
}.

Class Api (W : Type) : Type := {
  (** [docker.ping()] *)
  ping : W -> Settlement unit * W;
  (** [docker.getContainer(id).exec({Cmd, AttachStdout, AttachStderr})]: the exec id *)
  exec : jsstring -> list jsstring -> W -> Settlement jsstring * W;
  (** [exec.start({hijack: false, stdin: false})] *)
  exec_start : jsstring -> W -> Settlement unit * W;
  (** [docker.modem.followExec(exec.id, containerId, ...)] *)
  followExec : jsstring -> jsstring -> W -> Settlement (option ExecData) * W;
  (** [docker.getContainer(id).inspect()], its [State] *)
  inspect : jsstring -> W -> Settlement State * W;
  (** [docker.createContainer(options)]: the id of the container *)
  createContainer : HelperOptions -> W -> Settlement jsstring * W;
  (** [container.start()] and [container.wait()] *)
  start : jsstring -> W -> Settlement unit * W;
  wait : jsstring -> W -> Settlement unit * W
}.

End Dockerode.

Module DockerClient.
Section Methods.
Context {W : Type} {RT : Runtime W} {D : Dockerode.Api W}.

(** A method of the client has no fields to change: its state is the
    world. *)
Definition M (A : Type) : Type := Async W A.

Definition await {A} (op : W -> Settlement A * W) : M A := op.

Definition effect (op : W -> W) : M unit := fun w => (Fulfilled tt, op w).

Definition ping : M bool :=
  try_catch
    (await Dockerode.ping ;;; ret true)
    (fun error =>
       effect (console_error (js "Docker connection failed:") error) ;;;
       ret false).

(** The loop over [data.output]. *)
Fixpoint collect (chunks : list Dockerode.Chunk) (out err : jsstring)
  : jsstring * jsstring :=
  match chunks with
  | [] => (out, err)
  | chunk :: rest =>
      let out' := match Dockerode.chunk_stdout chunk with
                  | Some text => out ++ text
                  | None => out
                  end in
      let err' := match Dockerode.chunk_stderr chunk with
                  | Some text => err ++ text
                  | None => err
                  end in
      collect rest out' err'
  end.

Definition execCommand (containerId : jsstring) (command : list jsstring)
  : M CommandResult :=
  try_catch
    (execId <- await (Dockerode.exec containerId command) ;;
     await (Dockerode.exec_start execId) ;;;
     data <- await (Dockerode.followExec execId containerId) ;;
     let (out, err) :=
       match data with
       | Some {| Dockerode.output := Some chunks |} => collect chunks (js "") (js "")
       | _ => (js "", js "")
       end in
     state <- await (Dockerode.inspect containerId) ;;
     let code := match Dockerode.ExitCode state with
                 | Some c => if (c =? 0)%Z then 0%Z else c
                 | None => 0%Z
                 end in
     ret {| stdout := out; stderr := err; exitCode := code;
            success := (code =? 0)%Z |})
    (fun error =>
       effect (console_error (js "Failed to execute command:") error) ;;;
       ret {| stdout := js ""; stderr := errorText error;
              exitCode := 1; success := false |}).

(** The command line of the helper container of [writeFile]. *)
Definition writeCommand (path content : jsstring) : list jsstring :=
  [js "sh"; js "-c";
   js "echo '" ++ escapeSingleQuotes content ++ js "' > " ++ path].

Definition writeFile (containerId path content : jsstring) : M unit :=
  try_catch
    (tempContainer <-
       await (Dockerode.createContainer
                {| Dockerode.Image := js "alpine:latest";
                   Dockerode.Cmd := writeCommand path content;
                   Dockerode.AutoRemove := true;
                   Dockerode.VolumesFrom := [containerId] |}) ;;
     await (Dockerode.start tempContainer) ;;;
     await (Dockerode.wait tempContainer))
    (fun error =>
       effect (console_error (js "Failed to write file:") error) ;;;
       throw error).

Definition readFile (containerId path : jsstring) : M jsstring :=
  try_catch
    (result <- execCommand containerId [js "cat"; path] ;;
     if negb (success result) then
       throw (ErrorObj (js "Failed to read file: " ++ stderr result))
     else ret (stdout result))
    (fun error =>
       effect (console_error (js "Failed to read file:") error) ;;;
       throw error).

(** [parts[parts.length - 1]], under the test [parts.length > 0]. *)
Definition lastPart (parts : list jsstring) : option jsstring :=
  match rev parts with
  | filename :: _ => Some filename
  | [] => None
  end.

(** The body of the loop over the lines: what a line adds to [files]. *)
Definition fileOfLine (line : jsstring) : list jsstring :=
  if startsWith (js "total") line || includes (js "<DIR>") line then []
  else
    match lastPart (split_ws (trim line)) with
    | Some filename =>
        if negb (jsstring_eqb filename (js ".")) && negb (jsstring_eqb filename (js ".."))
        then [filename]
        else []
    | None => []
    end.

(** [result.stdout.split('\n').filter(line => line.trim())] *)
Definition linesOf (text : jsstring) : list jsstring :=
  filter (fun line => match trim line with [] => false | _ :: _ => true end)
         (split 10 text).

Definition parseListing (text : jsstring) : list jsstring :=
  flat_map fileOfLine (linesOf text).

(** [directory] is [None] when the argument is left out or [undefined]:
    the parameter then has its default, ['/']. *)
Definition listFiles (containerId : jsstring) (directory : option jsstring)
  : M (list jsstring) :=
  let directory := match directory with Some d => d | None => js "/" end in
  try_catch
    (result <- execCommand containerId [js "ls"; js "-la"; directory] ;;
     if negb (success result) then
       throw (ErrorObj (js "Failed to list files: " ++ stderr result))
     else ret (parseListing (stdout result)))
    (fun error =>
       effect (console_error (js "Failed to list files:") error) ;;;
       throw error).

End Methods.
End DockerClient.

(** ** A laboratory world

    A concrete world to run the code in: a clock, a console, a network that
    is up or down, and a scripted container engine that records the argv of
    every command it is asked to execute. *)

Module Lab.

Inductive Line : Type :=
| Log (args : list jsstring)
| Err (label : jsstring) (error : thrown).

Record World : Type := {
  clock : Z;
  console : list Line;
  network_up : bool;
  issued : list (list jsstring);
  write_fails : bool;
  stop_fails : bool;
  inspect_fails : bool;
  exec_takes : Z;
  exit_code : Z
}.

Definition tick (w : World) : World :=
  {| clock := clock w + 1; console := console w; network_up := network_up w;
     issued := issued w; write_fails := write_fails w; stop_fails := stop_fails w;
     inspect_fails := inspect_fails w; exec_takes := exec_takes w;
     exit_code := exit_code w |}.

Definition print (l : Line) (w : World) : World :=
  {| clock := clock w; console := console w ++ [l]; network_up := network_up w;
     issued := issued w; write_fails := write_fails w; stop_fails := stop_fails w;
     inspect_fails := inspect_fails w; exec_takes := exec_takes w;
     exit_code := exit_code w |}.

Definition record (argv : list jsstring) (w : World) : World :=
  {| clock := clock w; console := console w; network_up := network_up w;
     issued := issued w ++ [argv]; write_fails := write_fails w;
     stop_fails := stop_fails w; inspect_fails := inspect_fails w;
     exec_takes := exec_takes w; exit_code := exit_code w |}.

#[global] Instance runtime : Runtime World := {|
  Date_now := fun w => (clock w, tick w);
  Math_random_toString36 := fun w => (js "0.4fzyo82mvyr", w);
  console_log := fun args w => print (Log args) w;
  console_error := fun label error w => print (Err label error) w;
  fetch_ping := fun w =>
    if network_up w then (Fulfilled true, w)
    else (Rejected (ErrorObj (js "fetch failed")), w)
|}.

(** The scripted engine: a container [c0ffee] whose commands take
    [exec_takes] milliseconds and exit with [exit_code] ([test] with 1),
    whose file writes, stops and inspections fail when the world says
    so. *)
Definition engine : Client.Api World := {|
  Client.ping := fun w => (Fulfilled true, w);
  Client.createContainer := fun _ w => (Fulfilled (js "c0ffee"), w);
  Client.startContainer := fun _ w => (Fulfilled tt, w);
  Client.execCommand := fun _ argv w =>
    let code := match argv with
                | head :: _ => if jsstring_eqb head (js "test") then 1%Z else exit_code w
                | [] => exit_code w
                end in
    ({| Client.elapsed := exec_takes w;
        Client.settlement :=
          Fulfilled {| stdout := js "out"; stderr := js "err"; exitCode := code;
                       success := (code =? 0)%Z |} |},
     record argv w);
  Client.writeFile := fun _ _ _ w =>
    if write_fails w then (Rejected (ErrorObj (js "No space left on device")), w)
    else (Fulfilled tt, w);
  Client.readFile := fun _ _ w => (Fulfilled (js ""), w);
  Client.listFiles := fun _ _ w => (Fulfilled [], w);
  Client.getContainerInfo := fun _ w =>
    if inspect_fails w then (Rejected (ErrorObj (js "No such container")), w)
    else (Fulfilled {| Client.status := Some (js "running"); Client.ports := [] |}, w);
  Client.isContainerRunning := fun _ w => (Fulfilled true, w);
  Client.stopContainer := fun _ w =>
    if stop_fails w then (Rejected (ErrorObj (js "No such container")), w)
    else (Fulfilled tt, w);
  Client.removeContainer := fun _ w => (Fulfilled tt, w)
|}.

(** A quiet world: the network is up, nothing fails, commands take 5 ms
    and exit with 0. *)
Definition calm : World :=
  {| clock := 1730000000000; console := []; network_up := true; issued := [];
     write_fails := false; stop_fails := false; inspect_fails := false;
     exec_takes := 5; exit_code := 0 |}.

Definition offline : World :=
  {| clock := 1730000000000; console := []; network_up := false; issued := [];
     write_fails := false; stop_fails := false; inspect_fails := false;
     exec_takes := 5; exit_code := 0 |}.

Definition disk_full : World :=
  {| clock := 1730000000000; console := []; network_up := true; issued := [];
     write_fails := true; stop_fails := false; inspect_fails := false;
     exec_takes := 5; exit_code := 0 |}.

Definition stubborn : World :=
  {| clock := 1730000000000; console := []; network_up := true; issued := [];
     write_fails := false; stop_fails := true; inspect_fails := false;
     exec_takes := 5; exit_code := 0 |}.

Definition blind : World :=
  {| clock := 1730000000000; console := []; network_up := true; issued := [];
     write_fails := false; stop_fails := false; inspect_fails := true;
     exec_takes := 5; exit_code := 0 |}.

Definition slow : World :=
  {| clock := 1730000000000; console := []; network_up := true; issued := [];
     write_fails := false; stop_fails := false; inspect_fails := false;
     exec_takes := 45000; exit_code := 0 |}.

Definition failing : World :=
  {| clock := 1730000000000; console := []; network_up := true; issued := [];
     write_fails := false; stop_fails := false; inspect_fails := false;
     exec_takes := 5; exit_code := 127 |}.

(** What [ls -la /app] prints in a new working directory. *)
Definition listing : jsstring :=
  js "total 12" ++ newline ++
  js "drwxr-xr-x    2 root     root          4096 Nov  3 05:45 ." ++ newline ++
  js "drwxr-xr-x    1 root     root          4096 Nov  3 05:45 .." ++ newline ++
  js "-rw-r--r--    1 root     root           171 Nov  3 05:45 package.json" ++ newline.

(** A scripted dockerode: every exec prints [listing] in one chunk, and the
    inspection of the container gives [exit_code]. *)
Definition daemon : Dockerode.Api World := {|
  Dockerode.ping := fun w => (Fulfilled tt, w);
  Dockerode.exec := fun _ argv w => (Fulfilled (js "exec-1"), record argv w);
  Dockerode.exec_start := fun _ w => (Fulfilled tt, w);
  Dockerode.followExec := fun _ _ w =>
    (Fulfilled (Some {| Dockerode.output :=
                          Some [{| Dockerode.chunk_stdout := Some listing;
                                   Dockerode.chunk_stderr := None |}] |}), w);
  Dockerode.inspect := fun _ w =>
    (Fulfilled {| Dockerode.ExitCode := Some (exit_code w);
                  Dockerode.Status := js "running" |}, w);
  Dockerode.createContainer := fun _ w => (Fulfilled (js "helper"), w);
  Dockerode.start := fun _ w => (Fulfilled tt, w);
  Dockerode.wait := fun _ w => (Fulfilled tt, w)
|}.

(** Numbers of a configuration, and a [parseInt] for decimal digits. *)
Definition parseInt (s : jsstring) : option Z :=
  fold_left (fun acc c =>
               match acc with
               | Some n => if ((48 <=? c) && (c <=? 57))%N
                           then Some (10 * n + Z.of_N (c - 48))%Z else None
               | None => None
               end) s (Some 0%Z).

Definition noEnv : ProcessEnv := {| DOCKER_HOST := None; DOCKER_PORT := None |}.

Definition emptyConfig : SandboxProviderConfig (option Z) :=
  {| cfg_e2b := None; cfg_vercel := None; cfg_selfHosted := None |}.

(** A configuration that asks for everything the constructor fixes. *)
Definition eagerConfig : SandboxProviderConfig (option Z) :=
  {| cfg_e2b := None; cfg_vercel := None;
     cfg_selfHosted :=
       Some {| opt_docker := None;
               opt_resources := Some {| opt_memory := Some (Some 1024%Z);
                                        opt_cpu := Some (Some 100000%Z);
                                        opt_timeout := Some (Some 100%Z) |};
               opt_network := Some {| opt_mode := Some (js "host");
                                      opt_allowedPorts := None |};
               opt_volumes := None;
               opt_baseImage := Some (js "node:20") |} |}.

(** A new provider, as [new SelfHostedProvider(config)] builds it. *)
Definition fresh : SelfHostedProvider.t (option Z) :=
  SelfHostedProvider.constructor parseInt noEnv emptyConfig.

(** The client of the source, in this world. *)
Definition simple : Client.Api World := SimpleDockerClient.api.

(** The provider and the world after [createSandbox], with the client of
    the source in the quiet world. *)
Definition sandbox : SelfHostedProvider.t (option Z) * World :=
  snd (SelfHostedProvider.createSandbox (DC := simple) (fresh, calm)).

(** The provider after [createSandbox] with the scripted engine, in the
    world [w]. *)
Definition provisioned (w : World) : SelfHostedProvider.t (option Z) :=
  fst (snd (SelfHostedProvider.invoke (DC := engine)
              SelfHostedProvider.CreateSandbox (fresh, w))).

End Lab.

(** ** lib/ai/model-service.ts *)

(** [array.sort(compare)]: the sort is stable, and for a comparator that
    orders consistently its result is the one of any stable sort; here, of
    the insertion of each element before the first one that it does not
    follow. *)
Section Sort.
Variable A : Type.
Variable compare : A -> A -> Z.

Fixpoint insert (x : A) (sorted : list A) : list A :=
  match sorted with
  | [] => [x]
  | y :: rest => if (compare x y <=? 0)%Z then x :: y :: rest else y :: insert x rest
  end.

Fixpoint sort (l : list A) : list A :=
  match l with
  | [] => []
  | x :: rest => insert x (sort rest)
  end.

(** [a] may come before [b]. *)
Definition precedes (a b : A) : Prop := (compare a b <= 0)%Z.
End Sort.

(** [array.slice(0, limit)] for an integral [limit]: a negative one counts
    from the end. *)
Definition slice0 {A : Type} (limit : Z) (l : list A) : list A :=
  if (limit <? 0)%Z then firstn (List.length l - Z.to_nat (- limit)) l
  else firstn (Z.to_nat limit) l.

(** The comparison of two strings by their code units, which is the order
    of [array.sort()] on strings: negative, zero or positive. *)
Fixpoint compareStrings (a b : jsstring) : Z :=
  match a, b with
  | [], [] => 0
  | [], _ :: _ => -1
  | _ :: _, [] => 1
  | x :: a', y :: b' =>
      match N.compare x y with
      | Lt => -1
      | Gt => 1
      | Eq => compareStrings a' b'
      end
  end.

Module ModelService.
Section Service.
(** The numbers of a model come from the network: their type is left open,
    with the three tests that the code makes on them. *)
Variable number : Type.
Variable isZero : number -> bool.                 (* [x === 0] *)
Variable isTruthy : number -> bool.               (* [x] as a condition *)
Variable lessThan : number -> number -> bool.     (* [x < y] *)
Variable toLowerCase : jsstring -> jsstring.      (* [s.toLowerCase()] *)

Record Pricing : Type := {
  prompt : number;
  completion : number
}.

Record Architecture : Type := {
  modality : option jsstring;
  tokenizer : option jsstring
}.

Record OpenRouterModel : Type := {
  id : jsstring;
  name : jsstring;
  description : option jsstring;
  pricing : Pricing;
  context_length : option number;
  max_tokens : option number;
  supported_output_types : option (list jsstring);
  architecture : option Architecture;
  top_provider : option jsstring
}.

Inductive ModelType : Type := text | vision | code.

Record ModelFilter : Type := {
  free : option bool;
  paid : option bool;
  search : option jsstring;
  type : option ModelType;
  minContextLength : option number;
  provider : option jsstring
}.

Record CachedModels : Type := {
  models : list OpenRouterModel;
  timestamp : Z
}.

Definition CACHE_DURATION : Z := 24 * 60 * 60 * 1000.

(** [value === true] for an optional boolean. *)
Definition isTrue (value : option bool) : bool :=
  match value with
  | Some true => true
  | _ => false
  end.

Definition isFree (model : OpenRouterModel) : bool :=
  isZero (prompt (pricing model)) && isZero (completion (pricing model)).

(** *** filterModels

    The callback of [models.filter] is a sequence of tests, each of which
    returns false or goes on to the next; the model is kept when all of them
    let it pass. *)

Definition passesPricing (filter : ModelFilter) (model : OpenRouterModel) : bool :=
  if isTrue (free filter) then
    negb (negb (isZero (prompt (pricing model)))
          || negb (isZero (completion (pricing model))))
  else if isTrue (paid filter) then
    negb (isZero (prompt (pricing model)) && isZero (completion (pricing model)))
  else true.

Definition passesSearch (filter : ModelFilter) (model : OpenRouterModel) : bool :=
  match search filter with
  | Some ((_ :: _) as term) =>
      let searchLower := toLowerCase term in
      negb (negb (includes searchLower (toLowerCase (name model)))
            && negb (includes searchLower (toLowerCase (id model)))
            && negb (match description model with
                     | Some d => includes searchLower (toLowerCase d)
                     | None => false
                     end))
  | _ => true
  end.

Definition passesType (filter : ModelFilter) (model : OpenRouterModel) : bool :=
  let supportedTypes :=
    match supported_output_types model with Some l => l | None => [] end in
  let modelIdLower := toLowerCase (id model) in
  match type filter with
  | Some vision =>
      negb (negb (includes (js "vision") modelIdLower)
            && negb (existsb (jsstring_eqb (js "image")) supportedTypes))
  | Some code =>
      negb (negb (includes (js "code") modelIdLower)
            && negb (includes (js "coding") modelIdLower))
  | Some text => true
  | None => true
  end.

Definition passesContext (filter : ModelFilter) (model : OpenRouterModel) : bool :=
  match minContextLength filter, context_length model with
  | Some minimum, Some length =>
      if isTruthy minimum && isTruthy length then negb (lessThan length minimum)
      else true
  | _, _ => true
  end.

Definition passesProvider (filter : ModelFilter) (model : OpenRouterModel) : bool :=
  match provider filter with
  | Some ((_ :: _) as wanted) =>
      match top_provider model with
      | Some p => jsstring_eqb (toLowerCase p) (toLowerCase wanted)
      | None => false
      end
  | _ => true
  end.

Definition keeps (filter : ModelFilter) (model : OpenRouterModel) : bool :=
  passesPricing filter model && passesSearch filter model && passesType filter model
  && passesContext filter model && passesProvider filter model.

Definition filterModels (models : list OpenRouterModel) (filter : ModelFilter)
  : list OpenRouterModel :=
  List.filter (keeps filter) models.

(** *** The network and the cache *)

(** What [response.json()] gives: null, or an object with its [data]
    field, absent when it is missing or falsy. The source returns
    [data.data] as it comes, without validating it: its elements are taken
    here to have the declared interface [OpenRouterModel]. A body whose
    models carry fields of other types, on which [filterModels] or the
    sorting would raise, is outside this embedding: the properties below
    are about models of the declared interface, and none of them says that
    these functions cannot raise on what the network sends. *)
Inductive Body : Type :=
| BodyNull
| BodyObject (data : option (list OpenRouterModel)).

Record Response : Type := {
  ok : bool;
  status : Z;
  statusText : jsstring;
  json : Settlement Body
}.

Class Network (W : Type) : Type := {
  (** [process.env.OPENROUTER_API_KEY] *)
  OPENROUTER_API_KEY : W -> option jsstring;
  (** [fetch('https://openrouter.ai/api/v1/models', ...)] with the key *)
  fetch_models : jsstring -> W -> Settlement Response * W;
  (** [console.warn(text)] and [console.error(text)] *)
  console_warn : jsstring -> W -> W;
  console_error_text : jsstring -> W -> W;
  (** the error of reading [data] of null *)
  null_data_error : thrown
}.

Context {W : Type} {RT : Runtime W} {NW : Network W}.

(** The state of the module is [cachedModels]. *)
Definition M (A : Type) : Type := Async (option CachedModels * W) A.

Definition settled {A : Type} (r : Settlement A) : M A := fun s => (r, s).

Definition fetchOpenRouterModels : M (list OpenRouterModel) :=
  fun s =>
    match OPENROUTER_API_KEY (snd s) with
    | Some ((_ :: _) as apiKey) =>
        try_catch
          (response <- await (fetch_models apiKey) ;;
           if negb (ok response) then
             effect (console_error_text
                       (js "[model-service] Failed to fetch models: "
                        ++ Number_toString (status response) ++ js " "
                        ++ statusText response)) ;;;
             ret []
           else
             data <- settled (json response) ;;
             match data with
             | BodyNull => throw null_data_error
             | BodyObject (Some l) => ret l
             | BodyObject None => ret []
             end)
          (fun error =>
             effect (console_error
                       (js "[model-service] Error fetching OpenRouter models:") error) ;;;
             ret [])
          s
    | _ =>
        (effect (console_warn (js "[model-service] OPENROUTER_API_KEY not configured")) ;;;
         ret []) s
    end.

(** The array that [getModels] returns is the one that the cache holds, or
    an array of its own. *)
Inductive ArrayRef : Type :=
| Cached
| Fresh (l : list OpenRouterModel).

Definition getModelsRef (forceRefresh : bool) : M ArrayRef :=
  now <- call Date_now ;;
  cache <- this ;;
  if negb forceRefresh
     && match cache with
        | Some c => (now - timestamp c <? CACHE_DURATION)%Z
        | None => false
        end
  then ret Cached
  else
    fetched <- fetchOpenRouterModels ;;
    if (0 <? List.length fetched)%nat then
      assign (fun _ => Some {| models := fetched; timestamp := now |}) ;;;
      ret Cached
    else ret (Fresh fetched).

Definition deref (ref : ArrayRef) : M (list OpenRouterModel) :=
  match ref with
  | Cached =>
      cache <- this ;;
      ret (match cache with Some c => models c | None => [] end)
  | Fresh l => ret l
  end.

Definition getModels (forceRefresh : bool) : M (list OpenRouterModel) :=
  ref <- getModelsRef forceRefresh ;;
  deref ref.

Definition getFilteredModels (filter : ModelFilter) : M (list OpenRouterModel) :=
  all <- getModels false ;;
  ret (filterModels all filter).

(** [providers.add(p)] on the elements of a set in insertion order. *)
Definition setAdd (set : list jsstring) (p : jsstring) : list jsstring :=
  if existsb (jsstring_eqb p) set then set else set ++ [p].

Definition providersOf (all : list OpenRouterModel) : list jsstring :=
  fold_left (fun set model =>
               match top_provider model with
               | Some ((_ :: _) as p) => setAdd set p
               | _ => set
               end) all [].

Definition getAvailableProviders : M (list jsstring) :=
  all <- getModels false ;;
  ret (sort compareStrings (providersOf all)).

Record ByPricing : Type := {
  freeModels : list OpenRouterModel;
  paidModels : list OpenRouterModel
}.

Definition byPricing (all : list OpenRouterModel) : ByPricing :=
  {| freeModels :=
       List.filter (fun m => isZero (prompt (pricing m))
                             && isZero (completion (pricing m))) all;
     paidModels :=
       List.filter (fun m => negb (isZero (prompt (pricing m)))
                             || negb (isZero (completion (pricing m)))) all |}.

Definition getModelsByPricing : M ByPricing :=
  all <- getModels false ;;
  ret (byPricing all).

Definition popularProviders : list jsstring :=
  [js "OpenAI"; js "Anthropic"; js "Google"; js "Meta"; js "Mistral"; js "Cohere"].

Definition isPopular (model : OpenRouterModel) : bool :=
  existsb (jsstring_eqb (orElse (top_provider model) (js ""))) popularProviders.

(** The comparator of [getRecommendedModels]. *)
Definition compareModels (a b : OpenRouterModel) : Z :=
  if negb (Bool.eqb (isFree a) (isFree b)) then (if isFree a then -1 else 1)
  else if negb (Bool.eqb (isPopular a) (isPopular b)) then (if isPopular a then -1 else 1)
  else 0.

(** [models.sort(...)] sorts the array in place: when it is the array of
    the cache, the cache holds the sorted array afterwards. *)
Definition getRecommendedModels (limit : Z) : M (list OpenRouterModel) :=
  ref <- getModelsRef false ;;
  match ref with
  | Cached =>
      cache <- this ;;
      match cache with
      | Some c =>
          let sorted := sort compareModels (models c) in
          assign (fun _ => Some {| models := sorted; timestamp := timestamp c |}) ;;;
          ret (slice0 limit sorted)
      | None => ret (slice0 limit [])
      end
  | Fresh l => ret (slice0 limit (sort compareModels l))
  end.

(** *** Vocabulary of the properties *)

(** The cache, when it holds a list, holds one that is not empty. *)
Definition holdsModels (cache : option CachedModels) : Prop :=
  match cache with
  | Some c => models c <> []
  | None => True
  end.

(** The place of a model in the recommendations: free before paid, and
    within each, popular providers first. *)
Definition rank (model : OpenRouterModel) : Z :=
  (if isFree model then 0 else 2) + (if isPopular model then 0 else 1).

End Service.
End ModelService.

(** ** class DockerClient: the inspection of a container *)

Module DockerInspect.

Record HostBinding : Type := {
  HostIp : jsstring;
  HostPort : jsstring
}.

(** [inspect.NetworkSettings], with the entries of its [Ports] object: for
    each container port the host bindings, or null. *)
Record NetworkSettings : Type := {
  Ports : option (list (jsstring * option (list HostBinding)))
}.

Record Inspect : Type := {
  Id : jsstring;
  Status : jsstring;                       (* [inspect.State.Status] *)
  Network : option NetworkSettings
}.

Class Api (W : Type) : Type := {
  (** [docker.getContainer(id).inspect()] *)
  inspect : jsstring -> W -> Settlement Inspect * W
}.

Record ContainerInfo : Type := {
  id : jsstring;
  status : jsstring;
  ports : list (jsstring * HostBinding);
  networkSettings : option NetworkSettings
}.

(** [object[key]] on the entries of an object. *)
Fixpoint get {A : Type} (key : jsstring) (entries : list (jsstring * A)) : option A :=
  match entries with
  | [] => None
  | (k, v) :: rest => if jsstring_eqb k key then Some v else get key rest
  end.

(** [object[key] = value] on the entries of an object: the value of an
    existing key is replaced, a new key is added at the end. *)
Fixpoint set {A : Type} (key : jsstring) (value : A) (entries : list (jsstring * A))
  : list (jsstring * A) :=
  match entries with
  | [] => [(key, value)]
  | (k, v) :: rest =>
      if jsstring_eqb k key then (k, value) :: rest else (k, v) :: set key value rest
  end.

Section Methods.
Context {W : Type} {RT : Runtime W} {D : Api W}.

(** The loop over [Object.entries(inspect.NetworkSettings.Ports)]. *)
Definition firstBindings (entries : list (jsstring * option (list HostBinding)))
  : list (jsstring * HostBinding) :=
  fold_left (fun ports entry =>
               match snd entry with
               | Some (binding :: _) => set (fst entry) binding ports
               | _ => ports
               end) entries [].

Definition getContainerInfo (containerId : jsstring) : Async W ContainerInfo :=
  try_catch
    (info <- inspect containerId ;;
     let ports :=
       match Network info with
       | Some {| Ports := Some entries |} => firstBindings entries
       | _ => []
       end in
     ret {| id := Id info; status := Status info; ports := ports;
            networkSettings := Network info |})
    (fun error w => (Rejected error, console_error (js "Failed to get container info:") error w)).

Definition isContainerRunning (containerId : jsstring) : Async W bool :=
  try_catch
    (info <- getContainerInfo containerId ;;
     ret (jsstring_eqb (status info) (js "running")))
    (fun _ => ret false).

End Methods.
End DockerInspect.

(** ** app/api/models/route.ts *)

Module ModelsRoute.
Section Route.
Variable number : Type.
Variable isZero : number -> bool.
Variable isTruthy : number -> bool.
Variable lessThan : number -> number -> bool.
Variable toLowerCase : jsstring -> jsstring.
(** [parseInt(s)], and the integer that [slice] makes of a number (0 of
    NaN). *)
Variable parseInt : jsstring -> number.
Variable toInteger : number -> Z.
(** [appConfig.ai.availableModels], of config/app.config.ts. *)
Variable AvailableModels : Type.
Variable availableModels : AvailableModels.
Context {W : Type} {RT : Runtime W} {NW : ModelService.Network number W}.

(** The bodies that the handler gives to [NextResponse.json]. *)
Inductive Body : Type :=
| KeyNotConfigured        (* error: 'OpenRouter API key not configured', available: false *)
| Providers (providers : list jsstring)
| Pricing (pricing : ModelService.ByPricing number)
| Recommended (models : list (ModelService.OpenRouterModel number))
| Models (models : list (ModelService.OpenRouterModel number)) (count : nat)
         (hasOpenRouterKey : bool) (available : AvailableModels)
| FailedToFetch.          (* error: 'Failed to fetch models' *)

Record Response : Type := {
  body : Body;
  status : Z
}.

(** [searchParams.get(name)]: the first value of the name, or null. *)
Fixpoint get (name : jsstring) (searchParams : list (jsstring * jsstring))
  : option jsstring :=
  match searchParams with
  | [] => None
  | (k, v) :: rest => if jsstring_eqb k name then Some v else get name rest
  end.

(** [searchParams.get(name) === value] *)
Definition equals (searchParams : list (jsstring * jsstring)) (name : string) (value : string)
  : bool :=
  match get (js name) searchParams with
  | Some v => jsstring_eqb v (js value)
  | None => false
  end.

(** The filter that the handler builds from the query. *)
Definition buildFilter (searchParams : list (jsstring * jsstring))
  : ModelService.ModelFilter number :=
  {| ModelService.free := if equals searchParams "free" "true" then Some true else None;
     ModelService.paid := if equals searchParams "paid" "true" then Some true else None;
     ModelService.search :=
       match get (js "search") searchParams with
       | Some ((_ :: _) as term) => Some term
       | _ => None
       end;
     ModelService.type :=
       match get (js "type") searchParams with
       | Some t =>
           if jsstring_eqb t (js "text") then Some (ModelService.text)
           else if jsstring_eqb t (js "vision") then Some (ModelService.vision)
           else if jsstring_eqb t (js "code") then Some (ModelService.code)
           else None
       | None => None
       end;
     ModelService.minContextLength :=
       match get (js "minContext") searchParams with
       | Some ((_ :: _) as minContext) => Some (parseInt minContext)
       | _ => None
       end;
     ModelService.provider :=
       match get (js "provider") searchParams with
       | Some ((_ :: _) as p) => Some p
       | _ => None
       end |}.

Definition GET (searchParams : list (jsstring * jsstring))
  : ModelService.M number (W := W) Response :=
  try_catch
    (fun s =>
       let hasOpenRouterKey := truthy (ModelService.OPENROUTER_API_KEY (snd s)) in
       let requestOpenRouter :=
         equals searchParams "provider" "openrouter"
         || match get (js "search") searchParams with
            | Some term => includes (js "openrouter") term
            | None => false
            end in
       if requestOpenRouter && negb hasOpenRouterKey then
         ret {| body := KeyNotConfigured; status := 400 |} s
       else if equals searchParams "providers" "true" then
         (providers <- ModelService.getAvailableProviders (number := number) ;;
          ret {| body := Providers providers; status := 200 |}) s
       else if equals searchParams "pricing" "true" then
         (pricing <- ModelService.getModelsByPricing isZero ;;
          ret {| body := Pricing pricing; status := 200 |}) s
       else if equals searchParams "recommended" "true" then
         (let limit := parseInt (orElse (get (js "limit") searchParams) (js "10")) in
          recommended <- ModelService.getRecommendedModels isZero (toInteger limit) ;;
          ret {| body := Recommended recommended; status := 200 |}) s
       else
         (let filter := buildFilter searchParams in
          models <- ModelService.getModels false ;;
          let filtered :=
            ModelService.filterModels isZero isTruthy lessThan toLowerCase models filter in
          ret {| body := Models filtered (List.length filtered) hasOpenRouterKey
                           availableModels;
                 status := 200 |}) s)
    (fun error =>
       effect (console_error (js "[models API] Error:") error) ;;;
       ret {| body := FailedToFetch; status := 500 |}).

End Route.
End ModelsRoute.

(** ** Test doubles of the model service and of the inspection *)

Module Bench.

(** Numbers as integers, with the tests of JavaScript on them, and the
    lower case of the letters A to Z. *)
Definition isZero (x : Z) : bool := (x =? 0)%Z.
Definition isTruthy (x : Z) : bool := negb (x =? 0)%Z.
Definition lessThan (x y : Z) : bool := (x <? y)%Z.
Definition toLowerCase (s : jsstring) : jsstring :=
  map (fun c => if ((65 <=? c) && (c <=? 90))%N then (c + 32)%N else c) s.
Definition toInteger (x : Z) : Z := x.
Definition parseInt (s : jsstring) : Z :=
  match Lab.parseInt s with
  | Some n => n
  | None => 0%Z
  end.

Definition model (id provider : string) (price : Z) (context : option Z)
  : ModelService.OpenRouterModel Z :=
  {| ModelService.id := js id;
     ModelService.name := js id;
     ModelService.description := None;
     ModelService.pricing := {| ModelService.prompt := price;
                                ModelService.completion := price |};
     ModelService.context_length := context;
     ModelService.max_tokens := None;
     ModelService.supported_output_types := None;
     ModelService.architecture := None;
     ModelService.top_provider :=
       match provider with
       | EmptyString => None
       | _ => Some (js provider)
       end |}.

Definition gpt : ModelService.OpenRouterModel Z :=
  model "openai/gpt-4o" "OpenAI" 5 (Some 128000%Z).
Definition llama : ModelService.OpenRouterModel Z :=
  model "meta-llama/llama-3-8b:free" "Meta" 0 (Some 8192%Z).
Definition orphan : ModelService.OpenRouterModel Z :=
  model "community/orphan" EmptyString 0 None.

Definition catalogue : list (ModelService.OpenRouterModel Z) := [gpt; llama; orphan].

Definition anything : ModelService.ModelFilter Z :=
  {| ModelService.free := None; ModelService.paid := None;
     ModelService.search := None; ModelService.type := None;
     ModelService.minContextLength := None; ModelService.provider := None |}.

Definition freeOnly : ModelService.ModelFilter Z :=
  {| ModelService.free := Some true; ModelService.paid := None;
     ModelService.search := None; ModelService.type := None;
     ModelService.minContextLength := None; ModelService.provider := None |}.

Definition ofMeta : ModelService.ModelFilter Z :=
  {| ModelService.free := None; ModelService.paid := None;
     ModelService.search := None; ModelService.type := None;
     ModelService.minContextLength := None; ModelService.provider := Some (js "meta") |}.

Inductive Line : Type :=
| Warn (text : jsstring)
| Error (text : jsstring)
| ErrorWith (label : jsstring) (error : thrown).

(** A world of the service: a clock, the key of the environment, what the
    request for the models is answered with, and the console. *)
Record World : Type := {
  clock : Z;
  key : option jsstring;
  answer : Settlement (ModelService.Response Z);
  requests : nat;
  console : list Line
}.

Definition print (l : Line) (w : World) : World :=
  {| clock := clock w; key := key w; answer := answer w; requests := requests w;
     console := console w ++ [l] |}.

#[global] Instance runtime : Runtime World := {|
  Date_now := fun w =>
    (clock w, {| clock := clock w + 1; key := key w; answer := answer w;
                 requests := requests w; console := console w |});
  Math_random_toString36 := fun w => (js "0.4fzyo82mvyr", w);
  console_log := fun _ w => w;
  console_error := fun label error w => print (ErrorWith label error) w;
  fetch_ping := fun w => (Fulfilled true, w)
|}.

#[global] Instance network : ModelService.Network Z World := {|
  ModelService.OPENROUTER_API_KEY := key;
  ModelService.fetch_models := fun _ w =>
    (answer w, {| clock := clock w; key := key w; answer := answer w;
                  requests := S (requests w); console := console w |});
  ModelService.console_warn := fun text w => print (Warn text) w;
  ModelService.console_error_text := fun text w => print (Error text) w;
  ModelService.null_data_error :=
    ErrorObj (js "Cannot read properties of null (reading 'data')")
|}.

Definition serving (l : list (ModelService.OpenRouterModel Z))
  : Settlement (ModelService.Response Z) :=
  Fulfilled {| ModelService.ok := true; ModelService.status := 200;
               ModelService.statusText := js "OK";
               ModelService.json := Fulfilled (ModelService.BodyObject (Some l)) |}.

(** A world with a key, where the request is answered with the
    catalogue. *)
Definition online : World :=
  {| clock := 1730000000000; key := Some (js "sk-or-v1-0");
     answer := serving catalogue; requests := 0; console := [] |}.

(** A world without a key. *)
Definition keyless : World :=
  {| clock := 1730000000000; key := None;
     answer := serving catalogue; requests := 0; console := [] |}.

(** A world with a key, where the request fails. *)
Definition unreachable : World :=
  {| clock := 1730000000000; key := Some (js "sk-or-v1-0");
     answer := Rejected (ErrorObj (js "fetch failed")); requests := 0; console := [] |}.

(** A cache of the catalogue, one hour old in these worlds. *)
Definition warm : ModelService.CachedModels Z :=
  {| ModelService.models := catalogue; ModelService.timestamp := 1729996400000 |}.

(** An inspection: port 3000 is published on 32768, port 5173 is exposed but
    not published. *)
Definition inspection : DockerInspect.Inspect :=
  {| DockerInspect.Id := js "c0ffee";
     DockerInspect.Status := js "running";
     DockerInspect.Network :=
       Some {| DockerInspect.Ports :=
                 Some [(js "3000/tcp",
                        Some [{| DockerInspect.HostIp := js "0.0.0.0";
                                 DockerInspect.HostPort := js "32768" |};
                              {| DockerInspect.HostIp := js "::";
                                 DockerInspect.HostPort := js "32768" |}]);
                       (js "5173/tcp", None)] |} |}.

Definition inspector : DockerInspect.Api Lab.World := {|
  DockerInspect.inspect := fun _ w =>
    if Lab.inspect_fails w then (Rejected (ErrorObj (js "No such container")), w)
    else (Fulfilled inspection, w)
|}.

(** [JSON.parse], the assignment to [scripts.dev] and [JSON.stringify] on
    the text of a manifest without scripts. *)
Definition rewriteManifest (text : jsstring) : Settlement jsstring :=
  Rejected (ErrorObj (js "Cannot set properties of undefined (setting 'dev')")).

End Bench.

(** * Properties *)

Unset Implicit Arguments.

Import SelfHostedProvider.

(** ** Strings *)

Example split_spaces : split 32 (js "npm  run dev") = [js "npm"; js ""; js "run"; js "dev"].
Proof. reflexivity. Qed.

Example split_empty : split 32 (js "") = [js ""].
Proof. reflexivity. Qed.

Example split_ws_padded : split_ws (js " a  b ") = [js ""; js "a"; js "b"; js ""].
Proof. reflexivity. Qed.

Example trim_padded : trim (js "  total 8 ") = js "total 8".
Proof. reflexivity. Qed.

Example number_zero : Number_toString 0 = js "0" /\ Number_toString 1730000000000 = js "1730000000000".
Proof. split; reflexivity. Qed.

(** The listing of a new working directory. *)
Example parseListing_new_directory :
  DockerClient.parseListing Lab.listing = [js "package.json"].
Proof. reflexivity. Qed.

(** A piece without the separator, followed by the separator, is split
    off. *)
Lemma split_app_sep : forall sep piece rest,
    ~ In sep piece ->
    split sep (piece ++ sep :: rest) = piece :: split sep rest.
Proof.
  intros sep piece rest. induction piece as [|c piece IH]; intros Hfree; simpl.
  - now rewrite N.eqb_refl.
  - destruct (N.eqb_spec c sep) as [->|Hne].
    + exfalso. apply Hfree. now left.
    + rewrite IH; [reflexivity|]. intros Hin. apply Hfree. now right.
Qed.

Lemma split_no_sep : forall sep piece, ~ In sep piece -> split sep piece = [piece].
Proof.
  intros sep piece. induction piece as [|c piece IH]; intros Hfree; simpl.
  - reflexivity.
  - destruct (N.eqb_spec c sep) as [->|Hne].
    + exfalso. apply Hfree. now left.
    + rewrite IH; [reflexivity|]. intros Hin. apply Hfree. now right.
Qed.

(** Splitting undoes joining, for pieces that do not contain the
    separator. *)
Lemma split_join : forall sep parts,
    parts <> [] ->
    Forall (fun p => ~ In sep p) parts ->
    split sep (join [sep] parts) = parts.
Proof.
  intros sep parts. induction parts as [|p rest IH]; intros Hne Hfree.
  - contradiction.
  - inversion Hfree as [|? ? Hp Hrest]; subst.
    destruct rest as [|q rest].
    + simpl. now apply split_no_sep.
    + change (join [sep] (p :: q :: rest)) with (p ++ [sep] ++ join [sep] (q :: rest)).
      simpl app at 2. rewrite split_app_sep by assumption.
      f_equal. apply IH; [discriminate | assumption].
Qed.

(** ** The provider, whatever the engine client *)

(** Case analysis on the innermost scrutinee of a term. *)
Ltac destruct_innermost x :=
  lazymatch x with
  | context [match ?y with _ => _ end] => destruct_innermost y
  | _ => destruct x eqn:?
  end.

Ltac unfold_async :=
  unfold bind, try_catch, try_finally, await, call, effect, this, assign, ret, throw.

Section Provider.
Variable number : Type.
Variable parseInt : jsstring -> number.
Context {W : Type} {RT : Runtime W} {DC : Client.Api W}.

(** C1. For every command, [runCommand] on a provider whose container
    handle is absent raises the error "Sandbox not created. Call
    createSandbox() first." and executes nothing: the instance and the
    world are left as they were. *)
Theorem runCommand_before_createSandbox :
  forall (self : t number) (w : W) (command : jsstring),
    containerId self = None ->
    runCommand command (self, w) = (Rejected notCreated, (self, w)).
Proof.
  intros self w command Habsent.
  unfold runCommand. unfold_async. simpl. now rewrite Habsent.
Qed.

(** *** What each method leaves of the instance *)

Ltac crunch :=
  repeat (simpl in *; try reflexivity;
          match goal with
          | |- context [match ?x with _ => _ end] => destruct_innermost x
          end).

Lemma getSandboxUrl_frame : forall (self : t number) (w : W),
    fst (snd (getSandboxUrl (self, w))) = self.
Proof. intros. unfold getSandboxUrl. unfold_async. crunch. Qed.

Lemma getSandboxInfo_frame : forall (self : t number) (w : W),
    getSandboxInfo (self, w) = (Fulfilled (sandboxInfo self), (self, w)).
Proof. reflexivity. Qed.

Lemma initializeNodeEnvironment_frame : forall id (self : t number) (w : W),
    fst (snd (initializeNodeEnvironment id (self, w))) = self.
Proof. intros. unfold initializeNodeEnvironment. unfold_async. crunch. Qed.

Lemma runCommand_frame : forall command (self : t number) (w : W),
    fst (snd (runCommand command (self, w))) = self.
Proof. intros. unfold runCommand. unfold_async. crunch. Qed.

Lemma writeFile_frame : forall path content (self : t number) (w : W),
    fst (snd (writeFile path content (self, w))) = self.
Proof. intros. unfold writeFile. unfold_async. crunch. Qed.

Lemma readFile_frame : forall path (self : t number) (w : W),
    fst (snd (readFile path (self, w))) = self.
Proof. intros. unfold readFile. unfold_async. crunch. Qed.

Lemma listFiles_frame : forall directory (self : t number) (w : W),
    fst (snd (listFiles directory (self, w))) = self.
Proof. intros. unfold listFiles. unfold_async. crunch. Qed.

Lemma installPackages_frame : forall packages (self : t number) (w : W),
    fst (snd (installPackages packages (self, w))) = self.
Proof.
  intros. unfold installPackages. unfold_async. simpl.
  destruct (containerId self) as [[|c id]|] eqn:Hid; try reflexivity.
  pose proof (runCommand_frame (js "npm install " ++ join (js " ") packages) self w) as H.
  destruct (runCommand _ (self, w)) as [[r|e] [self' w']]; simpl in *; now subst.
Qed.

Lemma isAlive_frame : forall (self : t number) (w : W),
    fst (snd (isAlive (self, w))) = self.
Proof. intros. unfold isAlive. unfold_async. crunch. Qed.

Lemma terminate_cases : forall (self : t number) (w : W),
    fst (terminate (self, w)) = Fulfilled tt /\
    fst (snd (terminate (self, w))) =
      (if truthy (containerId self) then cleared self else self).
Proof.
  intros. unfold terminate. unfold_async. unfold truthy. simpl.
  destruct (containerId self) as [[|c id]|]; simpl; auto.
  destruct (Client.stopContainer (c :: id) w) as [[[]|e] w1]; simpl; auto.
  destruct (Client.removeContainer (c :: id) w1) as [[[]|e] w2]; simpl; auto.
Qed.

(** [createSandbox] leaves the instance as it was, or with a handle that
    the client's [createContainer] gave, with or without the information
    of the new sandbox. *)
Lemma createSandbox_cases : forall (self : t number) (w : W),
    let self' := fst (snd (createSandbox (self, w))) in
    self' = self \/
    exists options w1 w2 id,
      Client.createContainer options w1 = (Fulfilled id, w2) /\
      (self' = set_containerId (Some id) self \/
       exists info, self' = set_sandboxInfo (Some info) (set_containerId (Some id) self)).
Proof.
  intros self w. unfold createSandbox. unfold_async. simpl.
  destruct (Client.ping w) as [[[|]|e] w1]; simpl; auto.
  destruct (Date_now w1) as [now w2]. simpl.
  destruct (Math_random_toString36 w2) as [random w3]. simpl.
  destruct (Client.createContainer _ w3) as [[id|e] w4] eqn:Hcreate; simpl; auto.
  destruct (Client.startContainer id w4) as [[[]|e] w5]; simpl; auto.
  right. exists (createOptions self (js "sandbox-" ++ Number_toString now ++ js "-" ++ substr 2 9 random)), w3, w4, id.
  split; [exact Hcreate|].
  pose proof (initializeNodeEnvironment_frame id (set_containerId (Some id) self) w5) as Hinit.
  destruct (initializeNodeEnvironment id (set_containerId (Some id) self, w5))
    as [[[]|e] [self1 w6]]; simpl in *; subst self1; auto.
  pose proof (getSandboxUrl_frame (set_containerId (Some id) self) w6) as Hurl.
  destruct (getSandboxUrl (set_containerId (Some id) self, w6))
    as [[u|e] [self2 w7]]; simpl in *; subst self2; auto.
  destruct (Date_now w7) as [date w8]. simpl. right. eauto.
Qed.

(** A successful [createSandbox] leaves the handle that the client's
    [createContainer] gave and the information that it returns. *)
Lemma createSandbox_fulfilled : forall (self : t number) (w : W) info s',
    createSandbox (self, w) = (Fulfilled info, s') ->
    exists options w1 w2 id,
      Client.createContainer options w1 = (Fulfilled id, w2) /\
      fst s' = set_sandboxInfo (Some info) (set_containerId (Some id) self).
Proof.
  intros self w info s'. unfold createSandbox. unfold_async. simpl.
  destruct (Client.ping w) as [[[|]|e] w1]; simpl; try discriminate.
  destruct (Date_now w1) as [now w2]. simpl.
  destruct (Math_random_toString36 w2) as [random w3]. simpl.
  destruct (Client.createContainer _ w3) as [[id|e] w4] eqn:Hcreate; simpl;
    try discriminate.
  destruct (Client.startContainer id w4) as [[[]|e] w5]; simpl; try discriminate.
  pose proof (initializeNodeEnvironment_frame id (set_containerId (Some id) self) w5) as Hinit.
  destruct (initializeNodeEnvironment id (set_containerId (Some id) self, w5))
    as [[[]|e] [self1 w6]]; simpl in *; subst self1; try discriminate.
  pose proof (getSandboxUrl_frame (set_containerId (Some id) self) w6) as Hurl.
  destruct (getSandboxUrl (set_containerId (Some id) self, w6))
    as [[u|e] [self2 w7]]; simpl in *; subst self2; try discriminate.
  destruct (Date_now w7) as [date w8]. simpl.
  intros E. injection E as <- <-. simpl. eauto 8.
Qed.

(** A call of the contract leaves the instance as it was, or cleared by
    [terminate], or as [createSandbox] leaves it. *)
Lemma invoke_cases : forall c (self : t number) (w : W),
    let self' := fst (snd (invoke c (self, w))) in
    self' = self \/
    (truthy (containerId self) = true /\ self' = cleared self) \/
    exists options w1 w2 id,
      Client.createContainer options w1 = (Fulfilled id, w2) /\
      (self' = set_containerId (Some id) self \/
       exists info, self' = set_sandboxInfo (Some info) (set_containerId (Some id) self)).
Proof.
  intros c self w.
  assert (Hbind : forall A (m : M number A) (f : A -> Answer),
             fst (snd (bind m (fun x => ret (f x)) (self, w))) = fst (snd (m (self, w)))).
  { intros A m f. unfold bind, ret. destruct (m (self, w)) as [[a|e] s']; reflexivity. }
  destruct c; cbv zeta; unfold invoke; rewrite Hbind.
  - destruct (createSandbox_cases self w) as [H|H]; auto.
  - left. apply runCommand_frame.
  - left. apply writeFile_frame.
  - left. apply readFile_frame.
  - left. apply listFiles_frame.
  - left. apply installPackages_frame.
  - left. apply getSandboxUrl_frame.
  - left. reflexivity.
  - destruct (terminate_cases self w) as [_ H]. rewrite H.
    destruct (truthy (containerId self)); auto.
  - left. apply isAlive_frame.
Qed.

(** No call changes the settings that the constructor fixed. *)
Lemma invoke_selfHostedConfig : forall c (self : t number) (w : W),
    selfHostedConfig (fst (snd (invoke c (self, w)))) = selfHostedConfig self.
Proof.
  intros c self w.
  destruct (invoke_cases c self w) as [H|[[_ H]|(o & w1 & w2 & id & _ & [H|[info H]])]];
    rewrite H; reflexivity.
Qed.

Lemma reachable_selfHostedConfig : forall self : t number,
    reachable parseInt self ->
    exists env config,
      selfHostedConfig self = selfHostedConfig (constructor parseInt env config).
Proof.
  intros self Hreach. induction Hreach as [env config | self c w _ IH].
  - now exists env, config.
  - rewrite invoke_selfHostedConfig. exact IH.
Qed.

Lemma reachable_timeout : forall self : t number,
    reachable parseInt self -> timeout (resources (selfHostedConfig self)) = 30000%Z.
Proof.
  intros self Hreach.
  destruct (reachable_selfHostedConfig self Hreach) as (env & config & ->). reflexivity.
Qed.

(** *** The handle and the cached information *)

Lemma reachable_well_formed :
  ids_nonempty -> forall self : t number, reachable parseInt self -> well_formed self.
Proof.
  intros Hids self Hreach. induction Hreach as [env config | self c w _ [IH1 IH2]].
  - split; [discriminate | reflexivity].
  - destruct (invoke_cases c self w) as [H|[[_ H]|(o & w1 & w2 & id & Hc & [H|[info H]])]];
      rewrite H; unfold well_formed; simpl.
    + auto.
    + split; [discriminate | reflexivity].
    + split; [|discriminate]. intros E. injection E as ->. now apply Hids in Hc.
    + split; [|discriminate]. intros E. injection E as ->. now apply Hids in Hc.
Qed.

Lemma well_formed_unprovisioned : forall self : t number,
    well_formed self -> truthy (containerId self) = false -> cleared self = self.
Proof.
  intros [cfg info id shc] [H1 H2] Hfalsy. unfold cleared. simpl in *.
  destruct id as [[|c id]|]; try discriminate.
  - now contradiction H1.
  - now rewrite H2.
Qed.

(** C2. After [terminate], on any instance that a caller can hold and
    whatever [stopContainer] and [removeContainer] do, no error is raised,
    the handle and the cached information are cleared, [isAlive] answers
    false and [getSandboxInfo] answers null; a second [terminate] does not
    raise either and changes nothing, not even the world. *)
Theorem terminate_restores_unprovisioned :
  ids_nonempty ->
  forall (self : t number) (w : W),
    reachable parseInt self ->
    exists w1,
      terminate (self, w) = (Fulfilled tt, (cleared self, w1)) /\
      containerId (cleared self) = None /\
      sandboxInfo (cleared self) = None /\
      (forall w' : W, isAlive (cleared self, w') = (Fulfilled false, (cleared self, w'))) /\
      (forall w' : W, getSandboxInfo (cleared self, w') = (Fulfilled None, (cleared self, w'))) /\
      (forall w' : W, terminate (cleared self, w') = (Fulfilled tt, (cleared self, w'))).
Proof.
  intros Hids self w Hreach.
  pose proof (reachable_well_formed Hids self Hreach) as Hwf.
  pose proof (terminate_cases self w) as [Hres Hst].
  destruct (terminate (self, w)) as [r [self' w1]] eqn:Hrun. simpl in Hres, Hst.
  exists w1. subst r self'.
  repeat split.
  destruct (truthy (containerId self)) eqn:Htruthy; [reflexivity|].
  now rewrite (well_formed_unprovisioned self Hwf Htruthy).
Qed.

(** C3. On an instance that a caller can hold and that has a handle,
    [runCommand] never raises. It waits for at most 30000 ms. When the
    client settles in time with a result, that result is returned as it is,
    whatever its exit code; when the command takes longer, the result has
    [success = false], [exitCode = 1] and [stderr = "Command timeout"]. *)
Theorem runCommand_never_raises :
  forall (self : t number) (id : jsstring) (command : jsstring) (w : W),
    reachable parseInt self ->
    containerId self = Some id -> id <> [] ->
    forall p w1,
      Client.execCommand id (split 32 command) w = (p, w1) ->
      (exists r s', runCommand command (self, w) = (Fulfilled r, s')) /\
      (forall r,
          (Client.elapsed p <= 30000)%Z -> Client.settlement p = Fulfilled r ->
          runCommand command (self, w) = (Fulfilled r, (self, w1))) /\
      (forall e,
          (Client.elapsed p <= 30000)%Z -> Client.settlement p = Rejected e ->
          runCommand command (self, w) =
            (Fulfilled {| stdout := js ""; stderr := errorText e;
                          exitCode := 1; success := false |},
             (self, console_error (js "Failed to execute command:") e w1))) /\
      ((30000 < Client.elapsed p)%Z ->
       runCommand command (self, w) =
         (Fulfilled {| stdout := js ""; stderr := js "Command timeout";
                       exitCode := 1; success := false |},
          (self, console_error (js "Failed to execute command:")
                   (ErrorObj (js "Command timeout")) w1))).
Proof.
  intros self id command w Hreach Hid Hne p w1 Hexec.
  pose proof (reachable_timeout self Hreach) as Htimeout.
  destruct id as [|c id]; [contradiction|].
  unfold runCommand, race. unfold_async. simpl.
  rewrite Hid. simpl. rewrite Hexec, Htimeout. simpl.
  destruct (Z.leb_spec (Client.elapsed p) 30000) as [Hle|Hgt].
  - destruct (Client.settlement p) as [r|e] eqn:Hsettle; simpl;
      (split; [eauto|]);
      (split; [intros r0 _ E; try discriminate; now inversion E|]);
      (split; [intros e0 _ E; try discriminate; now inversion E | intros; lia]).
  - simpl. split; [eauto|]. split; [intros; lia|]. split; [intros; lia | reflexivity].
Qed.

(** *** Provisioning *)



(** With a handle, no method raises the error of the missing sandbox. *)
Lemma runCommand_provisioned : forall (self : t number) (w : W) c id command,
    containerId self = Some (c :: id) ->
    exists r s', runCommand command (self, w) = (Fulfilled r, s').
Proof.
  intros self w c id command Hid. unfold runCommand. unfold_async. simpl.
  rewrite Hid. simpl.
  destruct (Client.execCommand (c :: id) (split 32 command) w) as [p w1]. simpl.
  destruct (race p _) as [r|e]; simpl; eauto.
Qed.

(** *** Installing packages *)

(** [runCommand] on an instance with a handle, in terms of what the client
    does with the argv. *)
Lemma runCommand_exec : forall (self : t number) (w w1 : W) c id command p,
    containerId self = Some (c :: id) ->
    Client.execCommand (c :: id) (split 32 command) w = (p, w1) ->
    runCommand command (self, w) =
      match race p (timeout (resources (selfHostedConfig self))) with
      | Fulfilled r => (Fulfilled r, (self, w1))
      | Rejected e =>
          (Fulfilled (failed e),
           (self, console_error (js "Failed to execute command:") e w1))
      end.
Proof.
  intros self w w1 c id command p Hid Hexec.
  unfold runCommand. unfold_async. simpl. rewrite Hid. simpl. rewrite Hexec.
  destruct (race p _); reflexivity.
Qed.

Lemma installPackages_unfold : forall (self : t number) (w : W) packages,
    installPackages packages (self, w) =
      runCommand (js "npm install " ++ join (js " ") packages) (self, w).
Proof.
  intros self w packages.
  unfold installPackages. unfold_async. simpl.
  destruct (containerId self) as [[|c id]|] eqn:Hid; simpl.
  - unfold runCommand. unfold_async. simpl. now rewrite Hid.
  - destruct (runCommand_provisioned self w c id
                (js "npm install " ++ join (js " ") packages) Hid) as (r & s' & Hrun).
    simpl in Hrun. now rewrite Hrun.
  - unfold runCommand. unfold_async. simpl. now rewrite Hid.
Qed.

(** The argv of the install command, for names without a space. *)
Lemma install_argv : forall packages : list jsstring,
    packages <> [] ->
    Forall (fun name => ~ In 32%N name) packages ->
    split 32 (js "npm install " ++ join (js " ") packages)
      = js "npm" :: js "install" :: packages.
Proof.
  intros packages Hne Hfree.
  change (js "npm install " ++ join (js " ") packages)
    with (js "npm" ++ 32%N :: js "install" ++ 32%N :: join [32%N] packages).
  rewrite split_app_sep by (vm_compute; intuition discriminate).
  rewrite split_app_sep by (vm_compute; intuition discriminate).
  now rewrite split_join.
Qed.

(** C7, amended. [installPackages(names)] is
    [runCommand("npm install " + names.join(" "))], on every instance. For a
    non-empty list of names none of which contains a space, the argv given
    to the client is npm, install and the names, and when the client settles
    with a result within the timeout that result, exit code included, is
    what [installPackages] returns. *)
Theorem installPackages_is_runCommand :
  forall (self : t number) (w : W) (packages : list jsstring),
    installPackages packages (self, w) =
      runCommand (js "npm install " ++ join (js " ") packages) (self, w) /\
    (packages <> [] ->
     Forall (fun name => ~ In 32%N name) packages ->
     split 32 (js "npm install " ++ join (js " ") packages)
       = js "npm" :: js "install" :: packages /\
     forall (id : jsstring) p w1 r,
       containerId self = Some id -> id <> [] ->
       Client.execCommand id (js "npm" :: js "install" :: packages) w = (p, w1) ->
       (Client.elapsed p <= timeout (resources (selfHostedConfig self)))%Z ->
       Client.settlement p = Fulfilled r ->
       installPackages packages (self, w) = (Fulfilled r, (self, w1))).
Proof.
  intros self w packages. split; [apply installPackages_unfold|].
  intros Hne Hfree. pose proof (install_argv packages Hne Hfree) as Hargv.
  split; [exact Hargv|].
  intros id p w1 r Hid Hid' Hexec Hfast Hsettle.
  rewrite installPackages_unfold.
  destruct id as [|c id]; [contradiction|].
  assert (Hsplit : Client.execCommand (c :: id)
                     (split 32 (js "npm install " ++ join (js " ") packages)) w = (p, w1))
    by (rewrite Hargv; exact Hexec).
  rewrite (runCommand_exec self w w1 c id _ p Hid Hsplit).
  unfold race. apply Z.leb_le in Hfast. now rewrite Hfast, Hsettle.
Qed.

(** *** The configuration given to the constructor *)

Ltac independent :=
  intros; unfold in_config, workdir, createOptions; unfold_async;
  repeat (cbn in *; try reflexivity;
          match goal with
          | |- context [match ?x with _ => _ end] => destruct_innermost x
          end).

Lemma getSandboxUrl_config : forall cfg (self : t number) (w : W),
    getSandboxUrl (with_config cfg self, w) = in_config cfg (getSandboxUrl (self, w)).
Proof. unfold getSandboxUrl. independent. Qed.

Lemma initializeNodeEnvironment_config : forall id cfg (self : t number) (w : W),
    initializeNodeEnvironment id (with_config cfg self, w)
      = in_config cfg (initializeNodeEnvironment id (self, w)).
Proof. unfold initializeNodeEnvironment. independent. Qed.

Lemma runCommand_config : forall command cfg (self : t number) (w : W),
    runCommand command (with_config cfg self, w)
      = in_config cfg (runCommand command (self, w)).
Proof. unfold runCommand. independent. Qed.

Lemma writeFile_config : forall path content cfg (self : t number) (w : W),
    writeFile path content (with_config cfg self, w)
      = in_config cfg (writeFile path content (self, w)).
Proof. unfold writeFile. independent. Qed.

Lemma readFile_config : forall path cfg (self : t number) (w : W),
    readFile path (with_config cfg self, w) = in_config cfg (readFile path (self, w)).
Proof. unfold readFile. independent. Qed.

Lemma listFiles_config : forall directory cfg (self : t number) (w : W),
    listFiles directory (with_config cfg self, w)
      = in_config cfg (listFiles directory (self, w)).
Proof. unfold listFiles. independent. Qed.

Lemma terminate_config : forall cfg (self : t number) (w : W),
    terminate (with_config cfg self, w) = in_config cfg (terminate (self, w)).
Proof. unfold terminate. independent. Qed.

Lemma isAlive_config : forall cfg (self : t number) (w : W),
    isAlive (with_config cfg self, w) = in_config cfg (isAlive (self, w)).
Proof. unfold isAlive. independent. Qed.

Lemma installPackages_config : forall packages cfg (self : t number) (w : W),
    installPackages packages (with_config cfg self, w)
      = in_config cfg (installPackages packages (self, w)).
Proof. intros. rewrite !installPackages_unfold. apply runCommand_config. Qed.

Lemma createSandbox_config : forall cfg (self : t number) (w : W),
    createSandbox (with_config cfg self, w) = in_config cfg (createSandbox (self, w)).
Proof.
  intros cfg self w. unfold createSandbox, in_config. unfold_async. cbn [fst snd].
  destruct (Client.ping w) as [[[|]|e] w1]; cbn [negb fst snd]; try reflexivity.
  destruct (Date_now w1) as [now w2]. cbn [fst snd].
  destruct (Math_random_toString36 w2) as [random w3]. cbn [fst snd].
  change (createOptions (with_config cfg self)) with (createOptions self).
  destruct (Client.createContainer _ w3) as [[id|e] w4]; cbn [fst snd]; try reflexivity.
  destruct (Client.startContainer id w4) as [[[]|e] w5]; cbn [fst snd]; try reflexivity.
  change (set_containerId (Some id) (with_config cfg self))
    with (with_config cfg (set_containerId (Some id) self)).
  rewrite initializeNodeEnvironment_config. unfold in_config.
  destruct (initializeNodeEnvironment id (set_containerId (Some id) self, w5))
    as [[[]|e] [self6 w6]]; cbn [fst snd]; try reflexivity.
  rewrite getSandboxUrl_config. unfold in_config.
  destruct (getSandboxUrl (self6, w6)) as [[u|e] [self7 w7]]; cbn [fst snd];
    try reflexivity.
  destruct (Date_now w7) as [date w8]. reflexivity.
Qed.

Lemma invoke_config : forall c cfg (self : t number) (w : W),
    invoke c (with_config cfg self, w) = in_config cfg (invoke c (self, w)).
Proof.
  intros c cfg self w.
  assert (Hbind : forall A (m : M number A) (f : A -> Answer),
             m (with_config cfg self, w) = in_config cfg (m (self, w)) ->
             bind m (fun x => ret (f x)) (with_config cfg self, w)
               = in_config cfg (bind m (fun x => ret (f x)) (self, w))).
  { intros A m f Hm. unfold bind, ret. rewrite Hm. unfold in_config.
    destruct (m (self, w)) as [[a|e] [self' w']]; reflexivity. }
  destruct c; unfold invoke; apply Hbind.
  - apply createSandbox_config.
  - apply runCommand_config.
  - apply writeFile_config.
  - apply readFile_config.
  - apply listFiles_config.
  - apply installPackages_config.
  - apply getSandboxUrl_config.
  - reflexivity.
  - apply terminate_config.
  - apply isAlive_config.
Qed.

Lemma session_config : forall calls cfg (self : t number) (w : W),
    session calls (with_config cfg self, w) = in_config cfg (session calls (self, w)).
Proof.
  induction calls as [|c calls IH]; intros cfg self w.
  - reflexivity.
  - simpl. rewrite invoke_config. unfold in_config at 1.
    destruct (invoke c (self, w)) as [answer [self' w']]. simpl.
    rewrite IH. unfold in_config.
    destruct (session calls (self', w')) as [answers [self'' w'']]. reflexivity.
Qed.

(** C9. Two providers constructed from any two configurations have the same
    settings, the ones written in the constructor (command timeout 30000 ms,
    memory 512 MB, CPU quota 50000, port 3000, working directory /app,
    image node:18-alpine, network bridge), and behave alike: whatever the
    calls made, they give the same answers and have the same effects on the
    world, and end as the same instance but for the stored configuration. *)
Theorem configuration_is_ignored :
  forall (env : ProcessEnv) (config1 config2 : SandboxProviderConfig number),
    let provider1 := constructor parseInt env config1 in
    let provider2 := constructor parseInt env config2 in
    selfHostedConfig provider1 = selfHostedConfig provider2 /\
    (timeout (resources (selfHostedConfig provider1)) = 30000%Z /\
     memory (resources (selfHostedConfig provider1)) = (512 * 1024 * 1024)%Z /\
     cpu (resources (selfHostedConfig provider1)) = 50000%Z /\
     devPort (selfHostedConfig provider1) = 3000%Z /\
     workingDirectory (selfHostedConfig provider1) = js "/app" /\
     baseImage (selfHostedConfig provider1) = js "node:18-alpine" /\
     mode (network (selfHostedConfig provider1)) = js "bridge") /\
    forall (calls : list Call) (w : W),
      fst (session calls (provider1, w)) = fst (session calls (provider2, w)) /\
      snd (snd (session calls (provider1, w))) = snd (snd (session calls (provider2, w))) /\
      fst (snd (session calls (provider1, w)))
        = with_config config1 (fst (snd (session calls (provider2, w)))).
Proof.
  intros env config1 config2 provider1 provider2.
  split; [reflexivity|]. split; [repeat split|].
  intros calls w.
  change provider1 with (with_config config1 provider2).
  rewrite session_config. unfold in_config. simpl. auto.
Qed.

End Provider.

(** ** Command results *)

(** [DockerClient.execCommand] always returns a result, and a consistent
    one. *)
Lemma DockerClient_execCommand_result :
  forall (W : Type) (RT : Runtime W) (D : Dockerode.Api W)
         (containerId : jsstring) (command : list jsstring) (w : W),
    exists r w',
      DockerClient.execCommand containerId command w = (Fulfilled r, w') /\ consistent r.
Proof.
  intros W RT D containerId command w.
  unfold DockerClient.execCommand, DockerClient.await, DockerClient.effect, consistent.
  unfold_async.
  destruct (Dockerode.exec containerId command w) as [[execId|e] w1];
    [|eexists; eexists; split; reflexivity].
  destruct (Dockerode.exec_start execId w1) as [[[]|e] w2];
    [|eexists; eexists; split; reflexivity].
  destruct (Dockerode.followExec execId containerId w2) as [[data|e] w3];
    [|eexists; eexists; split; reflexivity].
  destruct (match data with
            | Some {| Dockerode.output := Some chunks |} =>
                DockerClient.collect chunks (js "") (js "")
            | _ => (js "", js "")
            end) as [out err].
  destruct (Dockerode.inspect containerId w3) as [[state|e] w4];
    eexists; eexists; split; reflexivity.
Qed.

Lemma SimpleDockerClient_execCommand_result :
  forall (W : Type) (RT : Runtime W)
         (containerId : jsstring) (command : list jsstring) (w : W),
    exists r,
      Client.settlement (fst (SimpleDockerClient.execCommand containerId command w))
        = Fulfilled r /\
      Client.elapsed (fst (SimpleDockerClient.execCommand containerId command w)) = 0%Z /\
      consistent r.
Proof.
  intros W RT containerId command w. unfold SimpleDockerClient.execCommand, consistent.
  cbn [fst Client.settlement Client.elapsed].
  destruct (includes (js "test -f") (join (js " ") command));
    [|destruct (includes (js "mkdir") (join (js " ") command))];
    eexists; repeat split; reflexivity.
Qed.

(** C4. Every [CommandResult] that a command-executing operation produces
    has [success] equal to [exitCode === 0]: the results of
    [DockerClient.execCommand] and of [SimpleDockerClient.execCommand],
    their error branches included, and, over any client whose results are
    such, the results of [runCommand] and [installPackages], their error and
    timeout branches included. *)
Theorem command_results_consistent :
  (forall (W : Type) (RT : Runtime W) (D : Dockerode.Api W) containerId command (w : W),
      exists r w',
        DockerClient.execCommand containerId command w = (Fulfilled r, w') /\ consistent r) /\
  (forall (W : Type) (RT : Runtime W) containerId command (w : W),
      exists r,
        Client.settlement (fst (SimpleDockerClient.execCommand containerId command w))
          = Fulfilled r /\ consistent r) /\
  (forall (number W : Type) (RT : Runtime W) (DC : Client.Api W),
      (forall containerId argv (w : W) r,
          Client.settlement (fst (Client.execCommand containerId argv w)) = Fulfilled r ->
          consistent r) ->
      forall (self : SelfHostedProvider.t number) (w : W) r s',
        (forall command,
            SelfHostedProvider.runCommand command (self, w) = (Fulfilled r, s') ->
            consistent r) /\
        (forall packages,
            SelfHostedProvider.installPackages packages (self, w) = (Fulfilled r, s') ->
            consistent r)).
Proof.
  split; [exact DockerClient_execCommand_result|].
  split.
  { intros W RT containerId command w.
    destruct (SimpleDockerClient_execCommand_result W RT containerId command w)
      as (r & Hr & _ & Hc).
    now exists r. }
  intros number W RT DC Hclient self w r s'.
  assert (Hrun : forall command,
             SelfHostedProvider.runCommand command (self, w) = (Fulfilled r, s') ->
             consistent r).
  { intros command Hrun.
    destruct (SelfHostedProvider.containerId self) as [[|c id]|] eqn:Hid;
      try (unfold SelfHostedProvider.runCommand, bind, this, throw in Hrun;
           simpl in Hrun; rewrite Hid in Hrun; discriminate Hrun).
    destruct (Client.execCommand (c :: id) (split 32 command) w) as [p w1] eqn:Hexec.
    rewrite (runCommand_exec number self w w1 c id command p Hid Hexec) in Hrun.
    unfold race in Hrun.
    destruct (Client.elapsed p <=? _)%Z.
    - destruct (Client.settlement p) as [r0|e] eqn:Hsettle.
      + injection Hrun as <- _. apply (Hclient (c :: id) (split 32 command) w).
        now rewrite Hexec.
      + injection Hrun as <- _. reflexivity.
    - injection Hrun as <- _. reflexivity. }
  split; [exact Hrun|].
  intros packages Hinstall. rewrite installPackages_unfold in Hinstall.
  now apply Hrun in Hinstall.
Qed.

(** ** Directory listings *)

Lemma jsstring_eqb_eq : forall a b : jsstring, jsstring_eqb a b = true <-> a = b.
Proof.
  intros a b. unfold jsstring_eqb. destruct (jsstring_eq_dec a b); split; congruence.
Qed.

Lemma fileOfLine_not_dots : forall line f : jsstring,
    In f (DockerClient.fileOfLine line) -> f <> js "." /\ f <> js "..".
Proof.
  intros line f. unfold DockerClient.fileOfLine.
  destruct (startsWith (js "total") line || includes (js "<DIR>") line); [intros []|].
  destruct (DockerClient.lastPart (split_ws (trim line))) as [filename|]; [|intros []].
  destruct (jsstring_eqb filename (js ".")) eqn:Hdot; [intros []|].
  destruct (jsstring_eqb filename (js "..")) eqn:Hdots; [intros []|].
  simpl. intros [<-|[]]. split; intros E; apply jsstring_eqb_eq in E; congruence.
Qed.

Lemma parseListing_not_dots : forall text f : jsstring,
    In f (DockerClient.parseListing text) -> f <> js "." /\ f <> js "..".
Proof.
  intros text f Hin. unfold DockerClient.parseListing in Hin.
  apply in_flat_map in Hin. destruct Hin as (line & _ & Hin).
  now apply fileOfLine_not_dots with (line := line).
Qed.

Lemma fileOfLine_total : forall line : jsstring,
    startsWith (js "total") line = true -> DockerClient.fileOfLine line = [].
Proof. intros line Htotal. unfold DockerClient.fileOfLine. now rewrite Htotal. Qed.

(** The handle that [createSandbox] records with the client of the source
    is not the empty string. *)
Lemma SimpleDockerClient_ids_nonempty :
  forall (W : Type) (RT : Runtime W),
    ids_nonempty (DC := SimpleDockerClient.api (W := W)).
Proof.
  intros W RT options w id w' Hcreate. simpl in Hcreate.
  unfold SimpleDockerClient.createContainer in Hcreate.
  destruct (Date_now w) as [now w1]. destruct (Math_random_toString36 w1) as [random w2].
  injection Hcreate as <- _. discriminate.
Qed.

(** With the client of the source, a successful [createSandbox] leaves a
    handle. *)
Lemma createSandbox_provisions :
  forall (number W : Type) (RT : Runtime W) (self : SelfHostedProvider.t number)
         (w : W) info s',
    SelfHostedProvider.createSandbox (DC := SimpleDockerClient.api) (self, w)
      = (Fulfilled info, s') ->
    exists c id, SelfHostedProvider.containerId (fst s') = Some (c :: id).
Proof.
  intros number W RT self w info s' Hrun.
  apply createSandbox_fulfilled in Hrun.
  destruct Hrun as (options & w1 & w2 & id & Hcreate & ->).
  apply SimpleDockerClient_ids_nonempty in Hcreate.
  destruct id as [|c id]; [contradiction|]. now exists c, id.
Qed.





(** [DockerClient.listFiles] returns what [parseListing] finds in the
    output of the listing command. *)
Lemma DockerClient_listFiles_result :
  forall (W : Type) (RT : Runtime W) (D : Dockerode.Api W)
         (containerId : jsstring) (directory : option jsstring) (w : W) files w',
    DockerClient.listFiles containerId directory w = (Fulfilled files, w') ->
    exists text, files = DockerClient.parseListing text.
Proof.
  intros W RT D containerId directory w files w'.
  unfold DockerClient.listFiles, DockerClient.effect. unfold_async.
  destruct (DockerClient_execCommand_result W RT D containerId
              [js "ls"; js "-la"; match directory with Some d => d | None => js "/" end] w)
    as (r & w1 & -> & _).
  destruct (success r); cbn [negb]; [|discriminate].
  intros E. injection E as <- _. now exists (stdout r).
Qed.

(** C8. Whatever the listing command prints, the names that
    [DockerClient.listFiles] returns include neither "." nor "..", and a
    line that starts with "total" adds no name. The listing of
    [SimpleDockerClient], which is what [listFiles] of the provider returns
    on a sandbox that [createSandbox] has just provisioned, includes
    package.json and neither "." nor "..". *)
Theorem listFiles_excludes_dots :
  (forall (W : Type) (RT : Runtime W) (D : Dockerode.Api W)
          containerId directory (w : W) files w',
      DockerClient.listFiles containerId directory w = (Fulfilled files, w') ->
      ~ In (js ".") files /\ ~ In (js "..") files) /\
  (forall text : jsstring,
      ~ In (js ".") (DockerClient.parseListing text) /\
      ~ In (js "..") (DockerClient.parseListing text)) /\
  (forall (before after : list jsstring) (line : jsstring),
      startsWith (js "total") line = true ->
      flat_map DockerClient.fileOfLine (before ++ line :: after)
        = flat_map DockerClient.fileOfLine (before ++ after)) /\
  (forall (number W : Type) (RT : Runtime W) (self : SelfHostedProvider.t number)
          (w : W) info s' directory,
      SelfHostedProvider.createSandbox (DC := SimpleDockerClient.api) (self, w)
        = (Fulfilled info, s') ->
      exists files,
        fst (SelfHostedProvider.listFiles (DC := SimpleDockerClient.api) directory s')
          = Fulfilled files /\
        In (js "package.json") files /\
        ~ In (js ".") files /\ ~ In (js "..") files).
Proof.
  assert (Hparse : forall text : jsstring,
             ~ In (js ".") (DockerClient.parseListing text) /\
             ~ In (js "..") (DockerClient.parseListing text)).
  { intros text. split; intros Hin; apply parseListing_not_dots in Hin;
      destruct Hin as [Hdot Hdots]; congruence. }
  split.
  { intros W RT D containerId directory w files w' Hlist.
    apply DockerClient_listFiles_result in Hlist. destruct Hlist as [text ->].
    apply Hparse. }
  split; [exact Hparse|]. split.
  { intros before after line Htotal.
    rewrite !flat_map_app. simpl. now rewrite (fileOfLine_total line Htotal). }
  intros number W RT self w info [self' w'] directory Hrun.
  apply createSandbox_provisions in Hrun. destruct Hrun as (c & id & Hid).
  cbn [fst] in Hid.
  exists [js "package.json"; js "src/"; js "index.html"].
  split.
  - unfold SelfHostedProvider.listFiles. unfold_async. cbn [fst snd].
    rewrite Hid. reflexivity.
  - split; [now left|].
    split; intros Hin; simpl in Hin; vm_compute in Hin; intuition discriminate.
Qed.

(** ** Files *)

(** With the client of the source, [readFile] returns "{}" whatever was
    written. *)
Lemma readFile_constant :
  forall (number W : Type) (RT : Runtime W) (self : SelfHostedProvider.t number)
         (w : W) c id path content,
    SelfHostedProvider.containerId self = Some (c :: id) ->
    fst (SelfHostedProvider.readFile (DC := SimpleDockerClient.api) path
           (snd (SelfHostedProvider.writeFile (DC := SimpleDockerClient.api)
                   path content (self, w))))
      = Fulfilled (js "{}").
Proof.
  intros number W RT self w c id path content Hid.
  unfold SelfHostedProvider.writeFile, SelfHostedProvider.readFile. unfold_async.
  cbn [fst snd]. rewrite Hid. cbn. rewrite Hid. reflexivity.
Qed.

(** C6, the code at a failing input. On the sandbox that [createSandbox]
    provisions, [writeFile("test.txt", "Hello from self-hosted sandbox!")]
    followed by [readFile("test.txt")] returns "{}", not what was
    written. *)
Theorem writeFile_readFile_returns_stub :
  fst (SelfHostedProvider.readFile (DC := Lab.simple) (js "test.txt")
         (snd (SelfHostedProvider.writeFile (DC := Lab.simple) (js "test.txt")
                 (js "Hello from self-hosted sandbox!") Lab.sandbox)))
    = Fulfilled (js "{}") /\
  js "{}" <> js "Hello from self-hosted sandbox!".
Proof. split; [vm_compute; reflexivity | vm_compute; discriminate]. Qed.

(** ** The properties at concrete inputs *)

Lemma runCommand_before_createSandbox_witness :
  SelfHostedProvider.containerId Lab.fresh = None /\
  SelfHostedProvider.runCommand (DC := Lab.simple) (js "ls -la") (Lab.fresh, Lab.calm)
    = (Rejected SelfHostedProvider.notCreated, (Lab.fresh, Lab.calm)).
Proof.
  split; [reflexivity|].
  apply (runCommand_before_createSandbox (option Z) (DC := Lab.simple)
           Lab.fresh Lab.calm (js "ls -la")).
  reflexivity.
Defined.

Lemma engine_ids_nonempty : ids_nonempty (DC := Lab.engine).
Proof. intros options w id w' E. injection E as <- _. discriminate. Defined.

Lemma provisioned_reachable : forall w : Lab.World,
    SelfHostedProvider.reachable (DC := Lab.engine) Lab.parseInt (Lab.provisioned w).
Proof. intros w. apply SelfHostedProvider.reachable_call, SelfHostedProvider.reachable_new. Defined.

(** [terminate] when the engine refuses to stop the container. *)
Lemma terminate_restores_unprovisioned_witness :
  SelfHostedProvider.containerId (Lab.provisioned Lab.stubborn) = Some (js "c0ffee") /\
  fst (Client.stopContainer (Api := Lab.engine) (js "c0ffee") Lab.stubborn)
    = Rejected (ErrorObj (js "No such container")) /\
  exists w1,
    SelfHostedProvider.terminate (DC := Lab.engine) (Lab.provisioned Lab.stubborn, Lab.stubborn)
      = (Fulfilled tt, (cleared (Lab.provisioned Lab.stubborn), w1)) /\
    SelfHostedProvider.containerId (cleared (Lab.provisioned Lab.stubborn)) = None /\
    SelfHostedProvider.sandboxInfo (cleared (Lab.provisioned Lab.stubborn)) = None.
Proof.
  split; [reflexivity|]. split; [reflexivity|].
  destruct (terminate_restores_unprovisioned (option Z) Lab.parseInt (DC := Lab.engine)
              engine_ids_nonempty (Lab.provisioned Lab.stubborn) Lab.stubborn
              (provisioned_reachable Lab.stubborn))
    as (w1 & Hrun & Hid & Hinfo & _).
  exists w1. auto.
Defined.

(** [runCommand] when the command takes 45 seconds. *)
Lemma runCommand_never_raises_witness :
  (30000 < Lab.exec_takes Lab.slow)%Z /\
  fst (SelfHostedProvider.runCommand (DC := Lab.engine) (js "sleep 45")
         (Lab.provisioned Lab.slow, Lab.slow))
    = Fulfilled {| stdout := js ""; stderr := js "Command timeout";
                   exitCode := 1; success := false |}.
Proof.
  split; [reflexivity|].
  destruct (runCommand_never_raises (option Z) Lab.parseInt (DC := Lab.engine)
              (Lab.provisioned Lab.slow) (js "c0ffee") (js "sleep 45") Lab.slow
              (provisioned_reachable Lab.slow) eq_refl
              ltac:(discriminate) _ _ eq_refl)
    as (_ & _ & _ & Hslow).
  rewrite Hslow; [reflexivity|]. reflexivity.
Defined.

(** The results of [runCommand] and [installPackages] with the client of
    the source. *)
Lemma command_results_consistent_witness :
  consistent {| stdout := js "Command executed: ls -la"; stderr := js "";
                exitCode := 0; success := true |} /\
  consistent {| stdout := js "Command executed: npm install left-pad"; stderr := js "";
                exitCode := 0; success := true |}.
Proof.
  destruct command_results_consistent as (_ & _ & H).
  specialize (H (option Z) Lab.World Lab.runtime Lab.simple).
  assert (Hclient : forall containerId argv (w : Lab.World) r,
             Client.settlement (fst (Client.execCommand (Api := Lab.simple)
                                       containerId argv w)) = Fulfilled r ->
             consistent r).
  { intros containerId argv w r Hr.
    destruct (SimpleDockerClient_execCommand_result Lab.World Lab.runtime containerId argv w)
      as (r' & Hr' & _ & Hc).
    pose proof (eq_trans (eq_sym Hr') Hr) as E. injection E as <-. exact Hc. }
  split.
  - destruct (H Hclient (fst Lab.sandbox) (snd Lab.sandbox)
                {| stdout := js "Command executed: ls -la"; stderr := js "";
                   exitCode := 0; success := true |}
                (snd (runCommand (DC := Lab.simple) (js "ls -la") Lab.sandbox)))
      as [Hrun _].
    apply (Hrun (js "ls -la")). vm_compute. reflexivity.
  - destruct (H Hclient (fst Lab.sandbox) (snd Lab.sandbox)
                {| stdout := js "Command executed: npm install left-pad"; stderr := js "";
                   exitCode := 0; success := true |}
                (snd (installPackages (DC := Lab.simple) [js "left-pad"] Lab.sandbox)))
      as [_ Hinstall].
    apply (Hinstall [js "left-pad"]). vm_compute. reflexivity.
Defined.


(** [installPackages(["left-pad"])] with the scripted engine. *)
Lemma installPackages_is_runCommand_witness :
  split 32 (js "npm install left-pad") = [js "npm"; js "install"; js "left-pad"] /\
  fst (installPackages (DC := Lab.engine) [js "left-pad"]
         (Lab.provisioned Lab.failing, Lab.failing))
    = Fulfilled {| stdout := js "out"; stderr := js "err"; exitCode := 127;
                   success := false |}.
Proof.
  destruct (installPackages_is_runCommand (option Z) (DC := Lab.engine)
              (Lab.provisioned Lab.failing) Lab.failing [js "left-pad"]) as [_ H].
  destruct H as [Hargv Hrun].
  - discriminate.
  - repeat constructor. vm_compute. intuition discriminate.
  - split; [exact Hargv|].
    rewrite (Hrun (js "c0ffee") _ _ _ eq_refl ltac:(discriminate) eq_refl
               ltac:(vm_compute; discriminate) eq_refl).
    reflexivity.
Defined.

(** C7, a counterexample. A package given with a version range that has a
    space is split into two arguments; and when the command outlives the
    timeout the exit code returned is 1, whatever the exit code of the
    command. *)
Lemma installPackages_argv_counterexample :
  Lab.issued (snd (snd (installPackages (DC := Lab.engine) [js "react@>=18 <19"]
                          (Lab.provisioned Lab.calm, Lab.calm))))
    = [[js "npm"; js "install"; js "react@>=18"; js "<19"]] /\
  [js "npm"; js "install"; js "react@>=18"; js "<19"]
    <> [js "npm"; js "install"; js "react@>=18 <19"] /\
  Lab.exit_code Lab.slow = 0%Z /\
  fst (installPackages (DC := Lab.engine) [js "left-pad"]
         (Lab.provisioned Lab.slow, Lab.slow))
    = Fulfilled {| stdout := js ""; stderr := js "Command timeout"; exitCode := 1;
                   success := false |}.
Proof.
  split; [vm_compute; reflexivity|]. split; [vm_compute; discriminate|].
  split; [reflexivity | vm_compute; reflexivity].
Qed.

(** [listFiles()] right after [createSandbox], with the client of the
    source. *)
Lemma listFiles_excludes_dots_witness :
  (fst (DockerClient.listFiles (D := Lab.daemon) (js "c0ffee") (Some (js "/app")) Lab.calm)
     = Fulfilled [js "package.json"] /\
   ~ In (js ".") [js "package.json"] /\ ~ In (js "..") [js "package.json"]) /\
  exists files,
    fst (listFiles (DC := Lab.simple) None Lab.sandbox) = Fulfilled files /\
    In (js "package.json") files /\
    ~ In (js ".") files /\ ~ In (js "..") files.
Proof.
  destruct listFiles_excludes_dots as (Hdocker & _ & _ & H).
  split.
  { split; [vm_compute; reflexivity|].
    apply (Hdocker Lab.World Lab.runtime Lab.daemon (js "c0ffee") (Some (js "/app"))
             Lab.calm [js "package.json"]
             (snd (DockerClient.listFiles (D := Lab.daemon) (js "c0ffee")
                     (Some (js "/app")) Lab.calm))).
    vm_compute. reflexivity. }
  apply (H (option Z) Lab.World Lab.runtime Lab.fresh Lab.calm
           (match fst (createSandbox (DC := Lab.simple) (Lab.fresh, Lab.calm)) with
            | Fulfilled info => info
            | Rejected _ => {| sandboxId := []; url := []; provider := self_hosted;
                               createdAt := 0 |}
            end)
           Lab.sandbox None).
  vm_compute. reflexivity.
Defined.

(** Two providers, one constructed from a configuration that asks for other
    resources, image and network. *)
Lemma configuration_is_ignored_witness :
  timeout (resources (selfHostedConfig
                        (constructor Lab.parseInt Lab.noEnv Lab.eagerConfig))) = 30000%Z /\
  fst (session (DC := Lab.simple)
         [CreateSandbox; RunCommand (js "ls"); GetSandboxUrl; Terminate; IsAlive]
         (constructor Lab.parseInt Lab.noEnv Lab.eagerConfig, Lab.calm))
  = fst (session (DC := Lab.simple)
           [CreateSandbox; RunCommand (js "ls"); GetSandboxUrl; Terminate; IsAlive]
           (constructor Lab.parseInt Lab.noEnv Lab.emptyConfig, Lab.calm)).
Proof.
  destruct (configuration_is_ignored (option Z) Lab.parseInt (DC := Lab.simple)
              Lab.noEnv Lab.eagerConfig Lab.emptyConfig) as (_ & (Htimeout & _) & Hcalls).
  split; [exact Htimeout | apply Hcalls].
Defined.

(** * Further properties of the provider *)

Lemma join_split : forall (sep : N) (s : jsstring), join [sep] (split sep s) = s.
Proof.
  intros sep s. induction s as [|c s IH]; simpl.
  - reflexivity.
  - destruct (N.eqb_spec c sep) as [->|Hne].
    + destruct (split sep s) as [|piece pieces] eqn:Hs.
      * simpl in IH. now subst s.
      * change (join [sep] ([] :: piece :: pieces))
          with ([] ++ [sep] ++ join [sep] (piece :: pieces)).
        now rewrite IH.
    + destruct (split sep s) as [|piece pieces] eqn:Hs.
      * simpl in IH. now subst s.
      * destruct pieces as [|piece' pieces].
        -- simpl in *. now subst.
        -- change (join [sep] ((c :: piece) :: piece' :: pieces))
             with (c :: (piece ++ [sep] ++ join [sep] (piece' :: pieces))).
           f_equal. exact IH.
Qed.

Lemma split_pieces_free : forall (sep : N) (s : jsstring),
    Forall (fun piece => ~ In sep piece) (split sep s).
Proof.
  intros sep s. induction s as [|c s IH]; simpl.
  - constructor; [intros []|constructor].
  - destruct (N.eqb_spec c sep) as [->|Hne].
    + constructor; [intros []|exact IH].
    + destruct (split sep s) as [|piece pieces].
      * constructor; [|constructor]. intros [E|[]]. now apply Hne.
      * inversion IH as [|? ? Hpiece Hrest]; subst.
        constructor; [|exact Hrest]. intros [E|Hin]; [now apply Hne | now apply Hpiece].
Qed.

(** X9. The argv that [runCommand] builds loses nothing of the command:
    joined with single spaces it is the command again, and no argument
    contains a space. *)
Theorem runCommand_argv_round_trip :
  forall command : jsstring,
    join (js " ") (split 32 command) = command /\
    Forall (fun argument => ~ In 32%N argument) (split 32 command) /\
    split 32 command <> [].
Proof.
  intros command. split; [apply join_split|]. split; [apply split_pieces_free|].
  destruct command as [|c command]; simpl; [discriminate|].
  destruct (N.eqb c 32); [discriminate|].
  destruct (split 32 command); discriminate.
Qed.

Section ProviderMore.
Variable number : Type.
Variable parseInt : jsstring -> number.
Context {W : Type} {RT : Runtime W} {DC : Client.Api W}.

(** X1. Without a handle no method reaches the engine: [writeFile],
    [readFile], [listFiles] and [installPackages] raise "Sandbox not
    created. Call createSandbox() first.", [getSandboxUrl] answers null,
    [isAlive] answers false and [terminate] returns; the instance and the
    world are left as they were. *)
Theorem methods_before_createSandbox :
  forall (self : t number) (w : W),
    containerId self = None ->
    (forall path content,
        writeFile path content (self, w) = (Rejected notCreated, (self, w))) /\
    (forall path, readFile path (self, w) = (Rejected notCreated, (self, w))) /\
    (forall directory, listFiles directory (self, w) = (Rejected notCreated, (self, w))) /\
    (forall packages, installPackages packages (self, w) = (Rejected notCreated, (self, w))) /\
    getSandboxUrl (self, w) = (Fulfilled None, (self, w)) /\
    isAlive (self, w) = (Fulfilled false, (self, w)) /\
    terminate (self, w) = (Fulfilled tt, (self, w)).
Proof.
  intros self w Habsent.
  unfold writeFile, readFile, listFiles, installPackages, getSandboxUrl, isAlive, terminate.
  unfold_async. simpl. rewrite Habsent. repeat split.
Qed.

(** X2. [getSandboxUrl] never raises and never changes the instance. A URL
    that it returns is "http://localhost:" followed by the non-empty host
    port that the inspection of the recorded container gives for 3000/tcp:
    the host is localhost whatever engine the client is connected to. *)
Theorem getSandboxUrl_shape :
  forall (self : t number) (w : W),
    exists u w',
      getSandboxUrl (self, w) = (Fulfilled u, (self, w')) /\
      forall address, u = Some address ->
        exists (id : jsstring) info binding hostPort,
          containerId self = Some id /\ id <> [] /\
          fst (Client.getContainerInfo id w) = Fulfilled info /\
          Client.lookup (js "3000/tcp") (Client.ports info) = Some binding /\
          Client.HostPort binding = Some hostPort /\ hostPort <> [] /\
          address = js "http://localhost:" ++ hostPort.
Proof.
  intros self w. unfold getSandboxUrl. unfold_async. simpl.
  destruct (containerId self) as [[|c id]|] eqn:Hid; simpl;
    try (eexists; eexists; split; [reflexivity | discriminate]).
  destruct (Client.getContainerInfo (c :: id) w) as [[info|e] w1] eqn:Hinfo; simpl;
    [|eexists; eexists; split; [reflexivity | discriminate]].
  destruct (Client.lookup (js "3000/tcp") (Client.ports info)) as [binding|] eqn:Hlookup;
    [|eexists; eexists; split; [reflexivity | discriminate]].
  destruct (Client.HostPort binding) as [[|h hostPort]|] eqn:Hport;
    try (eexists; eexists; split; [reflexivity | discriminate]).
  eexists; eexists; split; [reflexivity|].
  intros address E. injection E as <-.
  exists (c :: id), info, binding, (h :: hostPort).
  split; [reflexivity|]. split; [discriminate|].
  split; [exact (f_equal fst Hinfo)|].
  split; [exact Hlookup|]. split; [exact Hport|].
  split; [discriminate | reflexivity].
Qed.

(** X3. [isAlive] never raises and never changes the instance; it answers
    true only when there is a handle and the client says that this
    container is running, and false, after logging, when the client
    raises. *)
Theorem isAlive_never_raises :
  forall (self : t number) (w : W),
    exists b w',
      isAlive (self, w) = (Fulfilled b, (self, w')) /\
      (b = true ->
       exists id : jsstring,
         containerId self = Some id /\ id <> [] /\
         fst (Client.isContainerRunning id w) = Fulfilled true) /\
      (forall (id : jsstring) e w1,
          containerId self = Some id -> id <> [] ->
          Client.isContainerRunning id w = (Rejected e, w1) ->
          b = false /\ w' = console_error (js "Failed to check sandbox status:") e w1).
Proof.
  intros self w. unfold isAlive. unfold_async. simpl.
  destruct (containerId self) as [[|c id]|] eqn:Hid; simpl.
  - exists false, w. split; [reflexivity|]. split; [discriminate|].
    intros id e w1 E Hne. injection E as <-. contradiction.
  - destruct (Client.isContainerRunning (c :: id) w) as [[b|e] w1] eqn:Hrun; simpl.
    + exists b, w1. split; [reflexivity|]. split.
      * intros ->. exists (c :: id).
        split; [reflexivity|]. split; [discriminate | exact (f_equal fst Hrun)].
      * intros id' e w2 E _ Hrej. injection E as <-.
        pose proof (eq_trans (eq_sym Hrun) Hrej) as E. discriminate E.
    + exists false, (console_error (js "Failed to check sandbox status:") e w1).
      split; [reflexivity|]. split; [discriminate|].
      intros id' e' w2 E _ Hrej. injection E as <-.
      pose proof (eq_trans (eq_sym Hrun) Hrej) as E. injection E as <- <-. now split.
  - exists false, w. split; [reflexivity|]. split; [discriminate|]. discriminate.
Qed.

(** X4. [terminate] stops the container and then removes it. When the stop
    fails the removal is not attempted: the failure is logged and the
    handle and the information are cleared all the same. When the stop
    succeeds the removal is attempted on the world that the stop left, and
    its failure is only logged. *)
Theorem terminate_stop_then_remove :
  forall (self : t number) (w : W) c (id : jsstring),
    containerId self = Some (c :: id) ->
    (forall e w1,
        Client.stopContainer (c :: id) w = (Rejected e, w1) ->
        terminate (self, w) =
          (Fulfilled tt,
           (cleared self, console_error (js "Failed to terminate sandbox:") e w1))) /\
    (forall w1 w2,
        Client.stopContainer (c :: id) w = (Fulfilled tt, w1) ->
        Client.removeContainer (c :: id) w1 = (Fulfilled tt, w2) ->
        terminate (self, w) = (Fulfilled tt, (cleared self, w2))) /\
    (forall w1 e w2,
        Client.stopContainer (c :: id) w = (Fulfilled tt, w1) ->
        Client.removeContainer (c :: id) w1 = (Rejected e, w2) ->
        terminate (self, w) =
          (Fulfilled tt,
           (cleared self, console_error (js "Failed to terminate sandbox:") e w2))).
Proof.
  intros self w c id Hid.
  unfold terminate. unfold_async. simpl. rewrite Hid. simpl.
  split; [|split].
  - intros e w1 Hstop. now rewrite Hstop.
  - intros w1 w2 Hstop Hremove. rewrite Hstop. simpl. now rewrite Hremove.
  - intros w1 e w2 Hstop Hremove. rewrite Hstop. simpl. now rewrite Hremove.
Qed.

(** X5. On an instance that a caller can hold, the file methods address the
    client under /app: [writeFile] and [readFile] at "/app/" followed by
    the path as given, [listFiles] at /app when the directory is left out
    or is the empty string and at "/app/" followed by the directory
    otherwise. What the client returns is returned, and what it raises is
    logged and raised again as "Failed to write file: ", "Failed to read
    file: " or "Failed to list files: " followed by the cause. *)
Theorem file_methods_under_workdir :
  forall (self : t number) (w : W) c (id : jsstring),
    reachable parseInt self ->
    containerId self = Some (c :: id) ->
    (forall path content,
        writeFile path content (self, w) =
          match Client.writeFile (c :: id) (js "/app/" ++ path) content w with
          | (Fulfilled u, w1) => (Fulfilled u, (self, w1))
          | (Rejected e, w1) =>
              (Rejected (ErrorObj (js "Failed to write file: " ++ errorText e)),
               (self, console_error (js "Failed to write file:") e w1))
          end) /\
    (forall path,
        readFile path (self, w) =
          match Client.readFile (c :: id) (js "/app/" ++ path) w with
          | (Fulfilled text, w1) => (Fulfilled text, (self, w1))
          | (Rejected e, w1) =>
              (Rejected (ErrorObj (js "Failed to read file: " ++ errorText e)),
               (self, console_error (js "Failed to read file:") e w1))
          end) /\
    (forall directory,
        listFiles directory (self, w) =
          match Client.listFiles (c :: id)
                  (Some (match directory with
                         | Some (d :: irectory) => js "/app/" ++ d :: irectory
                         | _ => js "/app"
                         end)) w with
          | (Fulfilled files, w1) => (Fulfilled files, (self, w1))
          | (Rejected e, w1) =>
              (Rejected (ErrorObj (js "Failed to list files: " ++ errorText e)),
               (self, console_error (js "Failed to list files:") e w1))
          end) /\
    listFiles None (self, w) = listFiles (Some (js "")) (self, w).
Proof.
  intros self w c id Hreach Hid.
  destruct (reachable_selfHostedConfig number parseInt self Hreach) as (env & config & Hcfg).
  assert (Hdir : workdir self = js "/app") by (unfold workdir; now rewrite Hcfg).
  split; [|split; [|split]].
  - intros path content. unfold writeFile. unfold_async. cbv beta iota delta [fst snd].
    rewrite Hid, Hdir. cbv beta iota delta [fst snd].
    change (js "/app" ++ js "/" ++ path) with (js "/app/" ++ path).
    destruct (Client.writeFile (c :: id) (js "/app/" ++ path) content w) as [[u|e] w1];
      reflexivity.
  - intros path. unfold readFile. unfold_async. cbv beta iota delta [fst snd].
    rewrite Hid, Hdir. cbv beta iota delta [fst snd].
    change (js "/app" ++ js "/" ++ path) with (js "/app/" ++ path).
    destruct (Client.readFile (c :: id) (js "/app/" ++ path) w) as [[text|e] w1];
      reflexivity.
  - intros directory. unfold listFiles. unfold_async. cbv beta iota delta [fst snd].
    rewrite Hid, Hdir. cbv beta iota delta [fst snd].
    destruct directory as [[|d irectory]|]; cbv beta iota delta [fst snd];
      try change (js "/app" ++ js "/" ++ d :: irectory) with (js "/app/" ++ d :: irectory);
      match goal with
      | |- context [Client.listFiles ?i ?p w] =>
          destruct (Client.listFiles i p w) as [[files|e] w1]
      end; reflexivity.
  - reflexivity.
Qed.

(** X6. Only [createSandbox] and [terminate] change the instance: any
    sequence of other calls, whatever they return or raise and however long
    the commands take, leaves the handle, the cached information and the
    settings as they were. *)
Theorem other_calls_keep_the_instance :
  forall (calls : list Call) (self : t number) (w : W),
    Forall (fun c => c <> CreateSandbox /\ c <> Terminate) calls ->
    fst (snd (session calls (self, w))) = self.
Proof.
  induction calls as [|c calls IH]; intros self w Hcalls.
  - reflexivity.
  - inversion Hcalls as [|? ? [Hcreate Hterminate] Hrest]; subst.
    assert (Hframe : fst (snd (invoke c (self, w))) = self).
    { assert (Hbind : forall A (m : M number A) (f : A -> Answer),
                 fst (snd (bind m (fun x => ret (f x)) (self, w))) = fst (snd (m (self, w)))).
      { intros A m f. unfold bind, ret. destruct (m (self, w)) as [[a|e] s']; reflexivity. }
      destruct c; try contradiction; unfold invoke; rewrite Hbind.
      - apply runCommand_frame.
      - apply writeFile_frame.
      - apply readFile_frame.
      - apply listFiles_frame.
      - apply installPackages_frame.
      - apply getSandboxUrl_frame.
      - reflexivity.
      - apply isAlive_frame. }
    simpl. destruct (invoke c (self, w)) as [answer [self' w']]. simpl in Hframe. subst self'.
    specialize (IH self w' Hrest).
    destruct (session calls (self, w')) as [answers [self'' w'']]. exact IH.
Qed.

(** X8. [createSandbox] has no guard against an instance that already has
    a sandbox: when it succeeds the handle that the client gave and the
    information that is returned replace whatever was recorded, the
    information names the provider self-hosted and an id that starts with
    "sandbox-", and [getSandboxInfo] then returns it. *)
Theorem createSandbox_replaces :
  forall (self : t number) (w : W) info s',
    createSandbox (self, w) = (Fulfilled info, s') ->
    (exists id : jsstring,
        fst s' = set_sandboxInfo (Some info) (set_containerId (Some id) self)) /\
    getSandboxInfo s' = (Fulfilled (Some info), s') /\
    provider info = self_hosted /\
    startsWith (js "sandbox-") (sandboxId info) = true.
Proof.
  intros self w info s'. unfold createSandbox. unfold_async. simpl.
  destruct (Client.ping w) as [[[|]|e] w1]; simpl; try discriminate.
  destruct (Date_now w1) as [now w2]. simpl.
  destruct (Math_random_toString36 w2) as [random w3]. simpl.
  destruct (Client.createContainer _ w3) as [[id|e] w4]; simpl; try discriminate.
  destruct (Client.startContainer id w4) as [[[]|e] w5]; simpl; try discriminate.
  pose proof (initializeNodeEnvironment_frame number id (set_containerId (Some id) self) w5)
    as Hinit.
  destruct (initializeNodeEnvironment id (set_containerId (Some id) self, w5))
    as [[[]|e] [self1 w6]]; simpl in *; subst self1; try discriminate.
  pose proof (getSandboxUrl_frame number (set_containerId (Some id) self) w6) as Hurl.
  destruct (getSandboxUrl (set_containerId (Some id) self, w6))
    as [[u|e] [self2 w7]]; simpl in *; subst self2; try discriminate.
  destruct (Date_now w7) as [date w8]. simpl.
  intros E. injection E as <- <-. simpl.
  split; [now exists id|]. repeat split.
Qed.

End ProviderMore.

(** ** The provider with the client that it constructs *)

(** X7. With [SimpleDockerClient], provisioning depends on the probe alone:
    when the request to the engine is answered with an ok status,
    [createSandbox] succeeds, its URL is http://localhost:3001, its handle
    starts with "container-" and [isAlive] then answers true; in every other
    case (a status that is not ok, or a request that fails) it raises
    "Docker is not available or not running" and the instance is left as it
    was. *)
Theorem createSandbox_with_SimpleDockerClient :
  forall (number W : Type) (RT : Runtime W) (self : t number) (w : W),
    (fst (fetch_ping w) = Fulfilled true ->
     exists info self' w',
       createSandbox (DC := SimpleDockerClient.api) (self, w)
         = (Fulfilled info, (self', w')) /\
       url info = js "http://localhost:3001" /\
       sandboxInfo self' = Some info /\
       (exists suffix, containerId self' = Some (js "container-" ++ suffix)) /\
       forall w'' : W,
         fst (isAlive (DC := SimpleDockerClient.api) (self', w'')) = Fulfilled true) /\
    (fst (fetch_ping w) <> Fulfilled true ->
     exists w',
       createSandbox (DC := SimpleDockerClient.api) (self, w)
         = (Rejected (ErrorObj (js "Docker is not available or not running")), (self, w'))).
Proof.
  intros number W RT self w.
  unfold createSandbox, initializeNodeEnvironment, getSandboxUrl. unfold_async.
  cbv beta iota delta [fst snd Client.ping SimpleDockerClient.api SimpleDockerClient.ping].
  destruct (fetch_ping w) as [[[|]|e] w1]; cbv beta iota delta [fst snd negb].
  - split; [intros _ | intros H; now contradiction H].
    destruct (Date_now w1) as [now w2]. cbv beta iota delta [fst snd].
    destruct (Math_random_toString36 w2) as [random w3]. cbv beta iota delta [fst snd].
    cbv beta iota delta [Client.createContainer SimpleDockerClient.createContainer
                           Client.startContainer SimpleDockerClient.startContainer
                           fst snd].
    destruct (Date_now w3) as [now' w4]. cbv beta iota delta [fst snd].
    destruct (Math_random_toString36 w4) as [random' w5].
    simpl.
    match goal with
    | |- context [Date_now ?x] => destruct (Date_now x) as [date w6]
    end.
    eexists. eexists. eexists. split; [reflexivity|].
    split; [reflexivity|]. split; [reflexivity|].
    split; [eexists; reflexivity|].
    intros w''. reflexivity.
  - split; [discriminate|]. intros _. eexists. reflexivity.
  - split; [discriminate|]. intros _. eexists. reflexivity.
Qed.

(** [runCommand] with the client of the source. *)
Lemma runCommand_simple :
  forall (number W : Type) (parseInt : jsstring -> number) (RT : Runtime W)
         (self : t number) (w : W) c (id command : jsstring),
    reachable (DC := SimpleDockerClient.api) parseInt self ->
    containerId self = Some (c :: id) ->
    runCommand (DC := SimpleDockerClient.api) command (self, w) =
      (Fulfilled
         (if includes (js "test -f") command then
            {| stdout := js ""; stderr := js ""; exitCode := 1; success := false |}
          else if includes (js "mkdir") command then
            {| stdout := js ""; stderr := js ""; exitCode := 0; success := true |}
          else
            {| stdout := js "Command executed: " ++ command; stderr := js "";
               exitCode := 0; success := true |}),
       (self,
        console_log [js "Executing command in " ++ (c :: id) ++ js ":"; command] w)).
Proof.
  intros number W parseInt RT self w c id command Hreach Hid.
  rewrite (runCommand_exec number (DC := SimpleDockerClient.api) self w
             (console_log [js "Executing command in " ++ (c :: id) ++ js ":";
                           join (js " ") (split 32 command)] w)
             c id command
             (fst (SimpleDockerClient.execCommand (c :: id) (split 32 command) w))
             Hid eq_refl).
  rewrite (reachable_timeout number parseInt self Hreach).
  unfold race, SimpleDockerClient.execCommand.
  cbv beta iota delta [fst Client.elapsed Client.settlement].
  change (js " ") with [32%N]. rewrite join_split. reflexivity.
Qed.

(** X10. With [SimpleDockerClient] no command is executed and none times
    out: on an instance that a caller can hold and that has a handle,
    [runCommand] logs the command and answers from its text alone, with
    exit code 1 when it contains "test -f", with exit code 0 and no output
    when it contains "mkdir", and otherwise with exit code 0 and the output
    "Command executed: " followed by the command. *)
Theorem runCommand_with_SimpleDockerClient :
  forall (number W : Type) (parseInt : jsstring -> number) (RT : Runtime W)
         (self : t number) (w : W) c (id command : jsstring),
    reachable (DC := SimpleDockerClient.api) parseInt self ->
    containerId self = Some (c :: id) ->
    runCommand (DC := SimpleDockerClient.api) command (self, w) =
      (Fulfilled
         (if includes (js "test -f") command then
            {| stdout := js ""; stderr := js ""; exitCode := 1; success := false |}
          else if includes (js "mkdir") command then
            {| stdout := js ""; stderr := js ""; exitCode := 0; success := true |}
          else
            {| stdout := js "Command executed: " ++ command; stderr := js "";
               exitCode := 0; success := true |}),
       (self,
        console_log [js "Executing command in " ++ (c :: id) ++ js ":"; command] w)).
Proof. exact runCommand_simple. Qed.

(** * Further properties of [DockerClient] *)

Lemma trimStart_head : forall s : jsstring,
    match trimStart s with
    | [] => True
    | c :: _ => isWhiteSpace c = false
    end.
Proof.
  induction s as [|c s IH]; simpl; [exact I|].
  destruct (isWhiteSpace c) eqn:Hc; [exact IH | exact Hc].
Qed.

(** A trimmed string that is not empty ends with a code unit that is not
    white space. *)
Lemma trim_last : forall s : jsstring,
    trim s <> [] ->
    exists body c, trim s = body ++ [c] /\ isWhiteSpace c = false.
Proof.
  intros s Hne. unfold trim, trimEnd in *.
  pose proof (trimStart_head (rev (trimStart s))) as Hhead.
  destruct (trimStart (rev (trimStart s))) as [|c rest].
  - now contradiction Hne.
  - exists (rev rest), c. split; [reflexivity | exact Hhead].
Qed.

Lemma split_ws_from_pieces : forall (s : jsstring) (in_run : bool),
    Forall (fun piece => forall c, In c piece -> isWhiteSpace c = false)
           (split_ws_from in_run s).
Proof.
  induction s as [|a s IH]; intros in_run; simpl.
  - constructor; [intros c []|constructor].
  - destruct (isWhiteSpace a) eqn:Ha.
    + destruct in_run; [apply IH|]. constructor; [intros c []|apply IH].
    + specialize (IH false). destruct (split_ws_from false s) as [|piece pieces].
      * constructor; [|constructor]. intros c [<-|[]]. exact Ha.
      * inversion IH as [|? ? Hpiece Hrest]; subst. constructor; [|exact Hrest].
        intros c [<-|Hin]; [exact Ha | now apply Hpiece].
Qed.

Lemma split_ws_from_last : forall (body : jsstring) (c : N) (in_run : bool),
    isWhiteSpace c = false ->
    exists pieces piece,
      split_ws_from in_run (body ++ [c]) = pieces ++ [piece] /\ piece <> [].
Proof.
  induction body as [|a body IH]; intros c in_run Hc; simpl.
  - rewrite Hc. exists [], [c]. split; [reflexivity | discriminate].
  - destruct (isWhiteSpace a).
    + destruct in_run.
      * apply IH, Hc.
      * destruct (IH c true Hc) as (pieces & piece & -> & Hne).
        exists ([] :: pieces), piece. split; [reflexivity | exact Hne].
    + destruct (IH c false Hc) as (pieces & piece & -> & Hne).
      destruct pieces as [|first pieces]; simpl.
      * exists [], (a :: piece). split; [reflexivity | discriminate].
      * exists ((a :: first) :: pieces), piece. split; [reflexivity | exact Hne].
Qed.

Lemma linesOf_not_blank : forall text line : jsstring,
    In line (DockerClient.linesOf text) -> trim line <> [].
Proof.
  intros text line Hin. unfold DockerClient.linesOf in Hin.
  apply filter_In in Hin. destruct Hin as [_ Hkeep].
  destruct (trim line); [discriminate | discriminate].
Qed.

(** X11. Every name that [DockerClient.listFiles] finds in the output of
    the listing command is the last word of a line that is not blank: it is
    not empty and contains no white space, so that of a file name with
    spaces only the last word is returned. *)
Theorem parseListing_names :
  forall text name : jsstring,
    In name (DockerClient.parseListing text) ->
    name <> [] /\
    (forall c, In c name -> isWhiteSpace c = false) /\
    exists line pieces,
      In line (split 10 text) /\
      split_ws (trim line) = pieces ++ [name].
Proof.
  intros text name Hin. unfold DockerClient.parseListing in Hin.
  apply in_flat_map in Hin. destruct Hin as (line & Hline & Hin).
  pose proof (linesOf_not_blank text line Hline) as Hblank.
  destruct (trim_last line Hblank) as (body & c & Htrim & Hc).
  destruct (split_ws_from_last body c false Hc) as (pieces & piece & Hsplit & Hne).
  unfold DockerClient.fileOfLine in Hin.
  destruct (startsWith (js "total") line || includes (js "<DIR>") line); [destruct Hin|].
  unfold DockerClient.lastPart, split_ws in Hin. rewrite Htrim, Hsplit in Hin.
  rewrite rev_app_distr in Hin. cbn [rev app] in Hin.
  destruct (negb (jsstring_eqb piece (js ".")) && negb (jsstring_eqb piece (js "..")));
    [|destruct Hin].
  destruct Hin as [<-|[]].
  split; [exact Hne|]. split.
  - pose proof (split_ws_from_pieces (body ++ [c]) false) as Hpieces.
    rewrite Hsplit in Hpieces. apply Forall_app in Hpieces.
    destruct Hpieces as [_ Hlast]. now inversion Hlast.
  - exists line, pieces. split.
    + unfold DockerClient.linesOf in Hline. apply filter_In in Hline. tauto.
    + unfold split_ws. now rewrite Htrim.
Qed.

Lemma collect_concat : forall (chunks : list Dockerode.Chunk) (out err : jsstring),
    DockerClient.collect chunks out err =
      (out ++ List.concat (map (fun chunk => match Dockerode.chunk_stdout chunk with
                                        | Some text => text
                                        | None => []
                                        end) chunks),
       err ++ List.concat (map (fun chunk => match Dockerode.chunk_stderr chunk with
                                        | Some text => text
                                        | None => []
                                        end) chunks)).
Proof.
  induction chunks as [|chunk chunks IH]; intros out err; simpl.
  - now rewrite !app_nil_r.
  - rewrite IH.
    destruct (Dockerode.chunk_stdout chunk), (Dockerode.chunk_stderr chunk);
      simpl; rewrite <- ?app_assoc; reflexivity.
Qed.

(** X12. [DockerClient.execCommand], when dockerode answers every call,
    returns as [stdout] the texts of the chunks of standard output in the
    order of their arrival, as [stderr] those of standard error, and as
    exit code the [ExitCode] of the state of the container, 0 when the
    state has none. *)
Theorem execCommand_collects_output :
  forall (W : Type) (RT : Runtime W) (D : Dockerode.Api W)
         (containerId : jsstring) (command : list jsstring) (w w1 w2 w3 w4 : W)
         execId chunks state,
    Dockerode.exec containerId command w = (Fulfilled execId, w1) ->
    Dockerode.exec_start execId w1 = (Fulfilled tt, w2) ->
    Dockerode.followExec execId containerId w2
      = (Fulfilled (Some {| Dockerode.output := Some chunks |}), w3) ->
    Dockerode.inspect containerId w3 = (Fulfilled state, w4) ->
    DockerClient.execCommand containerId command w =
      (Fulfilled
         {| stdout := List.concat (map (fun chunk => match Dockerode.chunk_stdout chunk with
                                                | Some text => text
                                                | None => []
                                                end) chunks);
            stderr := List.concat (map (fun chunk => match Dockerode.chunk_stderr chunk with
                                                | Some text => text
                                                | None => []
                                                end) chunks);
            exitCode := match Dockerode.ExitCode state with Some code => code | None => 0%Z end;
            success := match Dockerode.ExitCode state with
                       | Some code => (code =? 0)%Z
                       | None => true
                       end |},
       w4).
Proof.
  intros W RT D containerId command w w1 w2 w3 w4 execId chunks state
         Hexec Hstart Hfollow Hinspect.
  unfold DockerClient.execCommand, DockerClient.await. unfold_async.
  rewrite Hexec, Hstart, Hfollow. rewrite collect_concat. cbn [app].
  rewrite Hinspect.
  destruct (Dockerode.ExitCode state) as [code|]; [|reflexivity].
  destruct (Z.eqb_spec code 0) as [->|Hne]; [reflexivity|].
  apply Z.eqb_neq in Hne. now rewrite Hne.
Qed.

(** X13. [DockerClient.readFile] returns the standard output of [cat] when
    the command is reported successful, and otherwise raises "Failed to
    read file: " followed by the standard error of the command or by the
    message of the error that dockerode raised; [listFiles] does likewise
    with "Failed to list files: ". Neither raises anything else. *)
Theorem DockerClient_file_errors :
  forall (W : Type) (RT : Runtime W) (D : Dockerode.Api W)
         (containerId path : jsstring) (directory : option jsstring) (w : W),
    (exists r w1,
        DockerClient.execCommand containerId [js "cat"; path] w = (Fulfilled r, w1) /\
        DockerClient.readFile containerId path w =
          if success r then (Fulfilled (stdout r), w1)
          else (Rejected (ErrorObj (js "Failed to read file: " ++ stderr r)),
                console_error (js "Failed to read file:")
                  (ErrorObj (js "Failed to read file: " ++ stderr r)) w1)) /\
    (exists r w1,
        DockerClient.execCommand containerId
          [js "ls"; js "-la"; match directory with Some d => d | None => js "/" end] w
          = (Fulfilled r, w1) /\
        DockerClient.listFiles containerId directory w =
          if success r then (Fulfilled (DockerClient.parseListing (stdout r)), w1)
          else (Rejected (ErrorObj (js "Failed to list files: " ++ stderr r)),
                console_error (js "Failed to list files:")
                  (ErrorObj (js "Failed to list files: " ++ stderr r)) w1)).
Proof.
  intros W RT D containerId path directory w. split.
  - destruct (DockerClient_execCommand_result W RT D containerId [js "cat"; path] w)
      as (r & w1 & Hexec & _).
    exists r, w1. split; [exact Hexec|].
    unfold DockerClient.readFile, DockerClient.effect. unfold_async. rewrite Hexec.
    destruct (success r); reflexivity.
  - destruct (DockerClient_execCommand_result W RT D containerId
                [js "ls"; js "-la"; match directory with Some d => d | None => js "/" end] w)
      as (r & w1 & Hexec & _).
    exists r, w1. split; [exact Hexec|].
    unfold DockerClient.listFiles, DockerClient.effect. unfold_async. rewrite Hexec.
    destruct (success r); reflexivity.
Qed.

(** ** The script of [DockerClient.writeFile] *)

Lemma join_cons_head : forall (sep : jsstring) (c : N) (piece : jsstring) pieces,
    join sep ((c :: piece) :: pieces) = c :: join sep (piece :: pieces).
Proof. intros sep c piece [|q pieces]; reflexivity. Qed.

Lemma escapeSingleQuotes_join : forall content : jsstring,
    escapeSingleQuotes content = join (js "'\''") (split 39 content).
Proof.
  induction content as [|c content IH]; [reflexivity|].
  change (escapeSingleQuotes (c :: content))
    with ((if N.eqb c 39 then [39; 92; 39; 39]%N else [c]) ++ escapeSingleQuotes content).
  rewrite IH. simpl split. destruct (N.eqb c 39).
  - destruct (split 39 content) as [|piece pieces] eqn:Hsplit.
    + destruct content as [|d content]; simpl in Hsplit; [discriminate|].
      destruct (N.eqb d 39); [discriminate|].
      destruct (split 39 content); discriminate.
    + reflexivity.
  - destruct (split 39 content) as [|piece pieces] eqn:Hsplit.
    + destruct content as [|d content]; simpl in Hsplit; [discriminate|].
      destruct (N.eqb d 39); [discriminate|].
      destruct (split 39 content); discriminate.
    + rewrite join_cons_head. reflexivity.
Qed.

(** X30. The script that [DockerClient.writeFile] gives to the shell of its
    helper container. The content is cut at its apostrophes, and the pieces,
    which hold none, are joined by the four code units apostrophe,
    backslash, apostrophe, apostrophe, between "echo '" and "' > "; a
    content without an apostrophe stands there as it is, and no other. The
    path follows as it was given, outside the quotes. *)
Theorem writeFile_script_quoting :
  forall path content : jsstring,
    DockerClient.writeCommand path content =
      [js "sh"; js "-c";
       js "echo '" ++ join (js "'\''") (split 39 content) ++ js "' > " ++ path] /\
    Forall (fun piece => ~ In 39%N piece) (split 39 content) /\
    (escapeSingleQuotes content = content <-> ~ In 39%N content).
Proof.
  intros path content. split; [|split].
  - unfold DockerClient.writeCommand. now rewrite escapeSingleQuotes_join.
  - apply split_pieces_free.
  - split.
    + intros Hsame Hin.
      assert (Hlonger : (List.length content < List.length (escapeSingleQuotes content))%nat).
      { clear Hsame. induction content as [|c content IH]; [contradiction|].
        change (escapeSingleQuotes (c :: content))
          with ((if N.eqb c 39 then [39; 92; 39; 39]%N else [c])
                  ++ escapeSingleQuotes content).
        rewrite length_app.
        assert (Hle : forall l : jsstring,
                   (List.length l <= List.length (escapeSingleQuotes l))%nat).
        { induction l as [|d l IHl]; [simpl; lia|].
          change (escapeSingleQuotes (d :: l))
            with ((if N.eqb d 39 then [39; 92; 39; 39]%N else [d])
                    ++ escapeSingleQuotes l).
          rewrite length_app. destruct (N.eqb d 39); simpl; lia. }
        destruct (N.eqb_spec c 39) as [->|Hne].
        - specialize (Hle content). simpl. lia.
        - destruct Hin as [E|Hin]; [congruence|]. specialize (IH Hin). simpl. lia. }
      rewrite Hsame in Hlonger. lia.
    + intros Hfree. rewrite escapeSingleQuotes_join, (split_no_sep 39 content Hfree).
      reflexivity.
Qed.

(** * Properties of the model service *)

(** ** Sorting *)

Section SortFacts.
Variable A : Type.
Variable compare : A -> A -> Z.

Hypothesis compare_total : forall a b, precedes compare a b \/ precedes compare b a.
Hypothesis compare_trans :
  forall a b c, precedes compare a b -> precedes compare b c -> precedes compare a c.

Lemma insert_permutation : forall (x : A) (l : list A),
    Permutation (insert compare x l) (x :: l).
Proof.
  intros x l. induction l as [|y l IH]; simpl.
  - apply Permutation_refl.
  - destruct (compare x y <=? 0)%Z.
    + apply Permutation_refl.
    + apply perm_trans with (y :: x :: l).
      * now apply perm_skip.
      * apply perm_swap.
Qed.

Lemma sort_permutation : forall l : list A, Permutation (sort compare l) l.
Proof.
  induction l as [|x l IH]; simpl.
  - apply perm_nil.
  - apply perm_trans with (x :: sort compare l).
    + apply insert_permutation.
    + now apply perm_skip.
Qed.

Lemma insert_sorted : forall (x : A) (l : list A),
    StronglySorted (precedes compare) l -> StronglySorted (precedes compare) (insert compare x l).
Proof.
  intros x l Hsorted. induction Hsorted as [|y l Hl IH Hy]; simpl.
  - constructor; constructor.
  - destruct (Z.leb_spec (compare x y) 0) as [Hle|Hgt].
    + constructor.
      * now constructor.
      * constructor; [exact Hle|].
        apply Forall_impl with (P := precedes compare y); [|exact Hy].
        intros z Hz. now apply compare_trans with y.
    + constructor; [exact IH|].
      apply Forall_forall. intros z Hz.
      apply (Permutation_in _ (insert_permutation x l)) in Hz.
      destruct Hz as [<-|Hz].
      * destruct (compare_total y x) as [H|H]; [exact H|]. unfold precedes in H. lia.
      * rewrite Forall_forall in Hy. now apply Hy.
Qed.

Lemma sort_sorted : forall l : list A, StronglySorted (precedes compare) (sort compare l).
Proof.
  induction l as [|x l IH]; simpl.
  - constructor.
  - now apply insert_sorted.
Qed.

End SortFacts.

Lemma sorted_split : forall (A : Type) (R : A -> A -> Prop) (before : list A) a rest b,
    StronglySorted R (before ++ a :: rest) -> In b rest -> R a b.
Proof.
  intros A R before a rest b Hsorted Hb.
  induction before as [|x before IH]; simpl in Hsorted.
  - inversion Hsorted as [|? ? _ Hall]; subst.
    rewrite Forall_forall in Hall. now apply Hall.
  - inversion Hsorted; subst. now apply IH.
Qed.

(** ** The order of strings *)

Lemma compareStrings_antisym : forall a b : jsstring,
    compareStrings b a = (- compareStrings a b)%Z.
Proof.
  induction a as [|x a IH]; destruct b as [|y b]; simpl; try reflexivity.
  rewrite (N.compare_antisym x y). destruct (N.compare x y); simpl; auto.
Qed.

Lemma compareStrings_eq : forall a b : jsstring, compareStrings a b = 0%Z -> a = b.
Proof.
  induction a as [|x a IH]; destruct b as [|y b]; simpl; try discriminate; auto.
  destruct (N.compare_spec x y) as [->|H|H]; try discriminate.
  intros E. f_equal. now apply IH.
Qed.

Lemma compareStrings_total : forall a b : jsstring,
    (compareStrings a b <= 0)%Z \/ (compareStrings b a <= 0)%Z.
Proof. intros a b. rewrite (compareStrings_antisym a b). lia. Qed.

Lemma compareStrings_trans : forall a b c : jsstring,
    (compareStrings a b <= 0)%Z -> (compareStrings b c <= 0)%Z ->
    (compareStrings a c <= 0)%Z.
Proof.
  induction a as [|x a IH]; intros [|y b] [|z c]; simpl; try lia.
  destruct (N.compare_spec x y) as [->|Hxy|Hxy]; try lia.
  - destruct (N.compare_spec y z) as [->|Hyz|Hyz]; try lia.
    apply IH.
  - destruct (N.compare_spec y z) as [->|Hyz|Hyz]; try lia.
    + destruct (N.compare_spec x z) as [->|Hxz|Hxz]; lia.
    + destruct (N.compare_spec x z) as [->|Hxz|Hxz]; lia.
Qed.

(** ** Filtering *)

Section ModelServiceFacts.
Variable number : Type.
Variable isZero : number -> bool.
Variable isTruthy : number -> bool.
Variable lessThan : number -> number -> bool.
Variable toLowerCase : jsstring -> jsstring.

Import ModelService.

(** X14. What [filterModels] returns under each criterion. With [free]
    set, only models whose two prices are zero, whatever [paid] says; with
    [paid] set and [free] not set, no such model; with a provider, only
    models that have one, equal to it but for case; with a minimum context
    length that counts as a condition, no model whose context length counts
    as one and is less. *)
Theorem filterModels_sound :
  forall (models : list (OpenRouterModel number)) (filter : ModelFilter number) (model : OpenRouterModel number),
    In model (filterModels isZero isTruthy lessThan toLowerCase models filter) ->
    In model models /\
    (free filter = Some true -> isFree isZero model = true) /\
    (free filter <> Some true -> paid filter = Some true -> isFree isZero model = false) /\
    (forall wanted : jsstring,
        provider filter = Some wanted -> wanted <> [] ->
        exists p, top_provider model = Some p /\ toLowerCase p = toLowerCase wanted) /\
    (forall minimum length,
        minContextLength filter = Some minimum -> isTruthy minimum = true ->
        context_length model = Some length -> isTruthy length = true ->
        lessThan length minimum = false).
Proof.
  intros models filter model Hin.
  apply filter_In in Hin. destruct Hin as [Hin Hkeep].
  unfold keeps in Hkeep. rewrite !andb_true_iff in Hkeep.
  destruct Hkeep as [[[[Hpricing Hsearch] Htype] Hcontext] Hprovider].
  split; [exact Hin|]. split; [|split; [|split]].
  - intros Hfree. unfold passesPricing in Hpricing. rewrite Hfree in Hpricing.
    cbn [isTrue] in Hpricing. unfold isFree.
    destruct (isZero (prompt (pricing model))), (isZero (completion (pricing model)));
      simpl in *; congruence.
  - intros Hfree Hpaid. unfold passesPricing in Hpricing.
    assert (Hnot : isTrue (free filter) = false).
    { destruct (free filter) as [[|]|]; simpl; congruence. }
    rewrite Hnot, Hpaid in Hpricing. cbn [isTrue] in Hpricing.
    unfold isFree.
    now destruct (isZero (prompt (pricing model)) && isZero (completion (pricing model))).
  - intros wanted Hwanted Hne. unfold passesProvider in Hprovider.
    rewrite Hwanted in Hprovider. destruct wanted as [|c wanted]; [contradiction|].
    destruct (top_provider model) as [p|]; [|discriminate].
    exists p. split; [reflexivity|]. now apply jsstring_eqb_eq.
  - intros minimum length Hmin Hcounts Hlength Hcounts'.
    unfold passesContext in Hcontext. rewrite Hmin, Hlength, Hcounts, Hcounts' in Hcontext.
    simpl in Hcontext. now destruct (lessThan length minimum).
Qed.

(** A filter that asks for nothing keeps every model. *)
Lemma filterModels_keeps_all :
  forall (models : list (OpenRouterModel number)) (filter : ModelFilter number),
    free filter <> Some true ->
    paid filter <> Some true ->
    truthy (search filter) = false ->
    (type filter = None \/ type filter = Some text) ->
    (forall minimum, minContextLength filter = Some minimum -> isTruthy minimum = false) ->
    truthy (provider filter) = false ->
    filterModels isZero isTruthy lessThan toLowerCase models filter = models.
Proof.
  intros models filter Hfree Hpaid Hsearch Htype Hmin Hprovider.
  unfold filterModels.
  apply forallb_filter_id. apply forallb_forall. intros model _.
  unfold keeps, passesPricing, passesSearch, passesType, passesContext, passesProvider.
  assert (isTrue (free filter) = false) as ->
      by (destruct (free filter) as [[|]|]; simpl; congruence).
  assert (isTrue (paid filter) = false) as ->
      by (destruct (paid filter) as [[|]|]; simpl; congruence).
  destruct (search filter) as [[|c s]|]; try discriminate;
    destruct (provider filter) as [[|c' p]|]; try discriminate;
    (destruct Htype as [-> | ->]);
    (destruct (minContextLength filter) as [minimum|];
     [rewrite (Hmin minimum eq_refl); destruct (context_length model)|]);
    reflexivity.
Qed.

(** X15. A filter that asks for nothing returns every model: [free] and
    [paid] not true, no search term or the empty one, no type or the type
    text, no minimum context length or one that does not count as a
    condition (0), no provider or the empty one. *)
Theorem filterModels_neutral :
  forall (models : list (OpenRouterModel number)) (filter : ModelFilter number),
    free filter <> Some true ->
    paid filter <> Some true ->
    truthy (search filter) = false ->
    (type filter = None \/ type filter = Some text) ->
    (forall minimum, minContextLength filter = Some minimum -> isTruthy minimum = false) ->
    truthy (provider filter) = false ->
    filterModels isZero isTruthy lessThan toLowerCase models filter = models.
Proof. exact filterModels_keeps_all. Qed.

(** X16. Fields that a model lacks. A model without a context length
    passes the test of the minimum context length whatever the minimum; a
    model without a provider is dropped by every filter that names one; a
    model without a description is found by a search term only in its name
    or in its id. *)
Theorem filterModels_missing_fields :
  forall (models : list (OpenRouterModel number)) (filter : ModelFilter number) (model : OpenRouterModel number),
    (context_length model = None -> passesContext isTruthy lessThan filter model = true) /\
    (top_provider model = None -> truthy (provider filter) = true ->
     ~ In model (filterModels isZero isTruthy lessThan toLowerCase models filter)) /\
    (description model = None ->
     forall term : jsstring,
       search filter = Some term -> term <> [] ->
       In model (filterModels isZero isTruthy lessThan toLowerCase models filter) ->
       includes (toLowerCase term) (toLowerCase (name model)) = true \/
       includes (toLowerCase term) (toLowerCase (id model)) = true).
Proof.
  intros models filter model. split; [|split].
  - intros Hnone. unfold passesContext. rewrite Hnone.
    now destruct (minContextLength filter).
  - intros Hnone Hwanted Hin. apply filter_In in Hin. destruct Hin as [_ Hkeep].
    unfold keeps in Hkeep. rewrite !andb_true_iff in Hkeep.
    destruct Hkeep as [_ Hprovider]. unfold passesProvider in Hprovider.
    rewrite Hnone in Hprovider.
    destruct (provider filter) as [[|c p]|]; discriminate.
  - intros Hnone term Hterm Hne Hin. apply filter_In in Hin. destruct Hin as [_ Hkeep].
    unfold keeps in Hkeep. rewrite !andb_true_iff in Hkeep.
    destruct Hkeep as [[[[_ Hsearch] _] _] _]. unfold passesSearch in Hsearch.
    rewrite Hterm, Hnone in Hsearch. destruct term as [|c term]; [contradiction|].
    destruct (includes (toLowerCase (c :: term)) (toLowerCase (name model))); [now left|].
    destruct (includes (toLowerCase (c :: term)) (toLowerCase (id model))); [now right|].
    discriminate.
Qed.

Lemma filter_partition : forall (A : Type) (f : A -> bool) (l : list A),
    Permutation l (List.filter f l ++ List.filter (fun x => negb (f x)) l).
Proof.
  intros A f l. induction l as [|x l IH]; simpl.
  - apply perm_nil.
  - destruct (f x); simpl.
    + now apply perm_skip.
    + now apply Permutation_cons_app.
Qed.

(** X17. [getModelsByPricing] groups as [filterModels] filters: its free
    models are those that the filter free returns and its paid models those
    that the filter paid returns, every model is in one group and in one
    only, and the two groups together are the models. *)
Theorem byPricing_partition :
  forall models : list (OpenRouterModel number),
    freeModels (byPricing isZero models)
      = filterModels isZero isTruthy lessThan toLowerCase models {| free := Some true; paid := None; search := None;
                               type := None; minContextLength := None;
                               provider := None |} /\
    paidModels (byPricing isZero models)
      = filterModels isZero isTruthy lessThan toLowerCase models {| free := None; paid := Some true; search := None;
                               type := None; minContextLength := None;
                               provider := None |} /\
    Permutation models
      (freeModels (byPricing isZero models) ++ paidModels (byPricing isZero models)) /\
    forall model,
      ~ (In model (freeModels (byPricing isZero models)) /\
         In model (paidModels (byPricing isZero models))).
Proof.
  intros models. unfold byPricing, filterModels.
  cbn [freeModels paidModels].
  split; [|split; [|split]].
  - apply filter_ext. intros m.
    unfold keeps, passesPricing, passesSearch, passesType, passesContext, passesProvider.
    cbn. destruct (isZero (prompt (pricing m))), (isZero (completion (pricing m)));
      reflexivity.
  - apply filter_ext. intros m.
    unfold keeps, passesPricing, passesSearch, passesType, passesContext, passesProvider.
    cbn. destruct (isZero (prompt (pricing m))), (isZero (completion (pricing m)));
      reflexivity.
  - rewrite (filter_ext (fun m => negb (isZero (prompt (pricing m)))
                                  || negb (isZero (completion (pricing m))))
                        (fun m => negb (isZero (prompt (pricing m))
                                        && isZero (completion (pricing m))))).
    + apply filter_partition.
    + intros m. now rewrite negb_andb.
  - intros model [Hfree Hpaid].
    apply filter_In in Hfree. apply filter_In in Hpaid.
    destruct Hfree as [_ Hfree]. destruct Hpaid as [_ Hpaid].
    destruct (isZero (prompt (pricing model))), (isZero (completion (pricing model)));
      discriminate.
Qed.

End ModelServiceFacts.

(** ** Fetching and caching *)

Section ModelServiceCache.
Variable number : Type.
Variable isZero : number -> bool.
Variable isTruthy : number -> bool.
Variable lessThan : number -> number -> bool.
Variable toLowerCase : jsstring -> jsstring.
Context {W : Type} {RT : Runtime W} {NW : ModelService.Network number W}.

Import ModelService.

(** X18. [fetchOpenRouterModels] never raises and never touches the cache.
    Without an API key it only warns, without making a request. It returns
    models only when there is a key, the request is answered with an ok
    status and the body has a truthy [data]: in every other case (a request
    that fails, a status that is not ok, a body that cannot be read or is
    null) it returns no model. *)
Theorem fetchOpenRouterModels_never_raises :
  forall (cache : option (CachedModels number)) (w : W),
    exists (l : list (OpenRouterModel number)) (w' : W),
      fetchOpenRouterModels (cache, w) = (Fulfilled l, (cache, w')) /\
      (truthy (OPENROUTER_API_KEY w) = false ->
       l = [] /\
       w' = console_warn (js "[model-service] OPENROUTER_API_KEY not configured") w) /\
      (l <> [] ->
       exists (key : jsstring) response,
         OPENROUTER_API_KEY w = Some key /\ key <> [] /\
         fetch_models key w = (Fulfilled response, w') /\
         ok response = true /\
         json response = Fulfilled (BodyObject (Some l))).
Proof.
  intros cache w. unfold fetchOpenRouterModels, settled. unfold_async. cbn [fst snd].
  destruct (OPENROUTER_API_KEY w) as [[|k key]|] eqn:Hkey;
    try (eexists; eexists; split; [reflexivity|]; split; [auto|];
         intros Hne; now contradiction Hne).
  destruct (fetch_models (k :: key) w) as [[response|e] w1] eqn:Hfetch; cbn [fst snd];
    [|eexists; eexists; split; [reflexivity|]; split; [discriminate|];
      intros Hne; now contradiction Hne].
  destruct (ok response) eqn:Hok; cbn [negb fst snd];
    [|eexists; eexists; split; [reflexivity|]; split; [discriminate|];
      intros Hne; now contradiction Hne].
  destruct (json response) as [[|[found|]]|e] eqn:Hjson; cbn [fst snd];
    try (eexists; eexists; split; [reflexivity|]; split; [discriminate|];
         intros Hne; now contradiction Hne).
  exists found, w1. split; [reflexivity|]. split; [discriminate|].
  intros _. exists (k :: key), response.
  split; [reflexivity|]. split; [discriminate|]. split; [exact Hfetch|].
  split; [exact Hok | exact Hjson].
Qed.

Lemma fetchOpenRouterModels_frame : forall (cache : option (CachedModels number)) (w : W),
    exists (l : list (OpenRouterModel number)) (w' : W),
      fetchOpenRouterModels (cache, w) = (Fulfilled l, (cache, w')).
Proof.
  intros cache w. unfold fetchOpenRouterModels, settled. unfold_async. cbn [fst snd].
  destruct (OPENROUTER_API_KEY w) as [[|k key]|]; try (eexists; eexists; reflexivity).
  destruct (fetch_models (k :: key) w) as [[response|e] w1]; cbn [fst snd];
    [|eexists; eexists; reflexivity].
  destruct (ok response); cbn [negb fst snd]; [|eexists; eexists; reflexivity].
  destruct (json response) as [[|[found|]]|e]; eexists; eexists; reflexivity.
Qed.

(** What [getModelsRef] does, given the time that it reads. *)
Lemma getModelsRef_run :
  forall (force : bool) (cache : option (CachedModels number)) (w w1 : W) (now : Z),
    Date_now w = (now, w1) ->
    (forall c, cache = Some c -> force = false ->
               (now - timestamp c < CACHE_DURATION)%Z ->
               getModelsRef force (cache, w) = (Fulfilled (Cached number), (cache, w1))) /\
    ((force = true \/ cache = None \/
      exists c, cache = Some c /\ (CACHE_DURATION <= now - timestamp c)%Z) ->
     exists (l : list (OpenRouterModel number)) (w2 : W),
       fetchOpenRouterModels (cache, w1) = (Fulfilled l, (cache, w2)) /\
       getModelsRef force (cache, w) =
         match l with
         | [] => (Fulfilled (Fresh []), (cache, w2))
         | _ :: _ => (Fulfilled (Cached number),
                      (Some {| models := l; timestamp := now |}, w2))
         end).
Proof.
  intros force cache w w1 now Hnow. split.
  - intros c -> -> Hfresh. unfold getModelsRef. unfold_async. cbn [fst snd].
    rewrite Hnow. cbn [fst snd negb andb].
    apply Z.ltb_lt in Hfresh. now rewrite Hfresh.
  - intros Hmiss.
    destruct (fetchOpenRouterModels_frame cache w1) as (l & w2 & Hfetch).
    exists l, w2. split; [exact Hfetch|].
    unfold getModelsRef. unfold_async. cbn [fst snd]. rewrite Hnow. cbn [fst snd].
    assert (Hcond : negb force
                    && match cache with
                       | Some c => (now - timestamp c <? CACHE_DURATION)%Z
                       | None => false
                       end = false).
    { destruct Hmiss as [-> | [-> | (c & -> & Hold)]].
      - reflexivity.
      - apply andb_false_r.
      - apply Z.ltb_ge in Hold. rewrite Hold. apply andb_false_r. }
    rewrite Hcond. cbv beta iota delta [fst snd]. rewrite Hfetch.
    destruct l; reflexivity.
Qed.

(** What [getModels] does, given the time that it reads. *)
Lemma getModels_run :
  forall (force : bool) (cache : option (CachedModels number)) (w w1 : W) (now : Z),
    Date_now w = (now, w1) ->
    (forall c, cache = Some c -> force = false ->
               (now - timestamp c < CACHE_DURATION)%Z ->
               getModels force (cache, w) = (Fulfilled (models c), (cache, w1))) /\
    ((force = true \/ cache = None \/
      exists c, cache = Some c /\ (CACHE_DURATION <= now - timestamp c)%Z) ->
     exists (l : list (OpenRouterModel number)) (w2 : W),
       fetchOpenRouterModels (cache, w1) = (Fulfilled l, (cache, w2)) /\
       getModels force (cache, w) =
         (Fulfilled l,
          (match l with
           | [] => cache
           | _ :: _ => Some {| models := l; timestamp := now |}
           end, w2))).
Proof.
  intros force cache w w1 now Hnow.
  destruct (getModelsRef_run force cache w w1 now Hnow) as [Hhit Hmiss]. split.
  - intros c Hc Hforce Hfresh. unfold getModels, bind.
    rewrite (Hhit c Hc Hforce Hfresh). subst cache. reflexivity.
  - intros Hcond. destruct (Hmiss Hcond) as (l & w2 & Hfetch & Hrun).
    exists l, w2. split; [exact Hfetch|].
    unfold getModels, bind. rewrite Hrun. destruct l; reflexivity.
Qed.

(** X19. [getModels] and the cache. Within 24 hours of the time stamp of
    the cache, and unless a refresh is forced, the cached models are
    returned without any request. Otherwise the models are fetched: a list
    that is not empty is returned and replaces the cache, with the time read
    at the start of the call; an empty list (nothing fetched, or a failure)
    is returned as it is, and the cache, even expired, stays as it was. *)
Theorem getModels_cache :
  forall (force : bool) (cache : option (CachedModels number)) (w w1 : W) (now : Z),
    Date_now w = (now, w1) ->
    (forall c, cache = Some c -> force = false ->
               (now - timestamp c < CACHE_DURATION)%Z ->
               getModels force (cache, w) = (Fulfilled (models c), (cache, w1))) /\
    ((force = true \/ cache = None \/
      exists c, cache = Some c /\ (CACHE_DURATION <= now - timestamp c)%Z) ->
     exists (l : list (OpenRouterModel number)) (w2 : W),
       fetchOpenRouterModels (cache, w1) = (Fulfilled l, (cache, w2)) /\
       getModels force (cache, w) =
         (Fulfilled l,
          (match l with
           | [] => cache
           | _ :: _ => Some {| models := l; timestamp := now |}
           end, w2))).
Proof. exact getModels_run. Qed.

Lemma sort_nil : forall (A : Type) (compare : A -> A -> Z) (l : list A),
    sort compare l = [] -> l = [].
Proof.
  intros A compare l Hnil.
  pose proof (sort_permutation A compare l) as Hperm. rewrite Hnil in Hperm.
  now apply Permutation_nil in Hperm.
Qed.

Lemma getModelsRef_holds : forall (force : bool) (cache : option (CachedModels number)) (w : W),
    holdsModels cache ->
    holdsModels (fst (snd (getModelsRef force (cache, w)))).
Proof.
  intros force cache w Hcache.
  destruct (Date_now w) as [now w1] eqn:Hnow.
  destruct (getModelsRef_run force cache w w1 now Hnow) as [Hhit Hmiss].
  destruct force.
  - destruct (Hmiss (or_introl eq_refl)) as (l & w2 & _ & ->).
    destruct l; [exact Hcache | discriminate].
  - destruct cache as [c|].
    + destruct (Z.lt_ge_cases (now - timestamp c) (CACHE_DURATION)) as [Hfresh|Hold].
      * now rewrite (Hhit c eq_refl eq_refl Hfresh).
      * destruct (Hmiss (or_intror (or_intror (ex_intro _ c (conj eq_refl Hold)))))
          as (l & w2 & _ & ->).
        destruct l; [exact Hcache | discriminate].
    + destruct (Hmiss (or_intror (or_introl eq_refl))) as (l & w2 & _ & ->).
      destruct l; [exact Hcache | discriminate].
Qed.

Lemma getModels_holds : forall (force : bool) (cache : option (CachedModels number)) (w : W),
    holdsModels cache ->
    holdsModels (fst (snd (getModels force (cache, w)))).
Proof.
  intros force cache w Hcache.
  pose proof (getModelsRef_holds force cache w Hcache) as Href.
  unfold getModels, bind, deref.
  destruct (getModelsRef force (cache, w)) as [[[|l]|e] [cache' w']]; exact Href.
Qed.

(** X20. An empty list is never cached: whichever function of the service
    is called, in whatever world, a cache that holds no empty list still
    holds none afterwards, so that a fetch that fails neither empties the
    cache nor stops the next call from fetching again. *)
Theorem cache_never_empty :
  forall (cache : option (CachedModels number)) (w : W),
    holdsModels cache ->
    (forall force, holdsModels (fst (snd (getModels force (cache, w))))) /\
    (forall filter,
        holdsModels (fst (snd (getFilteredModels isZero isTruthy lessThan toLowerCase
                                 filter (cache, w))))) /\
    holdsModels (fst (snd (getAvailableProviders (cache, w)))) /\
    holdsModels (fst (snd (getModelsByPricing isZero (cache, w)))) /\
    (forall limit,
        holdsModels (fst (snd (getRecommendedModels isZero limit (cache, w))))).
Proof.
  intros cache w Hcache.
  assert (Hbind : forall (A : Type) (f : list (OpenRouterModel number) -> A),
             holdsModels (fst (snd (bind (getModels false) (fun all => ret (f all))
                                      (cache, w))))).
  { intros A f. pose proof (getModels_holds false cache w Hcache) as H.
    unfold bind, ret. destruct (getModels false (cache, w)) as [[l|e] s']; exact H. }
  split; [intros force; now apply getModels_holds|].
  split; [intros filter; apply Hbind|].
  split; [apply Hbind|]. split; [apply Hbind|].
  intros limit.
  pose proof (getModelsRef_holds false cache w Hcache) as Href.
  unfold getRecommendedModels. unfold_async.
  destruct (getModelsRef false (cache, w)) as [[[|l]|e] [cache' w']];
    cbn [fst snd] in *; try exact Href.
  destruct cache' as [c|]; cbn [fst snd holdsModels models] in *; [|exact I].
  intros Hnil. apply sort_nil in Hnil. contradiction.
Qed.

(** ** Recommendations and providers *)

Lemma compareModels_rank : forall a b : OpenRouterModel number,
    (compareModels isZero a b <= 0)%Z <-> (rank isZero a <= rank isZero b)%Z.
Proof.
  intros a b. unfold compareModels, rank.
  destruct (isFree isZero a), (isFree isZero b), (isPopular a), (isPopular b);
    simpl; lia.
Qed.

Lemma sorted_by_rank : forall l : list (OpenRouterModel number),
    StronglySorted (fun a b => (rank isZero a <= rank isZero b)%Z)
                   (sort (compareModels isZero) l).
Proof.
  intros l.
  assert (Hsorted : StronglySorted (precedes (compareModels isZero))
                      (sort (compareModels isZero) l)).
  { apply sort_sorted.
    - intros a b. unfold precedes. rewrite !compareModels_rank. lia.
    - intros a b c. unfold precedes. rewrite !compareModels_rank. lia. }
  induction Hsorted as [|x rest Hrest IH Hx]; constructor; [exact IH|].
  apply Forall_impl with (P := precedes (compareModels isZero) x); [|exact Hx].
  intros y Hy. now apply compareModels_rank.
Qed.

(** X21. [getRecommendedModels] when the cache is in date. The models of
    the cache are sorted, the free ones before the paid ones and, within
    each, those of the popular providers first, and the first [limit] of
    them are returned, for a [limit] that is not negative. The sort is in
    place: the cache holds the sorted list afterwards, with the same time
    stamp, and that is the order in which a later [getModels] returns the
    models. *)
Theorem getRecommendedModels_sorts_the_cache :
  forall (c : CachedModels number) (limit : Z) (w w1 : W) (now : Z),
    Date_now w = (now, w1) ->
    (now - timestamp c < CACHE_DURATION)%Z ->
    (0 <= limit)%Z ->
    let sorted := sort (compareModels isZero) (models c) in
    let cache' := Some {| models := sorted; timestamp := timestamp c |} in
    getRecommendedModels isZero limit (Some c, w)
      = (Fulfilled (firstn (Z.to_nat limit) sorted), (cache', w1)) /\
    Permutation sorted (models c) /\
    StronglySorted (fun a b => (rank isZero a <= rank isZero b)%Z) sorted /\
    (forall before a rest b,
        sorted = before ++ a :: rest -> In b rest ->
        isFree isZero b = true -> isFree isZero a = true) /\
    (forall (w' w1' : W) (now' : Z),
        Date_now w' = (now', w1') ->
        (now' - timestamp c < CACHE_DURATION)%Z ->
        getModels false (cache', w') = (Fulfilled sorted, (cache', w1'))).
Proof.
  intros c limit w w1 now Hnow Hfresh Hlimit sorted cache'.
  destruct (getModelsRef_run false (Some c) w w1 now Hnow) as [Hhit _].
  split; [|split; [|split; [|split]]].
  - unfold getRecommendedModels, bind. rewrite (Hhit c eq_refl eq_refl Hfresh).
    unfold_async. cbn [fst snd]. unfold slice0.
    destruct (Z.ltb_spec limit 0); [lia | reflexivity].
  - apply sort_permutation.
  - apply sorted_by_rank.
  - intros before a rest b Hplace Hb Hfree.
    pose proof (sorted_by_rank (models c)) as Hsorted. fold sorted in Hsorted.
    rewrite Hplace in Hsorted.
    pose proof (sorted_split _ _ before a rest b Hsorted Hb) as Hrank.
    unfold rank in Hrank. rewrite Hfree in Hrank.
    destruct (isFree isZero a); [reflexivity|].
    destruct (isPopular a), (isPopular b); simpl in Hrank; lia.
  - intros w' w1' now' Hnow' Hfresh'.
    destruct (getModels_run false cache' w' w1' now' Hnow') as [Hcached _].
    apply (Hcached {| models := sorted; timestamp := timestamp c |} eq_refl eq_refl).
    exact Hfresh'.
Qed.

Lemma existsb_jsstring : forall (p : jsstring) (set : list jsstring),
    existsb (jsstring_eqb p) set = true <-> In p set.
Proof.
  intros p set. rewrite existsb_exists. split.
  - intros (q & Hq & E). apply jsstring_eqb_eq in E. now subst.
  - intros Hin. exists p. split; [exact Hin|]. now apply jsstring_eqb_eq.
Qed.

Lemma providersOf_acc :
  forall (all : list (OpenRouterModel number)) (set : list jsstring),
    NoDup set ->
    let result :=
      fold_left (fun set model =>
                   match top_provider model with
                   | Some ((_ :: _) as p) => setAdd set p
                   | _ => set
                   end) all set in
    NoDup result /\
    forall p, In p result <->
              In p set \/
              (p <> [] /\ exists model, In model all /\ top_provider model = Some p).
Proof.
  clear isZero isTruthy lessThan toLowerCase.
  induction all as [|m all IH]; intros set Hset; simpl.
  - split; [exact Hset|]. intros p. split; [auto|].
    intros [H|(_ & model & [] & _)]. exact H.
  - destruct (top_provider m) as [[|c p]|] eqn:Hm.
    + destruct (IH set Hset) as [Hnodup Hin]. split; [exact Hnodup|].
      intros q. rewrite Hin. split.
      * intros [H|(Hne & model & Hmodel & Htop)]; [now left|].
        right. split; [exact Hne|]. exists model. split; [now right | exact Htop].
      * intros [H|(Hne & model & [<-|Hmodel] & Htop)]; [now left| |].
        -- rewrite Hm in Htop. injection Htop as <-. now contradiction Hne.
        -- right. split; [exact Hne|]. now exists model.
    + assert (Hadd : NoDup (setAdd set (c :: p)) /\
                     forall q, In q (setAdd set (c :: p)) <-> In q set \/ q = c :: p).
      { unfold setAdd. destruct (existsb (jsstring_eqb (c :: p)) set) eqn:Hmem.
        - apply existsb_jsstring in Hmem. split; [exact Hset|].
          intros q. split; [auto|]. intros [H| ->]; assumption.
        - split.
          + apply NoDup_app_remove_l with (l := []). simpl.
            apply Permutation_NoDup with (l := (c :: p) :: set).
            * apply Permutation_cons_append.
            * constructor; [|exact Hset]. intros Hin.
              apply existsb_jsstring in Hin. congruence.
          + intros q. rewrite in_app_iff. simpl. intuition congruence. }
      destruct Hadd as [Hnodup' Hin'].
      destruct (IH (setAdd set (c :: p)) Hnodup') as [Hnodup Hin]. split; [exact Hnodup|].
      intros q. rewrite Hin, Hin'. split.
      * intros [[H| ->]|(Hne & model & Hmodel & Htop)].
        -- now left.
        -- right. split; [discriminate|]. exists m. split; [now left | exact Hm].
        -- right. split; [exact Hne|]. exists model. split; [now right | exact Htop].
      * intros [H|(Hne & model & [<-|Hmodel] & Htop)].
        -- left. now left.
        -- left. right. rewrite Hm in Htop. now injection Htop as <-.
        -- right. split; [exact Hne|]. now exists model.
    + destruct (IH set Hset) as [Hnodup Hin]. split; [exact Hnodup|].
      intros q. rewrite Hin. split.
      * intros [H|(Hne & model & Hmodel & Htop)]; [now left|].
        right. split; [exact Hne|]. exists model. split; [now right | exact Htop].
      * intros [H|(Hne & model & [<-|Hmodel] & Htop)]; [now left| |].
        -- rewrite Hm in Htop. discriminate Htop.
        -- right. split; [exact Hne|]. now exists model.
Qed.

Lemma strictly_sorted : forall l : list jsstring,
    NoDup l ->
    StronglySorted (precedes compareStrings) l ->
    StronglySorted (fun a b => (compareStrings a b < 0)%Z) l.
Proof.
  intros l Hnodup Hsorted.
  induction Hsorted as [|x rest Hrest IH Hx]; constructor.
  - apply IH. now inversion Hnodup.
  - inversion Hnodup as [|? ? Hnotin _]; subst.
    rewrite Forall_forall in *. intros y Hy.
    specialize (Hx y Hy). unfold precedes in Hx.
    destruct (Z.eq_dec (compareStrings x y) 0) as [E|E]; [|lia].
    apply compareStrings_eq in E. subst. contradiction.
Qed.

(** X22. [getAvailableProviders] returns the providers of the models that
    [getModels] gives: each provider that some model names, the empty name
    apart, once, in the ascending order of their code units. *)
Theorem getAvailableProviders_sorted :
  forall (s s' : option (CachedModels number) * W) (providers : list jsstring),
    getAvailableProviders (s) = (Fulfilled providers, s') ->
    exists all : list (OpenRouterModel number),
      getModels false s = (Fulfilled all, s') /\
      StronglySorted (fun a b => (compareStrings a b < 0)%Z) providers /\
      NoDup providers /\
      forall p : jsstring,
        In p providers <->
        p <> [] /\ exists model, In model all /\ top_provider model = Some p.
Proof.
  intros s s' providers Hrun. unfold getAvailableProviders, bind, ret in Hrun.
  destruct (getModels false s) as [[all|e] s1]; [|discriminate].
  injection Hrun as <- <-. exists all. split; [reflexivity|].
  destruct (providersOf_acc all [] (NoDup_nil _)) as [Hnodup Hin].
  fold (providersOf all) in Hnodup, Hin.
  pose proof (sort_permutation _ compareStrings (providersOf all)) as Hperm.
  assert (Hnodup' : NoDup (sort compareStrings (providersOf all))).
  { apply Permutation_NoDup with (l := providersOf all);
      [now apply Permutation_sym | exact Hnodup]. }
  split; [|split; [exact Hnodup'|]].
  - apply strictly_sorted; [exact Hnodup'|].
    apply sort_sorted.
    + intros a b. apply compareStrings_total.
    + intros a b c. apply compareStrings_trans.
  - intros p. split.
    + intros Hp. apply (Permutation_in _ Hperm) in Hp. apply Hin in Hp.
      destruct Hp as [[]|Hp]. exact Hp.
    + intros Hp. apply (Permutation_in _ (Permutation_sym Hperm)). apply Hin. now right.
Qed.

End ModelServiceCache.

(** * The development server *)

Section DevServerFacts.
Variable number : Type.
Variable parseInt : jsstring -> number.
Context {W : Type} {RT : Runtime W}.
Variable rewriteManifest : jsstring -> Settlement jsstring.

Lemma writeFile_simple : forall (self : t number) (w : W) c (id path content : jsstring),
    containerId self = Some (c :: id) ->
    exists w', writeFile (DC := SimpleDockerClient.api) path content (self, w)
               = (Fulfilled tt, (self, w')).
Proof.
  intros self w c id path content Hid. unfold writeFile. unfold_async.
  cbv beta iota delta [fst snd]. rewrite Hid. eexists. reflexivity.
Qed.

Lemma readFile_simple : forall (self : t number) (w : W) c (id path : jsstring),
    containerId self = Some (c :: id) ->
    exists w', readFile (DC := SimpleDockerClient.api) path (self, w)
               = (Fulfilled (js "{}"), (self, w')).
Proof.
  intros self w c id path Hid. unfold readFile. unfold_async.
  cbv beta iota delta [fst snd]. rewrite Hid. eexists. reflexivity.
Qed.

Lemma installPackages_simple : forall (self : t number) (w : W) c (id : jsstring) packages,
    containerId self = Some (c :: id) ->
    exists r w', installPackages (DC := SimpleDockerClient.api) packages (self, w)
                 = (Fulfilled r, (self, w')).
Proof.
  intros self w c id packages Hid. rewrite installPackages_unfold.
  pose proof (runCommand_frame number (DC := SimpleDockerClient.api)
                (js "npm install " ++ join (js " ") packages) self w) as Hframe.
  destruct (runCommand_provisioned number (DC := SimpleDockerClient.api) self w c id
              (js "npm install " ++ join (js " ") packages) Hid) as (r & [self' w'] & Hrun).
  rewrite Hrun in *. simpl in Hframe. subst self'. now exists r, w'.
Qed.

(** X23. With [SimpleDockerClient], [setupViteApp] on an instance with a
    handle installs, writes and reads nothing real: it always goes as far as
    the rewriting of the manifest, which it applies to the text "{}" that
    [readFile] returns, and it succeeds or raises as that rewriting does. In
    JavaScript the rewriting of "{}" raises, as [scripts] is undefined in
    the parsed object. *)
Theorem setupViteApp_with_SimpleDockerClient :
  forall (self : t number) (w : W) c (id : jsstring),
    containerId self = Some (c :: id) ->
    exists w',
      setupViteApp (DC := SimpleDockerClient.api) rewriteManifest (self, w) =
        match rewriteManifest (js "{}") with
        | Fulfilled _ => (Fulfilled tt, (self, w'))
        | Rejected e =>
            (Rejected e, (self, console_error (js "Failed to setup Vite app:") e w'))
        end.
Proof.
  intros self w c id Hid.
  unfold setupViteApp. unfold bind at 1. unfold this at 1.
  cbv beta iota delta [fst snd]. rewrite Hid. cbv beta iota.
  unfold try_catch, bind.
  destruct (installPackages_simple self w c id
              [js "vite"; js "@vitejs/plugin-react"; js "react"; js "react-dom"] Hid)
    as (r & w1 & ->).
  destruct (writeFile_simple self w1 c id (js "vite.config.js") viteConfig Hid)
    as (w2 & ->).
  unfold await at 1. cbv beta iota delta [fst snd].
  unfold Client.execCommand at 1, SimpleDockerClient.api at 1,
    SimpleDockerClient.execCommand at 1.
  cbv beta iota zeta delta [fst snd Client.settlement].
  match goal with
  | |- context [writeFile (js "src/main.jsx") mainJsx (self, ?w3)] =>
      destruct (writeFile_simple self w3 c id (js "src/main.jsx") mainJsx Hid) as (w4 & ->)
  end.
  destruct (writeFile_simple self w4 c id (js "src/App.jsx") appJsx Hid) as (w5 & ->).
  destruct (writeFile_simple self w5 c id (js "src/index.css") indexCss Hid) as (w6 & ->).
  destruct (writeFile_simple self w6 c id (js "index.html") indexHtml Hid) as (w7 & ->).
  destruct (readFile_simple self w7 c id (js "package.json") Hid) as (w8 & ->).
  destruct (rewriteManifest (js "{}")) as [rewritten|e].
  - destruct (writeFile_simple self w8 c id (js "package.json") rewritten Hid)
      as (w9 & ->).
    exists w9. reflexivity.
  - exists w8. reflexivity.
Qed.

End DevServerFacts.

Section RestartFacts.
Variable number : Type.
Context {W : Type} {RT : Runtime W} {DC : Client.Api W}.

(** X24. [restartViteServer] on an instance with a handle asks the client
    to execute pkill -f vite and then runs the command "npm run dev &",
    whose argv is npm, run, dev and "&" (the ampersand is an argument, no
    shell reads it). Whatever the two commands report, an exit code that is
    not 0 or a timeout, it returns normally: it raises only when there is no
    handle or when the client raises on pkill. *)
Theorem restartViteServer_reports_nothing :
  forall (self : t number) (w : W) c (id : jsstring) p w1,
    containerId self = Some (c :: id) ->
    Client.execCommand (c :: id) [js "pkill"; js "-f"; js "vite"] w = (p, w1) ->
    split 32 (js "npm run dev &") = [js "npm"; js "run"; js "dev"; js "&"] /\
    (forall r, Client.settlement p = Fulfilled r ->
               restartViteServer (self, w)
                 = (Fulfilled tt, snd (runCommand (js "npm run dev &") (self, w1)))) /\
    (forall e, Client.settlement p = Rejected e ->
               restartViteServer (self, w)
                 = (Rejected e,
                    (self, console_error (js "Failed to restart Vite server:") e w1))).
Proof.
  intros self w c id p w1 Hid Hexec. split; [reflexivity|].
  assert (Hrun : restartViteServer (self, w) =
                 match Client.settlement p with
                 | Fulfilled _ =>
                     (Fulfilled tt, snd (runCommand (js "npm run dev &") (self, w1)))
                 | Rejected e =>
                     (Rejected e,
                      (self, console_error (js "Failed to restart Vite server:") e w1))
                 end).
  { unfold restartViteServer. unfold bind at 1. unfold this at 1.
    cbv beta iota delta [fst snd]. rewrite Hid. cbv beta iota.
    unfold try_catch, bind, await. cbv beta iota delta [fst snd]. rewrite Hexec.
    cbv beta iota zeta delta [fst snd].
    destruct (Client.settlement p) as [r|e]; [|reflexivity].
    destruct (runCommand_provisioned number self w1 c id (js "npm run dev &") Hid)
      as (r' & s' & Hrun).
    rewrite Hrun. reflexivity. }
  rewrite Hrun. split.
  - intros r Hr. destruct (Client.settlement p); [reflexivity | discriminate Hr].
  - intros e Hr. destruct (Client.settlement p); [discriminate Hr|].
    now injection Hr as ->.
Qed.

End RestartFacts.

(** * The inspection of a container *)

Lemma get_set : forall (A : Type) (key key' : jsstring) (value : A)
                       (entries : list (jsstring * A)),
    DockerInspect.get key' (DockerInspect.set key value entries) =
      if jsstring_eqb key key' then Some value else DockerInspect.get key' entries.
Proof.
  intros A key key' value entries. induction entries as [|[k v] rest IH]; simpl.
  - reflexivity.
  - destruct (jsstring_eqb k key) eqn:Hk; simpl.
    + apply jsstring_eqb_eq in Hk. subst k.
      destruct (jsstring_eqb key key'); reflexivity.
    + destruct (jsstring_eqb k key') eqn:Hk'.
      * apply jsstring_eqb_eq in Hk'. subst k.
        destruct (jsstring_eqb key key') eqn:E; [|reflexivity].
        apply jsstring_eqb_eq in E. subst key.
        assert (jsstring_eqb key' key' = true) by now apply jsstring_eqb_eq.
        congruence.
      * exact IH.
Qed.

Lemma firstBindings_get :
  forall (entries : list (jsstring * option (list DockerInspect.HostBinding)))
         (ports : list (jsstring * DockerInspect.HostBinding)) (key : jsstring),
    NoDup (map fst entries) ->
    DockerInspect.get key
      (fold_left (fun ports entry =>
                    match snd entry with
                    | Some (binding :: _) => DockerInspect.set (fst entry) binding ports
                    | _ => ports
                    end) entries ports) =
      match DockerInspect.get key entries with
      | Some (Some (binding :: _)) => Some binding
      | Some _ => None
      | None => DockerInspect.get key ports
      end
    \/ (exists bindings, DockerInspect.get key entries = Some bindings /\
                         match bindings with Some (_ :: _) => False | _ => True end /\
                         DockerInspect.get key
                           (fold_left (fun ports entry =>
                                         match snd entry with
                                         | Some (binding :: _) =>
                                             DockerInspect.set (fst entry) binding ports
                                         | _ => ports
                                         end) entries ports)
                         = DockerInspect.get key ports).
Proof.
  induction entries as [|[k bindings] rest IH]; intros ports key Hnodup; simpl.
  - now left.
  - inversion Hnodup as [|? ? Hnotin Hrest]; subst.
    assert (Hget : jsstring_eqb k key = true -> DockerInspect.get key rest = None).
    { intros E. apply jsstring_eqb_eq in E. subst k.
      clear - Hnotin. induction rest as [|[k v] rest IH]; simpl in *; [reflexivity|].
      destruct (jsstring_eqb k key) eqn:E.
      - apply jsstring_eqb_eq in E. subst. exfalso. apply Hnotin. now left.
      - apply IH. intros H. apply Hnotin. now right. }
    destruct (jsstring_eqb k key) eqn:Hk.
    + specialize (Hget eq_refl).
      destruct bindings as [[|binding more]|].
      * right. exists (Some []). split; [reflexivity|]. split; [exact I|].
        destruct (IH ports key Hrest) as [H|(b & Hb & _)]; [|congruence].
        now rewrite H, Hget.
      * left. destruct (IH (DockerInspect.set k binding ports) key Hrest)
          as [H|(b & Hb & _)]; [|congruence].
        rewrite H, Hget, get_set, Hk. reflexivity.
      * right. exists None. split; [reflexivity|]. split; [exact I|].
        destruct (IH ports key Hrest) as [H|(b & Hb & _)]; [|congruence].
        now rewrite H, Hget.
    + assert (Hother : forall binding,
                 DockerInspect.get key (DockerInspect.set k binding ports)
                 = DockerInspect.get key ports) by (intros; now rewrite get_set, Hk).
      destruct bindings as [[|binding more]|]; simpl.
      * apply IH, Hrest.
      * destruct (IH (DockerInspect.set k binding ports) key Hrest)
          as [H|(b & Hb & Hempty & H)].
        -- left. rewrite H. now rewrite Hother.
        -- right. exists b. rewrite H. now rewrite Hother.
      * apply IH, Hrest.
Qed.

(** X25. The ports that [DockerClient.getContainerInfo] returns: for each
    container port of the inspection that has host bindings, the first of
    them, and nothing for a port whose bindings are null or empty or that
    the inspection does not list. *)
Theorem getContainerInfo_ports :
  forall (W : Type) (RT : Runtime W) (D : DockerInspect.Api W)
         (containerId : jsstring) (w w' : W) (info : DockerInspect.Inspect) entries,
    DockerInspect.inspect containerId w = (Fulfilled info, w') ->
    DockerInspect.Network info = Some {| DockerInspect.Ports := Some entries |} ->
    NoDup (map fst entries) ->
    exists result,
      DockerInspect.getContainerInfo containerId w = (Fulfilled result, w') /\
      DockerInspect.status result = DockerInspect.Status info /\
      forall port : jsstring,
        DockerInspect.get port (DockerInspect.ports result) =
          match DockerInspect.get port entries with
          | Some (Some (binding :: _)) => Some binding
          | _ => None
          end.
Proof.
  intros W RT D containerId w w' info entries Hinspect Hnetwork Hnodup.
  unfold DockerInspect.getContainerInfo. unfold_async. rewrite Hinspect, Hnetwork.
  eexists. split; [reflexivity|]. split; [reflexivity|].
  intros port. cbn [DockerInspect.ports]. unfold DockerInspect.firstBindings.
  destruct (firstBindings_get entries [] port Hnodup) as [H|(b & Hb & Hempty & H)].
  - rewrite H. destruct (DockerInspect.get port entries) as [[[|binding more]|]|];
      reflexivity.
  - rewrite H, Hb. destruct b as [[|binding more]|]; [reflexivity|contradiction|reflexivity].
Qed.

(** X26. [DockerClient.isContainerRunning] never raises: it answers true
    exactly when the inspection succeeds with the status "running", and
    false when the inspection fails, after the failure has been logged. *)
Theorem isContainerRunning_never_raises :
  forall (W : Type) (RT : Runtime W) (D : DockerInspect.Api W)
         (containerId : jsstring) (w : W),
    exists b w',
      DockerInspect.isContainerRunning containerId w = (Fulfilled b, w') /\
      (b = true <->
       exists info, fst (DockerInspect.inspect containerId w) = Fulfilled info /\
                    DockerInspect.Status info = js "running") /\
      (forall e w1, DockerInspect.inspect containerId w = (Rejected e, w1) ->
                    b = false /\
                    w' = console_error (js "Failed to get container info:") e w1).
Proof.
  intros W RT D containerId w.
  unfold DockerInspect.isContainerRunning, DockerInspect.getContainerInfo. unfold_async.
  destruct (DockerInspect.inspect containerId w) as [[info|e] w1] eqn:Hinspect;
    cbn [fst DockerInspect.status].
  - eexists. eexists. split; [reflexivity|]. split; [|discriminate].
    rewrite jsstring_eqb_eq. split.
    + intros Hrunning. now exists info.
    + intros (info' & E & Hrunning). now injection E as <-.
  - eexists. eexists. split; [reflexivity|]. split.
    + split; [discriminate|]. intros (info & E & _). discriminate E.
    + intros e' w1' E. injection E as <- <-. now split.
Qed.

(** * The route of the models *)

Section RouteFacts.
Variable number : Type.
Variable isZero : number -> bool.
Variable isTruthy : number -> bool.
Variable lessThan : number -> number -> bool.
Variable toLowerCase : jsstring -> jsstring.
Variable parseInt : jsstring -> number.
Variable toInteger : number -> Z.
Variable AvailableModels : Type.
Variable availableModels : AvailableModels.
Context {W : Type} {RT : Runtime W} {NW : ModelService.Network number W}.

Import ModelService.




(** X27. A request that names OpenRouter, as the provider or within the
    search term, is refused with status 400 when no API key is configured,
    before anything else is looked at: no model is fetched and the cache
    and the world stay as they were. *)
Theorem GET_without_key :
  forall (searchParams : list (jsstring * jsstring))
         (cache : option (CachedModels number)) (w : W),
    truthy (OPENROUTER_API_KEY w) = false ->
    (ModelsRoute.get (js "provider") searchParams = Some (js "openrouter") \/
     exists term, ModelsRoute.get (js "search") searchParams = Some term /\
                  includes (js "openrouter") term = true) ->
    ModelsRoute.GET isZero isTruthy lessThan toLowerCase parseInt toInteger availableModels
      searchParams (cache, w)
    = (Fulfilled {| ModelsRoute.body := ModelsRoute.KeyNotConfigured number AvailableModels;
                    ModelsRoute.status := 400 |},
       (cache, w)).
Proof.
  intros searchParams cache w Hkey Hrequest.
  unfold ModelsRoute.GET, try_catch. cbn [snd]. rewrite Hkey.
  assert (Hasked : ModelsRoute.equals searchParams "provider" "openrouter"
                   || match ModelsRoute.get (js "search") searchParams with
                      | Some term => includes (js "openrouter") term
                      | None => false
                      end = true).
  { destruct Hrequest as [Hprovider | (term & Hterm & Hincludes)].
    - unfold ModelsRoute.equals. rewrite Hprovider.
      assert (jsstring_eqb (js "openrouter") (js "openrouter") = true) as ->
          by now apply jsstring_eqb_eq.
      reflexivity.
    - rewrite Hterm, Hincludes. apply orb_true_r. }
  rewrite Hasked. reflexivity.
Qed.


End RouteFacts.

(** * The further properties at concrete inputs *)

(** The sandbox of [Lab.sandbox] is an instance that a caller can hold. *)
Lemma sandbox_reachable :
  reachable (DC := Lab.simple) Lab.parseInt (fst Lab.sandbox).
Proof.
  exact (reachable_call (DC := Lab.simple) CreateSandbox Lab.calm
           (reachable_new Lab.parseInt Lab.noEnv Lab.emptyConfig)).
Defined.

(** Two spaces in a row give an empty argument. *)
Lemma runCommand_argv_round_trip_witness :
  split 32 (js "npm  test") = [js "npm"; js ""; js "test"] /\
  join (js " ") (split 32 (js "npm  test")) = js "npm  test".
Proof.
  split; [reflexivity|].
  exact (proj1 (runCommand_argv_round_trip (js "npm  test"))).
Defined.

Lemma methods_before_createSandbox_witness :
  containerId Lab.fresh = None /\
  isAlive (DC := Lab.engine) (Lab.fresh, Lab.calm) = (Fulfilled false, (Lab.fresh, Lab.calm)) /\
  terminate (DC := Lab.engine) (Lab.fresh, Lab.calm) = (Fulfilled tt, (Lab.fresh, Lab.calm)).
Proof.
  split; [reflexivity|].
  destruct (methods_before_createSandbox (option Z) (DC := Lab.engine) Lab.fresh Lab.calm
              eq_refl) as (_ & _ & _ & _ & _ & Halive & Hterminate).
  exact (conj Halive Hterminate).
Defined.

(** The scripted engine publishes no port: there is no URL. *)
Lemma getSandboxUrl_shape_witness :
  exists u w',
    getSandboxUrl (DC := Lab.engine) (Lab.provisioned Lab.calm, Lab.calm)
      = (Fulfilled u, (Lab.provisioned Lab.calm, w')).
Proof.
  destruct (getSandboxUrl_shape (option Z) (DC := Lab.engine)
              (Lab.provisioned Lab.calm) Lab.calm) as (u & w' & Hrun & _).
  exists u, w'. exact Hrun.
Defined.

Lemma isAlive_never_raises_witness :
  exists b w',
    isAlive (DC := Lab.engine) (Lab.provisioned Lab.calm, Lab.calm)
      = (Fulfilled b, (Lab.provisioned Lab.calm, w')).
Proof.
  destruct (isAlive_never_raises (option Z) (DC := Lab.engine)
              (Lab.provisioned Lab.calm) Lab.calm) as (b & w' & Hrun & _).
  exists b, w'. exact Hrun.
Defined.

(** The engine refuses to stop the container: nothing is removed, and the
    instance is cleared. *)
Lemma terminate_stop_then_remove_witness :
  containerId (Lab.provisioned Lab.stubborn) = Some (js "c0ffee") /\
  Client.stopContainer (Api := Lab.engine) (js "c0ffee") Lab.stubborn
    = (Rejected (ErrorObj (js "No such container")), Lab.stubborn) /\
  terminate (DC := Lab.engine) (Lab.provisioned Lab.stubborn, Lab.stubborn)
    = (Fulfilled tt,
       (cleared (Lab.provisioned Lab.stubborn),
        console_error (js "Failed to terminate sandbox:")
          (ErrorObj (js "No such container")) Lab.stubborn)).
Proof.
  split; [reflexivity|]. split; [reflexivity|].
  exact (proj1 (terminate_stop_then_remove (option Z) (DC := Lab.engine)
                  (Lab.provisioned Lab.stubborn) Lab.stubborn 99%N (js "0ffee") eq_refl)
           (ErrorObj (js "No such container")) Lab.stubborn eq_refl).
Defined.

(** A write on a full disk. *)
Lemma file_methods_under_workdir_witness :
  reachable (DC := Lab.engine) Lab.parseInt (Lab.provisioned Lab.disk_full) /\
  containerId (Lab.provisioned Lab.disk_full) = Some (js "c0ffee") /\
  fst (writeFile (DC := Lab.engine) (js "a.txt") (js "a")
         (Lab.provisioned Lab.disk_full, Lab.disk_full))
    = Rejected (ErrorObj (js "Failed to write file: No space left on device")).
Proof.
  split; [exact (provisioned_reachable Lab.disk_full)|]. split; [reflexivity|].
  exact (f_equal fst
           (proj1 (file_methods_under_workdir (option Z) Lab.parseInt (DC := Lab.engine)
                     (Lab.provisioned Lab.disk_full) Lab.disk_full 99%N (js "0ffee")
                     (provisioned_reachable Lab.disk_full) eq_refl)
              (js "a.txt") (js "a"))).
Defined.

Lemma other_calls_keep_the_instance_witness :
  fst (snd (session (DC := Lab.engine)
              [RunCommand (js "npm test"); WriteFile (js "a.txt") (js "a"); IsAlive]
              (Lab.provisioned Lab.slow, Lab.slow)))
    = Lab.provisioned Lab.slow.
Proof.
  apply (other_calls_keep_the_instance (option Z) (DC := Lab.engine)).
  repeat constructor; discriminate.
Defined.

(** A second [createSandbox] on the same instance. *)
Lemma createSandbox_replaces_witness :
  exists info s',
    createSandbox (DC := Lab.engine) (Lab.provisioned Lab.calm, Lab.calm)
      = (Fulfilled info, s') /\
    getSandboxInfo s' = (Fulfilled (Some info), s') /\
    provider info = self_hosted.
Proof.
  destruct (createSandbox (DC := Lab.engine) (Lab.provisioned Lab.calm, Lab.calm))
    as [[info|e] s'] eqn:Hrun.
  - exists info, s'. split; [reflexivity|].
    destruct (createSandbox_replaces (option Z) (DC := Lab.engine)
                (Lab.provisioned Lab.calm) Lab.calm info s' Hrun) as (_ & Hinfo & Hprovider & _).
    exact (conj Hinfo Hprovider).
  - vm_compute in Hrun. discriminate Hrun.
Defined.

Lemma createSandbox_with_SimpleDockerClient_witness :
  fst (fetch_ping Lab.offline) <> Fulfilled true /\
  exists w',
    createSandbox (DC := SimpleDockerClient.api) (Lab.fresh, Lab.offline)
      = (Rejected (ErrorObj (js "Docker is not available or not running")),
         (Lab.fresh, w')).
Proof.
  split; [vm_compute; discriminate|].
  apply (proj2 (createSandbox_with_SimpleDockerClient (option Z) Lab.World Lab.runtime
                  Lab.fresh Lab.offline)).
  vm_compute. discriminate.
Defined.

Lemma runCommand_with_SimpleDockerClient_witness :
  reachable (DC := Lab.simple) Lab.parseInt (fst Lab.sandbox) /\
  exists result w',
    runCommand (DC := Lab.simple) (js "test -f package.json") (fst Lab.sandbox, Lab.calm)
      = (Fulfilled result, w') /\
    exitCode result = 1%Z.
Proof.
  split; [exact sandbox_reachable|].
  destruct (containerId (fst Lab.sandbox)) as [[|c id]|] eqn:Hid;
    try (vm_compute in Hid; discriminate Hid).
  eexists. eexists. split.
  - exact (runCommand_with_SimpleDockerClient (option Z) Lab.World Lab.parseInt Lab.runtime
             (fst Lab.sandbox) Lab.calm c id (js "test -f package.json")
             sandbox_reachable Hid).
  - reflexivity.
Defined.

Lemma parseListing_names_witness :
  In (js "package.json") (DockerClient.parseListing Lab.listing) /\
  js "package.json" <> [].
Proof.
  assert (Hin : In (js "package.json") (DockerClient.parseListing Lab.listing))
    by (vm_compute; left; reflexivity).
  split; [exact Hin|].
  exact (proj1 (parseListing_names Lab.listing (js "package.json") Hin)).
Defined.

Lemma execCommand_collects_output_witness :
  DockerClient.execCommand (D := Lab.daemon) (js "c0ffee") [js "ls"; js "-la"; js "/app"]
    Lab.calm
  = (Fulfilled {| stdout := Lab.listing; stderr := js ""; exitCode := 0; success := true |},
     Lab.record [js "ls"; js "-la"; js "/app"] Lab.calm).
Proof.
  exact (execCommand_collects_output Lab.World Lab.runtime Lab.daemon (js "c0ffee")
           [js "ls"; js "-la"; js "/app"] Lab.calm
           (Lab.record [js "ls"; js "-la"; js "/app"] Lab.calm)
           (Lab.record [js "ls"; js "-la"; js "/app"] Lab.calm)
           (Lab.record [js "ls"; js "-la"; js "/app"] Lab.calm)
           (Lab.record [js "ls"; js "-la"; js "/app"] Lab.calm)
           (js "exec-1")
           [{| Dockerode.chunk_stdout := Some Lab.listing; Dockerode.chunk_stderr := None |}]
           {| Dockerode.ExitCode := Some 0%Z; Dockerode.Status := js "running" |}
           eq_refl eq_refl eq_refl eq_refl).
Defined.

Lemma DockerClient_file_errors_witness :
  exists r w1,
    DockerClient.execCommand (D := Lab.daemon) (js "c0ffee") [js "cat"; js "package.json"]
      Lab.failing = (Fulfilled r, w1) /\
    DockerClient.readFile (D := Lab.daemon) (js "c0ffee") (js "package.json") Lab.failing =
      if success r then (Fulfilled (stdout r), w1)
      else (Rejected (ErrorObj (js "Failed to read file: " ++ stderr r)),
            console_error (js "Failed to read file:")
              (ErrorObj (js "Failed to read file: " ++ stderr r)) w1).
Proof.
  exact (proj1 (DockerClient_file_errors Lab.World Lab.runtime Lab.daemon (js "c0ffee")
                  (js "package.json") None Lab.failing)).
Defined.

Lemma filterModels_sound_witness :
  In Bench.llama
     (ModelService.filterModels Bench.isZero Bench.isTruthy Bench.lessThan Bench.toLowerCase
        Bench.catalogue Bench.ofMeta) /\
  exists p, ModelService.top_provider Bench.llama = Some p /\
            Bench.toLowerCase p = Bench.toLowerCase (js "meta").
Proof.
  assert (Hin : In Bench.llama
                   (ModelService.filterModels Bench.isZero Bench.isTruthy Bench.lessThan
                      Bench.toLowerCase Bench.catalogue Bench.ofMeta))
    by (vm_compute; left; reflexivity).
  split; [exact Hin|].
  destruct (filterModels_sound Z Bench.isZero Bench.isTruthy Bench.lessThan Bench.toLowerCase
              Bench.catalogue Bench.ofMeta Bench.llama Hin) as (_ & _ & _ & Hprovider & _).
  apply (Hprovider (js "meta")); [reflexivity | discriminate].
Defined.

Lemma filterModels_neutral_witness :
  ModelService.filterModels Bench.isZero Bench.isTruthy Bench.lessThan Bench.toLowerCase
    Bench.catalogue Bench.anything = Bench.catalogue.
Proof.
  apply (filterModels_neutral Z Bench.isZero Bench.isTruthy Bench.lessThan Bench.toLowerCase
           Bench.catalogue Bench.anything).
  - discriminate.
  - discriminate.
  - reflexivity.
  - left. reflexivity.
  - intros minimum E. discriminate E.
  - reflexivity.
Defined.

(** A model without a provider is not found under any provider. *)
Lemma filterModels_missing_fields_witness :
  ModelService.top_provider Bench.orphan = None /\
  truthy (ModelService.provider Bench.ofMeta) = true /\
  ~ In Bench.orphan
      (ModelService.filterModels Bench.isZero Bench.isTruthy Bench.lessThan Bench.toLowerCase
         Bench.catalogue Bench.ofMeta).
Proof.
  split; [reflexivity|]. split; [reflexivity|].
  exact (proj1 (proj2 (filterModels_missing_fields Z Bench.isZero Bench.isTruthy
                         Bench.lessThan Bench.toLowerCase Bench.catalogue Bench.ofMeta
                         Bench.orphan))
           eq_refl eq_refl).
Defined.

Lemma byPricing_partition_witness :
  ModelService.freeModels (ModelService.byPricing Bench.isZero Bench.catalogue)
    = ModelService.filterModels Bench.isZero Bench.isTruthy Bench.lessThan Bench.toLowerCase
        Bench.catalogue Bench.freeOnly.
Proof.
  exact (proj1 (byPricing_partition Z Bench.isZero Bench.isTruthy Bench.lessThan
                  Bench.toLowerCase Bench.catalogue)).
Defined.

(** Without a key there is a warning and no request. *)
Lemma fetchOpenRouterModels_never_raises_witness :
  truthy (ModelService.OPENROUTER_API_KEY Bench.keyless) = false /\
  exists w',
    ModelService.fetchOpenRouterModels (None, Bench.keyless) = (Fulfilled [], (None, w')) /\
    Bench.requests w' = 0.
Proof.
  split; [reflexivity|].
  destruct (fetchOpenRouterModels_never_raises Z (W := Bench.World) None Bench.keyless)
    as (l & w' & Hrun & Hkeyless & _).
  destruct (Hkeyless eq_refl) as [-> ->].
  eexists. split; [exact Hrun | reflexivity].
Defined.

(** A cache of one hour is returned without a request. *)
Lemma getModels_cache_witness :
  (Bench.clock Bench.online - ModelService.timestamp Bench.warm
   < ModelService.CACHE_DURATION)%Z /\
  exists w1,
    ModelService.getModels false (Some Bench.warm, Bench.online)
      = (Fulfilled Bench.catalogue, (Some Bench.warm, w1)) /\
    Bench.requests w1 = 0.
Proof.
  split; [reflexivity|].
  eexists. split.
  - exact (proj1 (getModels_cache Z (W := Bench.World) false (Some Bench.warm) Bench.online
                    _ _ eq_refl)
             Bench.warm eq_refl eq_refl eq_refl).
  - reflexivity.
Defined.

(** A forced refresh that fails leaves the cache as it was. *)
Lemma cache_never_empty_witness :
  ModelService.holdsModels (Some Bench.warm) /\
  ModelService.holdsModels
    (fst (snd (ModelService.getModels true (Some Bench.warm, Bench.unreachable)))).
Proof.
  assert (Hholds : ModelService.holdsModels (Some Bench.warm)) by (simpl; discriminate).
  split; [exact Hholds|].
  exact (proj1 (cache_never_empty Z Bench.isZero Bench.isTruthy Bench.lessThan
                  Bench.toLowerCase (W := Bench.World) (Some Bench.warm) Bench.unreachable
                  Hholds)
           true).
Defined.

Lemma getRecommendedModels_sorts_the_cache_witness :
  fst (ModelService.getRecommendedModels Bench.isZero 2 (Some Bench.warm, Bench.online))
    = Fulfilled [Bench.llama; Bench.orphan] /\
  option_map (@ModelService.models Z)
    (fst (snd (ModelService.getRecommendedModels Bench.isZero 2
                 (Some Bench.warm, Bench.online))))
    = Some [Bench.llama; Bench.orphan; Bench.gpt].
Proof.
  pose proof (proj1 (getRecommendedModels_sorts_the_cache Z Bench.isZero (W := Bench.World)
                       Bench.warm 2 Bench.online _ _ eq_refl eq_refl
                       ltac:(discriminate))) as Hrun.
  split.
  - exact (f_equal fst Hrun).
  - exact (f_equal (fun r => option_map (@ModelService.models Z) (fst (snd r))) Hrun).
Defined.

Lemma getAvailableProviders_sorted_witness :
  exists providers s',
    ModelService.getAvailableProviders (None, Bench.online) = (Fulfilled providers, s') /\
    NoDup providers.
Proof.
  destruct (ModelService.getAvailableProviders (number := Z) (None, Bench.online))
    as [[providers|e] s'] eqn:Hrun.
  - exists providers, s'. split; [reflexivity|].
    destruct (getAvailableProviders_sorted Z (W := Bench.World) (None, Bench.online) s'
                providers Hrun) as (all & _ & _ & Hnodup & _).
    exact Hnodup.
  - vm_compute in Hrun. discriminate Hrun.
Defined.

Lemma setupViteApp_with_SimpleDockerClient_witness :
  exists w',
    setupViteApp (DC := Lab.simple) Bench.rewriteManifest (fst Lab.sandbox, Lab.calm)
    = (Rejected (ErrorObj (js "Cannot set properties of undefined (setting 'dev')")),
       (fst Lab.sandbox, w')).
Proof.
  destruct (containerId (fst Lab.sandbox)) as [[|c id]|] eqn:Hid;
    try (vm_compute in Hid; discriminate Hid).
  destruct (setupViteApp_with_SimpleDockerClient (option Z) (W := Lab.World)
              Bench.rewriteManifest (fst Lab.sandbox) Lab.calm c id Hid) as (w' & Hrun).
  eexists. exact Hrun.
Defined.

(** Both commands exit with 127, and [restartViteServer] returns. *)
Lemma restartViteServer_reports_nothing_witness :
  containerId (Lab.provisioned Lab.failing) = Some (js "c0ffee") /\
  fst (restartViteServer (DC := Lab.engine) (Lab.provisioned Lab.failing, Lab.failing))
    = Fulfilled tt.
Proof.
  split; [reflexivity|].
  destruct (restartViteServer_reports_nothing (option Z) (DC := Lab.engine)
              (Lab.provisioned Lab.failing) Lab.failing 99%N (js "0ffee") _ _
              eq_refl eq_refl) as (_ & Hreturns & _).
  exact (f_equal fst (Hreturns _ eq_refl)).
Defined.

Lemma getContainerInfo_ports_witness :
  exists result,
    DockerInspect.getContainerInfo (D := Bench.inspector) (js "c0ffee") Lab.calm
      = (Fulfilled result, Lab.calm) /\
    DockerInspect.get (js "3000/tcp") (DockerInspect.ports result)
      = Some {| DockerInspect.HostIp := js "0.0.0.0"; DockerInspect.HostPort := js "32768" |} /\
    DockerInspect.get (js "5173/tcp") (DockerInspect.ports result) = None.
Proof.
  destruct (getContainerInfo_ports Lab.World Lab.runtime Bench.inspector (js "c0ffee")
              Lab.calm Lab.calm Bench.inspection _ eq_refl eq_refl)
    as (result & Hrun & _ & Hports).
  - repeat constructor; simpl; intuition discriminate.
  - exists result. split; [exact Hrun|]. split.
    + exact (Hports (js "3000/tcp")).
    + exact (Hports (js "5173/tcp")).
Defined.

(** The inspection fails: the answer is false. *)
Lemma isContainerRunning_never_raises_witness :
  exists w',
    DockerInspect.isContainerRunning (D := Bench.inspector) (js "c0ffee") Lab.blind
      = (Fulfilled false, w').
Proof.
  destruct (isContainerRunning_never_raises Lab.World Lab.runtime Bench.inspector
              (js "c0ffee") Lab.blind) as (b & w' & Hrun & _ & Hfails).
  destruct (Hfails (ErrorObj (js "No such container")) Lab.blind eq_refl) as [-> _].
  exists w'. exact Hrun.
Defined.

Lemma GET_without_key_witness :
  truthy (ModelService.OPENROUTER_API_KEY Bench.keyless) = false /\
  ModelsRoute.GET Bench.isZero Bench.isTruthy Bench.lessThan Bench.toLowerCase
    Bench.parseInt Bench.toInteger tt
    [(js "search", js "openrouter/auto"); (js "free", js "true")] (None, Bench.keyless)
  = (Fulfilled {| ModelsRoute.body := ModelsRoute.KeyNotConfigured Z unit;
                  ModelsRoute.status := 400 |},
     (None, Bench.keyless)).
Proof.
  split; [reflexivity|].
  apply (GET_without_key Z Bench.isZero Bench.isTruthy Bench.lessThan Bench.toLowerCase
           Bench.parseInt Bench.toInteger unit tt (W := Bench.World)).
  - reflexivity.
  - right. exists (js "openrouter/auto"). split; reflexivity.
Defined.


(** The content [it's] of a file. *)
Lemma writeFile_script_quoting_witness :
  DockerClient.writeCommand (js "/app/a.txt") (js "it's") =
    [js "sh"; js "-c"; js "echo 'it'\''s' > /app/a.txt"].
Proof.
  exact (proj1 (writeFile_script_quoting (js "/app/a.txt") (js "it's"))).
Defined.
